(** * CDAI form filler: a shallow embedding of [app.py]

    The development follows the layout of the Python module: the helper
    functions [split_pdf], [fill_page] and [merge_pdfs], then the request
    handler [process_files].  Python strings are byte strings, the record of
    a row ([row.to_dict()]) and the file system are finite maps, and the
    code that touches files runs in a small state-and-exception monad whose
    state is the file system. *)

From Stdlib Require Import ZArith Ascii.
From stdpp Require Import gmap strings pretty list.

Local Open Scope Z_scope.

(** ** Python strings *)

Module Py.

Definition nl : string := String (ascii_of_nat 10) "".

(** [sep.join(parts)] *)
Fixpoint join (sep : string) (parts : list string) : string :=
  match parts with
  | [] => ""
  | [x] => x
  | x :: rest => x +:+ sep +:+ join sep rest
  end.

(** [s.startswith(p)] *)
Fixpoint startswith (p s : string) : bool :=
  match p, s with
  | "", _ => true
  | String a p', String b s' => if decide (a = b) then startswith p' s' else false
  | String _ _, "" => false
  end.

(** [s.endswith(p)] *)
Definition endswith (p s : string) : bool :=
  startswith (String.rev p) (String.rev s).

Fixpoint drop (n : nat) (s : string) : string :=
  match n, s with
  | O, _ => s
  | S n', String _ s' => drop n' s'
  | S _, "" => ""
  end.

Fixpoint take (n : nat) (s : string) : string :=
  match n, s with
  | O, _ => ""
  | S n', String a s' => String a (take n' s')
  | S _, "" => ""
  end.

(** [s.rfind(c)] for a one-character [c]; [None] stands for [-1]. *)
Fixpoint rfind (c : ascii) (s : string) : option nat :=
  match s with
  | "" => None
  | String a s' =>
      match rfind c s' with
      | Some i => Some (S i)
      | None => if decide (a = c) then Some O else None
      end
  end.

(** [s.replace(old, new)] for a non-empty [old]: occurrences are found
    from the left and do not overlap.  [skip] counts the characters of a
    match that are still to be passed over. *)
Fixpoint replace_go (old new : string) (skip : nat) (s : string) : string :=
  match s with
  | "" => ""
  | String a s' =>
      match skip with
      | S k => replace_go old new k s'
      | O =>
          if startswith old s
          then new +:+ replace_go old new (Nat.pred (String.length old)) s'
          else String a (replace_go old new O s')
      end
  end.
Definition replace (old new s : string) : string := replace_go old new O s.

Definition lower_char (a : ascii) : ascii :=
  let n := nat_of_ascii a in
  if (Nat.leb 65 n && Nat.leb n 90)%bool then ascii_of_nat (n + 32) else a.

(** [s.lower()], on the ASCII letters. *)
Fixpoint lower (s : string) : string :=
  match s with
  | "" => ""
  | String a s' => String (lower_char a) (lower s')
  end.

(** [str.isspace] on one byte. *)
Definition is_space (a : ascii) : bool :=
  let n := nat_of_ascii a in
  (Ascii.is_space a || (Nat.leb 28 n && Nat.leb n 31))%bool.

Fixpoint lstrip (s : string) : string :=
  match s with
  | "" => ""
  | String a s' => if is_space a then lstrip s' else s
  end.

(** [s.strip()] *)
Definition strip (s : string) : string :=
  String.rev (lstrip (String.rev (lstrip s))).

Fixpoint lstrip_char (c : ascii) (s : string) : string :=
  match s with
  | "" => ""
  | String a s' => if decide (a = c) then lstrip_char c s' else s
  end.

(** [s.rstrip(c)] for a one-character [c]. *)
Definition rstrip_char (c : ascii) (s : string) : string :=
  String.rev (lstrip_char c (String.rev s)).

Fixpoint all_char (P : ascii → bool) (s : string) : bool :=
  match s with
  | "" => true
  | String a s' => P a && all_char P s'
  end.

End Py.

(** ** [os.path] (posixpath) *)

Module OsPath.

Definition sep : ascii := "/"%char.

(** [os.path.join(a, b)] *)
Definition join (a b : string) : string :=
  if Py.startswith "/" b then b
  else if (bool_decide (a = "") || Py.endswith "/" a)%bool then a +:+ b
  else a +:+ "/" +:+ b.

(** [os.path.basename(p)] *)
Definition basename (p : string) : string :=
  match Py.rfind sep p with
  | Some i => Py.drop (S i) p
  | None => p
  end.

(** [os.path.dirname(p)] *)
Definition dirname (p : string) : string :=
  match Py.rfind sep p with
  | Some i =>
      let head := Py.take (S i) p in
      if Py.all_char (λ a, bool_decide (a = sep)) head then head
      else Py.rstrip_char sep head
  | None => ""
  end.

(** [os.path.splitext(p)[1]] *)
Definition splitext_ext (p : string) : string :=
  match Py.rfind "."%char p with
  | None => ""
  | Some dotIndex =>
      let filenameIndex :=
        match Py.rfind sep p with Some i => S i | None => O end in
      if Nat.ltb dotIndex filenameIndex then ""
      else
        let leading := Py.take (dotIndex - filenameIndex) (Py.drop filenameIndex p) in
        if Py.all_char (λ a, bool_decide (a = "."%char)) leading then ""
        else Py.drop dotIndex p
  end.

End OsPath.

(** ** Records of the data file *)

(** A cell of a data frame row.  A finite float is kept as the text that
    Python's [str] prints for it; the three missing-value markers of pandas
    are separate constructors. *)
Inductive scalar :=
  | SStr (s : string)
  | SInt (z : Z)
  | SFloat (shown : string)
  | SBool (b : bool)
  | SNaN
  | SNaT
  | SNone.

Global Instance scalar_eq_dec : EqDecision scalar.
Proof. solve_decision. Defined.

(** [pd.notna(v)] *)
Definition notna (v : scalar) : bool :=
  match v with
  | SNaN | SNaT | SNone => false
  | _ => true
  end.

(** [str(v)], which is also what an f-string prints for [v]. *)
Definition str (v : scalar) : string :=
  match v with
  | SStr s => s
  | SInt z => pretty z
  | SFloat shown => shown
  | SBool true => "True"
  | SBool false => "False"
  | SNaN => "nan"
  | SNaT => "NaT"
  | SNone => "None"
  end.

(** [row.to_dict()]: a Python dict from column name to cell. *)
Abbreviation record := (gmap string scalar).

(** [data.get(key, default)] *)
Definition get (data : record) (key : string) (default : scalar) : scalar :=
  match data !! key with
  | Some v => v
  | None => default
  end.

(** ** Pages, documents and files *)

Record text_item := TextItem {
  ti_point : Z * Z;
  ti_text : string;
  ti_fontsize : Z;
  ti_rotate : Z;
  ti_color : Z * Z * Z;
}.

Global Instance text_item_eq_dec : EqDecision text_item.
Proof. solve_decision. Defined.

(** A page: the pre-printed content, named by a number, and the text
    inserted on top of it, oldest first. *)
Record page := Page {
  page_body : N;
  page_inserted : list text_item;
}.

Global Instance page_eq_dec : EqDecision page.
Proof. solve_decision. Defined.

(** An exception object: its class and the text [str(e)] prints. *)
Record exn := Exn {
  exn_class : string;
  exn_text : string;
}.

Global Instance exn_eq_dec : EqDecision exn.
Proof. solve_decision. Defined.

Inductive outcome (A : Type) :=
  | Ret (a : A)
  | Raise (e : exn).
Arguments Ret {A} a.
Arguments Raise {A} e.

Record table := Table {
  columns : list string;
  rows : list (list scalar);
}.

(** A member of a zip archive: a copy of a stored file. *)
Inductive member :=
  | MPdf (pages : list page)
  | MText (text : string)
  | MOther.

(** What is stored under a path.  A data file is kept as what each of the
    two pandas readers makes of its bytes. *)
Inductive file :=
  | FPdf (pages : list page)
  | FData (as_csv : outcome table) (as_excel : outcome table)
  | FText (text : string)
  | FZip (members : list (string * member)).

(** The file system: files by path and the set of directories.  Paths are
    compared as text: a path with a "." or ".." component is another key
    than the path it names. *)
Record world := World {
  files : gmap string file;
  dirs : gset string;
}.

(** ** The monad of the I/O code *)

Definition M (A : Type) : Type := world → outcome A * world.

Definition ret {A} (a : A) : M A := λ w, (Ret a, w).
Definition raise {A} (e : exn) : M A := λ w, (Raise e, w).
Definition bind {A B} (m : M A) (k : A → M B) : M B :=
  λ w, match m w with
       | (Ret a, w') => k a w'
       | (Raise e, w') => (Raise e, w')
       end.
(** [try: m  except Exception as e: h e] *)
Definition try_except {A} (m : M A) (h : exn → M A) : M A :=
  λ w, match m w with
       | (Ret a, w') => (Ret a, w')
       | (Raise e, w') => h e w'
       end.
Definition lift {A} (o : outcome A) : M A := λ w, (o, w).

Declare Scope io_scope.
Delimit Scope io_scope with io.
Notation "x <- m ;; k" := (bind m (λ x, k))
  (at level 100, m at next level, right associativity) : io_scope.
Notation "m ;; k" := (bind m (λ _, k))
  (at level 100, right associativity) : io_scope.
Local Open Scope io_scope.

(** [for x in xs: acc = body x acc] *)
Fixpoint for_each {A S} (xs : list A) (body : A → S → M S) (acc : S) : M S :=
  match xs with
  | [] => ret acc
  | x :: rest => acc' <- body x acc ;; for_each rest body acc'
  end.

(** ** The operating system *)

Module Os.

Definition FileNotFoundError (p : string) : exn :=
  Exn "FileNotFoundError" ("[Errno 2] No such file or directory: '" +:+ p +:+ "'").
Definition IsADirectoryError (p : string) : exn :=
  Exn "IsADirectoryError" ("[Errno 21] Is a directory: '" +:+ p +:+ "'").
Definition FileExistsError (p : string) : exn :=
  Exn "FileExistsError" ("[Errno 17] File exists: '" +:+ p +:+ "'").

Definition is_file (w : world) (p : string) : bool :=
  bool_decide (is_Some (files w !! p)).
Definition is_dir (w : world) (p : string) : bool :=
  bool_decide (p ∈ dirs w).

(** [os.path.exists(p)] *)
Definition exists_ (p : string) : M bool :=
  λ w, (Ret (is_file w p || is_dir w p), w).

(** The directory a new file goes into is there; a bare name goes
    into the working directory. *)
Definition parent_ok (w : world) (p : string) : bool :=
  let d := OsPath.dirname p in
  (bool_decide (d = "") || is_dir w d)%bool.

(** Create or overwrite the file at [p]. *)
Definition write (p : string) (f : file) : M unit :=
  λ w, if (is_dir w p || bool_decide (OsPath.basename p = ""))%bool
       then (Raise (IsADirectoryError p), w)
       else if parent_ok w p
       then (Ret (), World (<[p := f]> (files w)) (dirs w))
       else (Raise (FileNotFoundError p), w).

Definition read (p : string) : M file :=
  λ w, match files w !! p with
       | Some f => (Ret f, w)
       | None =>
           if is_dir w p then (Raise (IsADirectoryError p), w)
           else (Raise (FileNotFoundError p), w)
       end.

(** [os.remove(p)] *)
Definition remove (p : string) : M unit :=
  λ w, match files w !! p with
       | Some _ => (Ret (), World (delete p (files w)) (dirs w))
       | None =>
           if is_dir w p then (Raise (IsADirectoryError p), w)
           else (Raise (FileNotFoundError p), w)
       end.

(** The directory [p] and the directories above it. *)
Fixpoint ancestors (fuel : nat) (p : string) : list string :=
  match fuel with
  | O => []
  | S fuel' =>
      if bool_decide (p = "") then []
      else if Py.all_char (λ a, bool_decide (a = OsPath.sep)) p then []
      else p :: ancestors fuel' (OsPath.dirname p)
  end.

(** [os.makedirs(p, exist_ok=True)] *)
Definition makedirs (p : string) : M unit :=
  λ w, let chain := ancestors (S (String.length p)) p in
       match list_find (λ d, is_Some (files w !! d)) chain with
       | Some (_, d) => (Raise (FileExistsError d), w)
       | None => (Ret (), World (files w) (list_to_set chain ∪ dirs w))
       end.

(** [shutil.copy(src, dst)] for a [dst] that names a file. *)
Definition copy (src dst : string) : M unit :=
  f <- read src ;; write dst f.

End Os.

(** ** PyMuPDF ([fitz])

    The part of the library that [app.py] calls, with the behaviour the
    library documents: [open] raises on a path that is not there or is not
    a document, [load_page] raises on a page number out of range, and
    [Document.save] raises [ValueError] "cannot save with zero pages" on a
    document without pages and "save to original must be incremental" on
    the file the document was opened from. *)

Module Fitz.

(** An open document: the file it was opened from ([""] for a new one)
    and its pages. *)
Record document := Document {
  doc_name : string;
  doc_pages : list page;
}.

Definition FileNotFoundError (p : string) : exn :=
  Exn "FileNotFoundError" ("no such file: '" +:+ p +:+ "'").
Definition FileDataError (p : string) : exn :=
  Exn "FileDataError" ("Failed to open file '" +:+ p +:+ "'.").
Definition ValueError (msg : string) : exn := Exn "ValueError" msg.

(** [fitz.open()] *)
Definition new : document := Document "" [].

(** [fitz.open(p)] *)
Definition open (p : string) : M document :=
  λ w, match files w !! p with
       | Some (FPdf pages) => (Ret (Document p pages), w)
       | Some _ => (Raise (FileDataError p), w)
       | None => (Raise (FileNotFoundError p), w)
       end.

(** [len(doc)] *)
Definition len (d : document) : nat := length (doc_pages d).

(** [target.insert_pdf(src)]: all pages of [src] go to the end. *)
Definition insert_pdf (target src : document) : document :=
  Document (doc_name target) (doc_pages target ++ doc_pages src).

(** [target.insert_pdf(src, from_page=n, to_page=n)] *)
Definition insert_pdf_page (target src : document) (n : nat) : outcome document :=
  match doc_pages src !! n with
  | Some pg => Ret (Document (doc_name target) (doc_pages target ++ [pg]))
  | None => Raise (ValueError "bad page number(s)")
  end.

(** [doc.load_page(n)] *)
Definition load_page (d : document) (n : nat) : outcome page :=
  match doc_pages d !! n with
  | Some pg => Ret pg
  | None => Raise (ValueError "page not in document")
  end.

(** The document after its page [n], loaded before, was drawn on. *)
Definition with_page (d : document) (n : nat) (pg : page) : document :=
  Document (doc_name d) (<[n := pg]> (doc_pages d)).

(** [page.insert_text(point, text, fontsize=.., rotate=.., color=..)];
    an empty text draws nothing. *)
Definition insert_text (pg : page) (point : Z * Z) (text : string)
    (fontsize rotate : Z) (color : Z * Z * Z) : page :=
  if bool_decide (text = "") then pg
  else Page (page_body pg)
            (page_inserted pg ++ [TextItem point text fontsize rotate color]).

(** [doc.save(filename)]: refused on the file the document was opened
    from and on a document without pages. *)
Definition save (d : document) (filename : string) : M unit :=
  if bool_decide (filename = doc_name d)
  then raise (ValueError "save to original must be incremental")
  else if bool_decide (doc_pages d = [])
  then raise (ValueError "cannot save with zero pages")
  else Os.write filename (FPdf (doc_pages d)).

End Fitz.

(** ** pandas *)

Module Pandas.

Definition ParserError (p : string) : exn :=
  Exn "ParserError" ("Error tokenizing data in '" +:+ p +:+ "'").
Definition ExcelFormatError : exn :=
  Exn "ValueError" "Excel file format cannot be determined, you must specify an engine manually.".

(** [pd.read_csv(p)] *)
Definition read_csv (p : string) : M table :=
  f <- Os.read p ;;
  match f with
  | FData as_csv _ => lift as_csv
  | _ => raise (ParserError p)
  end.

(** [pd.read_excel(p)]: the reader looks at the bytes, not at the name. *)
Definition read_excel (p : string) : M table :=
  f <- Os.read p ;;
  match f with
  | FData _ as_excel => lift as_excel
  | _ => raise ExcelFormatError
  end.

(** [row.to_dict()]: a later column of the same name wins. *)
Definition to_dict (cols : list string) (cells : list scalar) : record :=
  foldl (λ (d : record) kv, <[kv.1 := kv.2]> d) ∅ (zip cols cells).

(** [df.iterrows()] with the default index 0, 1, ...  (An index that
    [read_csv] takes from the first column is not modelled; what is proved
    of the loop is proved for any integer labels.) *)
Definition iterrows (df : table) : list (Z * record) :=
  imap (λ i cells, (Z.of_nat i, to_dict (columns df) cells)) (rows df).

End Pandas.

(** ** Helper functions of [app.py] *)

Definition UPLOAD_FOLDER : string := "uploads".
Definition COMPLETED_FOLDER : string := "completed".

(** [f"page_{page_num + 1}.pdf"] *)
Definition page_file (page_num : nat) : string :=
  "page_" +:+ pretty (page_num + 1)%nat +:+ ".pdf".

(** The body of [for page_num in range(len(pdf_document))]. *)
Definition split_page (pdf_document : Fitz.document) (output_dir : string)
    (page_num : nat) (split_paths : list string) : M (list string) :=
  let split_pdf_path := OsPath.join output_dir (page_file page_num) in
  let split_paths := split_paths ++ [split_pdf_path] in
  new_pdf <- lift (Fitz.insert_pdf_page Fitz.new pdf_document page_num) ;;
  Fitz.save new_pdf split_pdf_path ;;
  ret split_paths.

Definition split_pdf (input_pdf_path output_dir : string) : M (list string) :=
  pdf_document <- Fitz.open input_pdf_path ;;
  for_each (seq 0 (Fitz.len pdf_document)) (split_page pdf_document output_dir) [].

(** A value of a placement table: one point [(x, y)], or a tuple of
    points. *)
Inductive coord :=
  | At (x y : Z)
  | Each (points : list (Z * Z)).

Abbreviation placement := (list (string * coord)).

Definition IndexError : exn := Exn "IndexError" "tuple index out of range".

Definition draw (pg : page) (value : string) (x y : Z) : page :=
  Fitz.insert_text pg (x, y + 5) value 12 0 (0, 0, 0).

(** The body of [if field in data and pd.notna(data[field])]. *)
Definition fill_field (pg : page) (value : string) (c : coord) : outcome page :=
  match c with
  | Each [] => Raise IndexError
  | Each points => Ret (foldl (λ pg '(x, y), draw pg value x y) pg points)
  | At x y => Ret (draw pg value x y)
  end.

(** The loop [for field, coord in coordinates.items()]. *)
Fixpoint fill_fields (pg : page) (data : record) (coordinates : placement)
    : outcome page :=
  match coordinates with
  | [] => Ret pg
  | (field, c) :: rest =>
      match data !! field with
      | Some v =>
          if notna v
          then match fill_field pg (str v) c with
               | Ret pg' => fill_fields pg' data rest
               | Raise e => Raise e
               end
          else fill_fields pg data rest
      | None => fill_fields pg data rest
      end
  end.

Definition fill_page (pdf_path : string) (data : record) (coordinates : placement)
    : M string :=
  pdf_document <- Fitz.open pdf_path ;;
  pg <- lift (Fitz.load_page pdf_document 0) ;;
  pg <- lift (fill_fields pg data coordinates) ;;
  let temp_pdf_path := Py.replace ".pdf" "_filled.pdf" pdf_path in
  Fitz.save (Fitz.with_page pdf_document 0 pg) temp_pdf_path ;;
  ret temp_pdf_path.

(** The body of [for pdf_path in pdf_paths]. *)
Definition merge_page (pdf_path : string) (merged_pdf : Fitz.document)
    : M Fitz.document :=
  present <- Os.exists_ pdf_path ;;
  if (present : bool)
  then pdf_document <- Fitz.open pdf_path ;;
       ret (Fitz.insert_pdf merged_pdf pdf_document)
  else ret merged_pdf.

Definition merge_pdfs (output_pdf_path : string) (pdf_paths : list string) : M unit :=
  merged_pdf <- for_each pdf_paths merge_page Fitz.new ;;
  Fitz.save merged_pdf output_pdf_path.

(** ** The per-record pipeline of [process_files] *)

Definition coords_p1 : placement :=
  [("mc", At 75 250); ("lastname", At 75 330); ("firstname", At 75 360);
   ("dob", At 75 400); ("wt", At 75 430); ("ht", At 75 475)].
Definition coords_p3 : placement := [("wt", At 325 525)].

Definition patient_name (data : record) : string :=
  str (get data "firstname" (SStr "")) +:+ " " +:+ str (get data "lastname" (SStr "N/A")).

Definition row_identifier (index : Z) (data : record) : string :=
  "Row " +:+ pretty (index + 2) +:+ " (Patient: " +:+ patient_name data +:+ ")".

Definition filename (data : record) : string :=
  str (get data "lastname" (SStr "unknown_lastname")) +:+ "_" +:+
  str (get data "firstname" (SStr "unknown_firstname")) +:+ "_CDAI.pdf".

Definition success_entry (index : Z) (data : record) : string :=
  "SUCCESS: " +:+ row_identifier index data +:+ " -> Generated " +:+ filename data.

Definition error_entry (index : Z) (data : record) (e : exn) : string :=
  "ERROR: " +:+ row_identifier index data +:+
  " - An unexpected error occurred: " +:+ exn_text e.

(** The four [if len(pages) > k] statements: the page sequence handed to
    the merge. *)
Definition fill_pages (pages : list string) (data : record) : M (list string) :=
  let filled_pages := [] in
  filled_pages <-
    match pages !! 0%nat with
    | Some p => f <- fill_page p data coords_p1 ;; ret (filled_pages ++ [f])
    | None => ret filled_pages
    end ;;
  filled_pages <-
    match pages !! 1%nat with
    | Some p => ret (filled_pages ++ [p])
    | None => ret filled_pages
    end ;;
  filled_pages <-
    match pages !! 2%nat with
    | Some p => f <- fill_page p data coords_p3 ;; ret (filled_pages ++ [f])
    | None => ret filled_pages
    end ;;
  ret (if decide (3 < length pages)%nat
       then filled_pages ++ drop 3 pages else filled_pages).

(** [for p in ps: if os.path.exists(p): os.remove(p)] *)
Definition remove_all (ps : list string) : M unit :=
  for_each ps
    (λ p _, present <- Os.exists_ p ;;
            if (present : bool) then Os.remove p else ret ())
    ().

(** The body of the [try] statement up to the two [append]s: split, stamp,
    merge, then remove the intermediate files. *)
Definition try_body (session_template_path session_upload_folder out_pdf : string)
    (data : record) : M unit :=
  pages <- split_pdf session_template_path session_upload_folder ;;
  filled_pages <- fill_pages pages data ;;
  merge_pdfs out_pdf filled_pages ;;
  remove_all (pages ++ filled_pages).

(** [out_pdf = os.path.join(session_completed_folder, filename)] *)
Definition out_pdf_of (session_completed_folder : string) (data : record) : string :=
  OsPath.join session_completed_folder (filename data).

(** The loop state: [processing_log] and [generated_files]. *)
Record batch := Batch {
  processing_log : list string;
  generated_files : list string;
}.

(** One turn of [for index, row in df.iterrows()]. *)
Definition process_row
    (session_template_path session_upload_folder session_completed_folder : string)
    (row : Z * record) (st : batch) : M batch :=
  let '(index, data) := row in
  let out_pdf := out_pdf_of session_completed_folder data in
  try_except
    (try_body session_template_path session_upload_folder out_pdf data ;;
     ret (Batch (processing_log st ++ [success_entry index data])
                (generated_files st ++ [out_pdf])))
    (λ e, ret (Batch (processing_log st ++ [error_entry index data e])
                     (generated_files st))).

(** ** The request handler *)

Module Zipfile.

(** [zipfile.ZipFile(p, 'w')] *)
Definition create (p : string) : M unit := Os.write p (FZip []).

Definition member_of (f : file) : member :=
  match f with
  | FPdf pages => MPdf pages
  | FText text => MText text
  | _ => MOther
  end.

(** [zf.write(f, arcname=name)] on the archive at [p] *)
Definition write (p f name : string) : M unit :=
  src <- Os.read f ;;
  zf <- Os.read p ;;
  match zf with
  | FZip members => Os.write p (FZip (members ++ [(name, member_of src)]))
  | _ => raise (Exn "BadZipFile" "File is not a zip file")
  end.

End Zipfile.

(** What the view function hands back to Flask.  An exception that leaves
    the function is the [Raise] of the monad. *)
Inductive response :=
  | Status (body : string) (code : Z)
  | SendFile (path : string).

(** [rename(columns={...})] *)
Definition synonyms : list (string * string) :=
  [("birthdate", "dob"); ("medicarenumber", "mc"); ("infusionlocation", "location");
   ("height", "ht"); ("weight", "wt")].

Definition rename_column (c : string) : string :=
  match list_find (λ kv, kv.1 = c) synonyms with
  | Some (_, (_, new)) => new
  | None => c
  end.

(** [c.strip().lower().replace(" ", "")], then the renaming *)
Definition normalise_column (c : string) : string :=
  rename_column (Py.replace " " "" (Py.lower (Py.strip c))).

Definition header : string := "--- CDAI PDF Processing Report ---".
Definition rule : string := Py.nl +:+ "---" +:+ Py.nl.
Definition footer : string := Py.nl +:+ "---" +:+ Py.nl +:+ "Report finished.".
Definition empty_message : string :=
  "Processing finished, but the data file was empty or no actions were taken.".

(** An uploaded file: the name the client gave and the bytes. *)
Record upload := Upload {
  upload_filename : string;
  upload_payload : file;
}.

Section ProcessFiles.

(** [werkzeug.utils.secure_filename] *)
Variable secure_filename : string → string.
(** The working directory of the server, and the text that
    [pd.Timestamp.now().strftime('%Y%m%d_%H%M%S_%f')] gives. *)
Variables (cwd now : string).

Definition LOCAL_TEMPLATE_PATH : string :=
  OsPath.join cwd "BLANK_CDAI_APP_DEC-25.pdf".
Definition run_id : string := secure_filename now.
Definition session_upload_folder : string := OsPath.join UPLOAD_FOLDER run_id.
Definition session_completed_folder : string := OsPath.join COMPLETED_FOLDER run_id.
Definition session_template_path : string :=
  OsPath.join session_upload_folder "template.pdf".
Definition report_path : string :=
  OsPath.join session_completed_folder "processing_report.txt".
Definition zip_path : string :=
  OsPath.join session_completed_folder ("CDAI_processed_" +:+ run_id +:+ ".zip").

(** Lines 120-127: choose the reader by the extension, then normalise the
    column names. *)
Definition read_data (data_filename data_path : string) : M table :=
  let ext := Py.lower (OsPath.splitext_ext data_filename) in
  df <- (if bool_decide (ext = ".csv")
         then Pandas.read_csv data_path else Pandas.read_excel data_path) ;;
  ret (Table (normalise_column <$> columns df) (rows df)).

Definition initial_log (data_filename : string) : list string :=
  [header; "Data file: " +:+ data_filename;
   "Using Default Template: " +:+ LOCAL_TEMPLATE_PATH; rule].

(** Lines 129-185: the log header and the loop over the rows. *)
Definition run_rows (data_filename : string) (df : table) : M batch :=
  for_each (Pandas.iterrows df)
    (process_row session_template_path session_upload_folder session_completed_folder)
    (Batch (initial_log data_filename) []).

(** Lines 187-214: the report, the empty-batch test and the archive. *)
Definition finish (st : batch) : M response :=
  let processing_log := processing_log st ++ [footer] in
  let report_content := Py.join Py.nl processing_log in
  Os.write report_path (FText report_content) ;;
  if (bool_decide (generated_files st = []) && (length processing_log <=? 4)%nat)%bool
  then ret (Status empty_message 400)
  else
    Zipfile.create zip_path ;;
    for_each (generated_files st)
      (λ f _, Zipfile.write zip_path f (OsPath.basename f)) () ;;
    Zipfile.write zip_path report_path "processing_report.txt" ;;
    ret (SendFile zip_path).

(** Lines 105-118: the session folders, the uploaded file and the copy
    of the template.  Gives [data_filename] and [data_path]. *)
Definition prepare (data_file : upload) : M (string * string) :=
  Os.makedirs session_upload_folder ;;
  Os.makedirs session_completed_folder ;;
  let data_filename := secure_filename (upload_filename data_file) in
  let data_path := OsPath.join session_upload_folder data_filename in
  Os.write data_path (upload_payload data_file) ;;
  Os.copy LOCAL_TEMPLATE_PATH session_template_path ;;
  ret (data_filename, data_path).

Definition process_files (data_file : option upload) : M response :=
  match data_file with
  | None => ret (Status "Missing data file" 400)
  | Some data_file =>
      present <- Os.exists_ LOCAL_TEMPLATE_PATH ;;
      if negb present
      then ret (Status "Server Error: Default PDF template not found." 500)
      else if bool_decide (upload_filename data_file = "")
      then ret (Status "No selected file" 400)
      else
        names <- prepare data_file ;;
        df <- read_data names.1 names.2 ;;
        st <- run_rows names.1 df ;;
        finish st
  end.

End ProcessFiles.

(** ** Running the model on small inputs *)

Module Demo.

(** [secure_filename] on names that are already safe. *)
Definition secure_filename (s : string) : string := s.
Definition cwd : string := "/srv/app".
Definition now : string := "20250101_120000_000000".

Definition template : list page := [Page 1 []; Page 2 []; Page 3 []].

Definition w0 : world :=
  World {[ "/srv/app/BLANK_CDAI_APP_DEC-25.pdf" := FPdf template ]}
        {[ "/srv/app" ]}.

Definition cols : list string :=
  ["FirstName"; "LastName"; "BirthDate"; "Weight"; "Height"; "MedicareNumber"].

Definition csv (rs : list (list scalar)) : file :=
  FData (Ret (Table cols rs)) (Raise Pandas.ExcelFormatError).
Definition workbook (rs : list (list scalar)) : file :=
  FData (Raise (Pandas.ParserError "")) (Ret (Table cols rs)).

Definition ann : list scalar :=
  [SStr "Ann"; SStr "Lee"; SStr "1980-02-03"; SInt 70; SInt 170; SStr "1234"].
Definition bob : list scalar :=
  [SStr "Bob"; SStr "Ray"; SStr "1975-05-06"; SFloat "81.5"; SInt 180; SNaN].

(** Ann again, with a last name that holds a slash, and John, whose
    LastName cell is empty. *)
Definition ann_slash : list scalar :=
  [SStr "Ann"; SStr "A/B"; SStr "1980-02-03"; SInt 70; SInt 170; SStr "1234"].
Definition john : list scalar :=
  [SStr "John"; SNaN; SStr "1990-01-01"; SInt 80; SInt 175; SStr "99"].

(** Ann once more, with a last name of two lines (a quoted CSV cell that
    holds a line break). *)
Definition ann_two_lines : list scalar :=
  [SStr "Ann"; SStr ("Lee" +:+ Py.nl +:+ "Smith"); SStr "1980-02-03"; SInt 70;
   SInt 170; SStr "1234"].

(** The record of a row, as the loop sees it. *)
Definition record_of (cells : list scalar) : record :=
  Pandas.to_dict (normalise_column <$> cols) cells.

Definition up : string := session_upload_folder secure_filename now.
Definition comp : string := session_completed_folder secure_filename now.
Definition tpl : string := session_template_path secure_filename now.

(** The file system when the loop over the rows starts. *)
Definition started : world :=
  (prepare secure_filename cwd now (Upload "patients.csv" (csv [])) w0).2.

Definition run (name : string) (f : file) : outcome response * world :=
  process_files secure_filename cwd now (Some (Upload name f)) w0.

Definition archive (r : outcome response * world) : option file :=
  match r.1 with
  | Ret (SendFile p) => files r.2 !! p
  | _ => None
  end.

End Demo.

(** ** Notions used in the statements *)

(** [field in data and pd.notna(data[field])] *)
Definition present (data : record) (field : string) : bool :=
  match data !! field with
  | Some v => notna v
  | None => false
  end.

(** The placement table without the entry of [field]. *)
Definition without (field : string) (coordinates : placement) : placement :=
  filter (λ fc, fc.1 ≠ field) coordinates.

(** Text drawn from the value of a field other than [field] that the
    record holds and that is not a missing-value marker. *)
Definition drawn_from (data : record) (field : string) (it : text_item) : Prop :=
  ∃ f v, f ≠ field ∧ data !! f = Some v ∧ notna v = true ∧ ti_text it = str v.

(** The names of the members of the archive that a run sent back. *)
Definition member_names (r : outcome response * world) : option (list string) :=
  match r.1 with
  | Ret (SendFile p) =>
      match files r.2 !! p with
      | Some (FZip members) => Some (members.*1)
      | _ => None
      end
  | _ => None
  end.

(** The text of the report that a run left in the session folder. *)
Definition report_of (report_path : string) (r : outcome response * world)
    : option string :=
  match files r.2 !! report_path with
  | Some (FText text) => Some text
  | _ => None
  end.

(** [os.path.join(output_dir, f"page_{page_num + 1}.pdf")] *)
Definition page_path (output_dir : string) (page_num : nat) : string :=
  OsPath.join output_dir (page_file page_num).

(** [pdf_path.replace(".pdf", "_filled.pdf")] *)
Definition filled_path (pdf_path : string) : string :=
  Py.replace ".pdf" "_filled.pdf" pdf_path.

(** The files that the pipeline of one record creates in the upload folder
    for a template of [n] pages, [2 < n]. *)
Definition intermediates (up : string) (n : nat) : list string :=
  (page_path up <$> seq 0 n)
  ++ [filled_path (page_path up 0); filled_path (page_path up 2)].

(** A file can be created at [p]: no directory has this name, the name
    does not end in a slash and the folder is there. *)
Definition can_create (w : world) (p : string) : bool :=
  negb (Os.is_dir w p) && negb (bool_decide (OsPath.basename p = ""))
  && Os.parent_ok w p.

Definition is_digit (a : ascii) : bool :=
  match Ascii.is_nat a with Some _ => true | None => false end.

Definition not_dot (a : ascii) : bool := negb (bool_decide (a = "."%char)).

(** What [os.path.join] puts before a relative second argument. *)
Definition dir_prefix (a : string) : string :=
  if (bool_decide (a = "") || Py.endswith "/" a)%bool then a else a +:+ "/".

(** The number of records of [rows], processed in turn from the file
    system [w], for which the body of the [try] statement did not raise. *)
Fixpoint successes (tpl up comp : string) (rows : list (Z * record)) (w : world)
    : nat :=
  match rows with
  | [] => 0
  | (index, data) :: rest =>
      let r := try_body tpl up (out_pdf_of comp data) data w in
      (match r.1 with Ret _ => 1 | Raise _ => 0 end
       + successes tpl up comp rest r.2)%nat
  end.

(** The split of a template with the pages [pages] is on disk: one
    single-page file per page. *)
Definition split_done (up : string) (pages : list page) (w : world) : Prop :=
  ∀ i pg, pages !! i = Some pg →
    files w !! page_path up i = Some (FPdf [pg]).

(** [m] changes no directory, and no file at a path outside [S]. *)
Definition touches_only {A} (S : string → Prop) (m : M A) : Prop :=
  ∀ w o w', m w = (o, w') →
    dirs w' = dirs w ∧ ∀ q, ¬ S q → files w' !! q = files w !! q.

(** The paths that the pipeline of one record may write or remove: the
    output document, the split pages and the two stamped pages. *)
Definition record_scope (up out : string) (q : string) : Prop :=
  q = out ∨ (∃ i, q = page_path up i)
  ∨ q = filled_path (page_path up 0) ∨ q = filled_path (page_path up 2).

(** The points of a value of a placement table. *)
Definition points_of (c : coord) : list (Z * Z) :=
  match c with
  | At x y => [(x, y)]
  | Each points => points
  end.

(** The texts that stamping a page with [coordinates] adds, in the order of
    the table: one per point of every field whose value is there, is no
    missing-value marker and prints as a non-empty text. *)
Definition stamps (data : record) (coordinates : placement) : list text_item :=
  flat_map
    (λ fc : string * coord,
       match data !! fc.1 with
       | Some v =>
           if (notna v && negb (bool_decide (str v = "")))%bool
           then (λ pt : Z * Z, TextItem (pt.1, pt.2 + 5) (str v) 12 0 (0, 0, 0))
                  <$> points_of fc.2
           else []
       | None => []
       end)
    coordinates.

(** The report entry of a row whose body ended with [o]: [None] when it
    returned, [Some e] when it raised [e]. *)
Definition entry_of (row : Z * record) (o : option exn) : string :=
  match o with
  | None => success_entry row.1 row.2
  | Some e => error_entry row.1 row.2 e
  end.

(** The output paths of the rows whose body returned. *)
Fixpoint generated_of (comp : string) (rows : list (Z * record))
    (os : list (option exn)) : list string :=
  match rows, os with
  | row :: rows', None :: os' => out_pdf_of comp row.2 :: generated_of comp rows' os'
  | _ :: rows', Some _ :: os' => generated_of comp rows' os'
  | _, _ => []
  end.

(** [os.path.exists(p)] as a test on the file system. *)
Definition exists_in (w : world) (p : string) : bool :=
  (Os.is_file w p || Os.is_dir w p)%bool.

Definition is_upper (a : ascii) : bool :=
  let n := nat_of_ascii a in (Nat.leb 65 n && Nat.leb n 90)%bool.

Definition not_space (a : ascii) : bool := negb (bool_decide (a = " "%char)).

Definition not_slash (a : ascii) : bool := negb (bool_decide (a = "/"%char)).

(** The two stamped files of a page sequence. *)
Definition stamped_of (pages : list string) (q : string) : Prop :=
  (∃ p, pages !! 0%nat = Some p ∧ q = filled_path p)
  ∨ (∃ p, pages !! 2%nat = Some p ∧ q = filled_path p).

(** The exception of [fitz.open] on a path that holds no document. *)
Definition open_error (w : world) (p : string) : exn :=
  match files w !! p with
  | Some _ => Fitz.FileDataError p
  | None => Fitz.FileNotFoundError p
  end.

(** The text that [draw] puts on a page for the point [pt]. *)
Definition item_at (value : string) (pt : Z * Z) : text_item :=
  TextItem (pt.1, pt.2 + 5) value 12 0 (0, 0, 0).

(** The last components of the paths that the pipeline of one record may
    write or remove: the name of the output document, page_N.pdf,
    page_1_filled.pdf and page_3_filled.pdf. *)
Definition record_names (out : string) (n : string) : Prop :=
  n = OsPath.basename out ∨ (∃ i, n = page_file i)
  ∨ n = filled_path (page_file 0) ∨ n = filled_path (page_file 2).

(** How the body of the [try] statement ends for each of [rows], processed
    in turn from the file system [w]: [None] when it returns, [Some e] when
    it raises [e]. *)
Fixpoint outcomes (tpl up comp : string) (rows : list (Z * record)) (w : world)
    : list (option exn) :=
  match rows with
  | [] => []
  | (index, data) :: rest =>
      let r := try_body tpl up (out_pdf_of comp data) data w in
      match r.1 with Ret _ => None | Raise e => Some e end
      :: outcomes tpl up comp rest r.2
  end.

(** The file system after the turns of the loop for [rows], started
    from [w]. *)
Fixpoint world_after (tpl up comp : string) (rows : list (Z * record)) (w : world)
    : world :=
  match rows with
  | [] => w
  | (index, data) :: rest =>
      world_after tpl up comp rest
        (try_body tpl up (out_pdf_of comp data) data w).2
  end.

(** The characters of a printed integer. *)
Definition is_sign_or_digit (a : ascii) : bool :=
  (is_digit a || bool_decide (a = "-"%char))%bool.

(** The number of line breaks in a text, and the number of lines of a text
    file with this content. *)
Fixpoint breaks (s : string) : nat :=
  match s with
  | "" => 0
  | String a s' =>
      ((if bool_decide (a = ascii_of_nat 10) then 1 else 0) + breaks s')%nat
  end.

Definition line_count (s : string) : nat := S (breaks s).

(** * Properties *)

(** ** The model on small inputs *)

Example join_rel : OsPath.join "uploads" "page_1.pdf" = "uploads/page_1.pdf".
Proof. reflexivity. Qed.
Example join_abs : OsPath.join "uploads" "/tmp/x.pdf" = "/tmp/x.pdf".
Proof. reflexivity. Qed.
Example dirname_file : OsPath.dirname "completed/r/A/B_J_CDAI.pdf" = "completed/r/A".
Proof. reflexivity. Qed.
Example dirname_plain : OsPath.dirname "x.pdf" = "".
Proof. reflexivity. Qed.
Example basename_file : OsPath.basename "completed/r/B_J_CDAI.pdf" = "B_J_CDAI.pdf".
Proof. reflexivity. Qed.
Example splitext_csv : Py.lower (OsPath.splitext_ext "Patients.CSV") = ".csv".
Proof. reflexivity. Qed.
Example splitext_hidden : OsPath.splitext_ext ".csv" = "".
Proof. reflexivity. Qed.
Example splitext_tar : OsPath.splitext_ext "a.tar.gz" = ".gz".
Proof. reflexivity. Qed.
Example replace_ext : Py.replace ".pdf" "_filled.pdf" "u/page_1.pdf" = "u/page_1_filled.pdf".
Proof. reflexivity. Qed.
Example strip_spaces : Py.strip "  Last Name " = "Last Name".
Proof. reflexivity. Qed.
Example join_lines : Py.join "," ["a"; "b"; "c"] = "a,b,c".
Proof. reflexivity. Qed.

(** ** Strings *)

Module PyFacts.

Lemma app_cons a (s t : string) : String a s +:+ t = String a (s +:+ t).
Proof. reflexivity. Qed.

Lemma app_nil_l (t : string) : "" +:+ t = t.
Proof. reflexivity. Qed.

Lemma app_nil_r (s : string) : s +:+ "" = s.
Proof. induction s as [|a s IH]; [done|]. by rewrite app_cons, IH. Qed.

Lemma app_assoc (s t u : string) : (s +:+ t) +:+ u = s +:+ t +:+ u.
Proof. induction s as [|a s IH]; [done|]. by rewrite !app_cons, IH. Qed.

Lemma app_length (s t : string) :
  String.length (s +:+ t) = (String.length s + String.length t)%nat.
Proof. induction s as [|a s IH]; [done|]. rewrite app_cons. simpl. by rewrite IH. Qed.

Lemma all_char_app P (s t : string) :
  Py.all_char P (s +:+ t) = (Py.all_char P s && Py.all_char P t)%bool.
Proof.
  induction s as [|a s IH]; [done|].
  rewrite app_cons. simpl. by rewrite IH, andb_assoc.
Qed.

Lemma rev_app_eq (s t : string) : String.rev_app s t = String.rev s +:+ t.
Proof.
  unfold String.rev. revert t. induction s as [|a s IH]; intros t; [done|].
  simpl. rewrite (IH (String a t)), (IH (String a "")).
  by rewrite app_assoc.
Qed.

Lemma rev_cons a (s : string) : String.rev (String a s) = String.rev s +:+ String a "".
Proof. unfold String.rev at 1. simpl. apply rev_app_eq. Qed.

Lemma rev_app (s t : string) : String.rev (s +:+ t) = String.rev t +:+ String.rev s.
Proof.
  induction s as [|a s IH].
  - rewrite app_nil_l. by rewrite app_nil_r.
  - by rewrite app_cons, !rev_cons, IH, app_assoc.
Qed.

Lemma all_char_rev P (s : string) : Py.all_char P (String.rev s) = Py.all_char P s.
Proof.
  induction s as [|a s IH]; [done|].
  rewrite rev_cons, all_char_app, IH. simpl.
  rewrite andb_true_r. apply andb_comm.
Qed.

(** Two texts that start with digits and go on with a character that is
    not a digit agree on the digits, on the character and on the rest. *)
Lemma split_at_non_digit (a b : string) c1 c2 (s t : string) :
  Py.all_char is_digit a = true → Py.all_char is_digit b = true →
  is_digit c1 = false → is_digit c2 = false →
  a +:+ String c1 s = b +:+ String c2 t → a = b ∧ c1 = c2 ∧ s = t.
Proof.
  revert b. induction a as [|x a IH]; intros [|y b] Ha Hb H1 H2 Heq;
    rewrite ?app_cons, ?app_nil_l in Heq; simplify_eq/=.
  - done.
  - apply andb_true_iff in Hb as [Hb _]. congruence.
  - apply andb_true_iff in Ha as [Ha _]. congruence.
  - apply andb_true_iff in Ha as [_ Ha]. apply andb_true_iff in Hb as [_ Hb].
    destruct (IH b Ha Hb H1 H2) as (-> & -> & ->); done.
Qed.

Lemma pretty_N_char_digit x : is_digit (pretty_N_char x) = true.
Proof. unfold pretty_N_char. by repeat case_match. Qed.

Lemma pretty_N_go_digits x s :
  Py.all_char is_digit s = true → Py.all_char is_digit (pretty_N_go x s) = true.
Proof.
  revert s. induction (N.lt_wf_0 x) as [x _ IH]; intros s Hs.
  destruct (decide (x = 0)%N) as [->|Hx]; [by rewrite pretty_N_go_0|].
  rewrite pretty_N_go_step by lia. apply IH.
  - apply N.div_lt; lia.
  - simpl. by rewrite pretty_N_char_digit, Hs.
Qed.

Lemma pretty_nat_digits (n : nat) : Py.all_char is_digit (pretty n) = true.
Proof.
  unfold pretty, pretty_nat, pretty, pretty_N.
  case_decide; [done|]. by apply pretty_N_go_digits.
Qed.

Lemma digits_no_dot (s : string) :
  Py.all_char is_digit s = true → Py.all_char not_dot s = true.
Proof.
  induction s as [|a s IH]; [done|]. simpl.
  intros [Ha Hs]%andb_true_iff. rewrite (IH Hs), andb_true_r.
  unfold not_dot. case_bool_decide as Hdot; [|done]. by subst a.
Qed.

(** [replace] on a path whose only dot is that of the extension. *)
Lemma replace_extension (s new : string) :
  Py.all_char not_dot s = true →
  Py.replace ".pdf" new (s +:+ ".pdf") = s +:+ new.
Proof.
  unfold Py.replace. induction s as [|a s IH]; intros Hs.
  - rewrite !app_nil_l. simpl. by rewrite app_nil_r.
  - simpl in Hs. apply andb_true_iff in Hs as [Ha Hs].
    rewrite !app_cons. simpl.
    destruct (decide ("."%char = a)) as [<-|_]; [done|].
    by rewrite (IH Hs).
Qed.

Lemma join_relative (a : string) c (b : string) :
  c ≠ "/"%char → OsPath.join a (String c b) = dir_prefix a +:+ String c b.
Proof.
  intros Hc. unfold OsPath.join, dir_prefix. simpl.
  destruct (decide ("/"%char = c)) as [<-|_]; [done|].
  destruct (bool_decide (a = "") || Py.endswith "/" a)%bool; [done|].
  by rewrite app_assoc.
Qed.

Lemma dir_prefix_no_dot (a : string) :
  Py.all_char not_dot a = true → Py.all_char not_dot (dir_prefix a) = true.
Proof.
  intros Ha. unfold dir_prefix.
  destruct (bool_decide (a = "") || Py.endswith "/" a)%bool; [done|].
  by rewrite all_char_app, Ha.
Qed.

End PyFacts.

(** ** The monad *)

Lemma bind_ret_eq {A B} (m : M A) (k : A → M B) w a w1 :
  m w = (Ret a, w1) → bind m k w = k a w1.
Proof. intros H. unfold bind. by rewrite H. Qed.

Lemma bind_raise_eq {A B} (m : M A) (k : A → M B) w e w1 :
  m w = (Raise e, w1) → bind m k w = (Raise e, w1).
Proof. intros H. unfold bind. by rewrite H. Qed.

Lemma bind_Ret_inv {A B} (m : M A) (k : A → M B) w b w' :
  bind m k w = (Ret b, w') → ∃ a w1, m w = (Ret a, w1) ∧ k a w1 = (Ret b, w').
Proof.
  unfold bind. destruct (m w) as [[a|e] w1]; [eauto | discriminate].
Qed.

Lemma for_each_app {A S} (xs ys : list A) (body : A → S → M S) acc w :
  for_each (xs ++ ys) body acc w
  = bind (for_each xs body acc) (for_each ys body) w.
Proof.
  revert acc w. induction xs as [|x xs IH]; intros acc w; simpl.
  - reflexivity.
  - unfold bind. destruct (body x acc w) as [[acc'|e] w1]; [|done].
    rewrite IH. reflexivity.
Qed.

(** ** One record never stops the loop *)

Section Rows.

Variables (tpl up comp : string).

Lemma process_row_ok index data st w w1 :
  try_body tpl up (out_pdf_of comp data) data w = (Ret (), w1) →
  process_row tpl up comp (index, data) st w
  = (Ret (Batch (processing_log st ++ [success_entry index data])
                (generated_files st ++ [out_pdf_of comp data])), w1).
Proof.
  intros H. unfold process_row, try_except, bind, out_pdf_of in *.
  by rewrite H.
Qed.

Lemma process_row_error index data st w e w1 :
  try_body tpl up (out_pdf_of comp data) data w = (Raise e, w1) →
  process_row tpl up comp (index, data) st w
  = (Ret (Batch (processing_log st ++ [error_entry index data e])
                (generated_files st)), w1).
Proof.
  intros H. unfold process_row, try_except, bind, out_pdf_of in *.
  by rewrite H.
Qed.

(** Whatever the body of the [try] does, the turn of the loop returns,
    with one more entry in the log. *)
Lemma process_row_returns row st w :
  ∃ st' w', process_row tpl up comp row st w = (Ret st', w')
    ∧ length (processing_log st') = S (length (processing_log st)).
Proof.
  destruct row as [index data].
  destruct (try_body tpl up (out_pdf_of comp data) data w) as [[[]|e] w1] eqn:H.
  - eexists _, _. split; [by apply process_row_ok|].
    simpl. rewrite length_app. simpl. lia.
  - eexists _, _. split; [by apply process_row_error|].
    simpl. rewrite length_app. simpl. lia.
Qed.

Lemma rows_return rows st w :
  ∃ st' w', for_each rows (process_row tpl up comp) st w = (Ret st', w')
    ∧ length (processing_log st') = (length (processing_log st) + length rows)%nat.
Proof.
  revert st w. induction rows as [|row rows IH]; intros st w; simpl.
  - eexists _, _. split; [reflexivity|]. lia.
  - destruct (process_row_returns row st w) as (st1 & w1 & H1 & L1).
    destruct (IH st1 w1) as (st2 & w2 & H2 & L2).
    exists st2, w2. split.
    + by rewrite (bind_ret_eq _ _ _ _ _ H1).
    + lia.
Qed.

End Rows.

(** C1.  When the body of the [try] statement raises for a record, whether
    in the split, a stamp or the merge, [process_row] does not raise: it
    appends the line "ERROR: <row identifier> - An unexpected error
    occurred: <text of the exception>" to the log, leaves the generated
    files as they were, and the loop goes on with the remaining records and
    comes to its end. *)
Theorem C1_failing_record_is_logged_and_skipped
    (tpl up comp : string) (index : Z) (data : record) (rest : list (Z * record))
    (st : batch) (w w1 : world) (e : exn) :
  try_body tpl up (OsPath.join comp (filename data)) data w = (Raise e, w1) →
  let st1 := Batch (processing_log st ++
                      ["ERROR: " +:+ row_identifier index data +:+
                       " - An unexpected error occurred: " +:+ exn_text e])
                   (generated_files st) in
  process_row tpl up comp (index, data) st w = (Ret st1, w1)
  ∧ for_each ((index, data) :: rest) (process_row tpl up comp) st w
    = for_each rest (process_row tpl up comp) st1 w1
  ∧ ∃ st' w', for_each ((index, data) :: rest) (process_row tpl up comp) st w
              = (Ret st', w').
Proof.
  intros H st1.
  pose proof (process_row_error tpl up comp index data st w e w1 H) as Hrow.
  change (Batch _ _) with st1 in Hrow.
  split; [exact Hrow|]. split.
  - simpl. by rewrite (bind_ret_eq _ _ _ _ _ Hrow).
  - destruct (rows_return tpl up comp ((index, data) :: rest) st w)
      as (st' & w' & Hall & _).
    by exists st', w'.
Qed.

Lemma C1_witness :
  let data := Demo.record_of Demo.ann_slash in
  ∃ e w1,
    try_body Demo.tpl Demo.up (OsPath.join Demo.comp (filename data)) data Demo.started
    = (Raise e, w1)
    ∧ process_row Demo.tpl Demo.up Demo.comp (0, data) (Batch [] []) Demo.started
      = (Ret (Batch ["ERROR: " +:+ row_identifier 0 data +:+
                     " - An unexpected error occurred: " +:+ exn_text e] []), w1).
Proof.
  intros data. eexists _, _. split; [vm_compute; reflexivity|].
  refine (proj1 (C1_failing_record_is_logged_and_skipped
                   Demo.tpl Demo.up Demo.comp 0 data [] (Batch [] []) _ _ _ _)).
  vm_compute; reflexivity.
Defined.

(** ** Stamping *)

Lemma draw_inserted pg value x y :
  page_body (draw pg value x y) = page_body pg
  ∧ ∃ new, page_inserted (draw pg value x y) = page_inserted pg ++ new
           ∧ Forall (λ it, ti_text it = value) new.
Proof.
  unfold draw, Fitz.insert_text. case_bool_decide; simpl.
  - split; [done|]. exists []. by rewrite app_nil_r.
  - split; [done|]. eexists [_]. split; [done|]. by constructor.
Qed.

Lemma draw_points_inserted points pg value :
  let pg' := foldl (λ pg '(x, y), draw pg value x y) pg points in
  page_body pg' = page_body pg
  ∧ ∃ new, page_inserted pg' = page_inserted pg ++ new
           ∧ Forall (λ it, ti_text it = value) new.
Proof.
  revert pg. induction points as [|[x y] points IH]; intros pg; simpl.
  - split; [done|]. exists []. by rewrite app_nil_r.
  - destruct (IH (draw pg value x y)) as (Hb & new2 & Hi & Hall).
    destruct (draw_inserted pg value x y) as (Hb1 & new1 & Hi1 & Hall1).
    split; [congruence|]. exists (new1 ++ new2). split.
    + by rewrite Hi, Hi1, <-app_assoc.
    + by apply Forall_app.
Qed.

Lemma fill_field_inserted pg value c pg' :
  fill_field pg value c = Ret pg' →
  page_body pg' = page_body pg
  ∧ ∃ new, page_inserted pg' = page_inserted pg ++ new
           ∧ Forall (λ it, ti_text it = value) new.
Proof.
  destruct c as [x y|[|pt points]]; simpl; intros H; simplify_eq.
  - apply draw_inserted.
  - apply (draw_points_inserted (pt :: points)).
Qed.

Lemma fill_fields_without data field coordinates pg :
  present data field = false →
  fill_fields pg data coordinates = fill_fields pg data (without field coordinates).
Proof.
  intros Habs. revert pg.
  induction coordinates as [|[f c] rest IH]; intros pg; [done|].
  unfold without in *. rewrite filter_cons. simpl.
  destruct (decide (f ≠ field)) as [Hne|Heq]; simpl.
  - destruct (data !! f) as [v|]; [|apply IH].
    destruct (notna v); [|apply IH].
    destruct (fill_field pg (str v) c); [apply IH | done].
  - apply dec_stable in Heq as ->. unfold present in Habs.
    destruct (data !! field) as [v|]; [|apply IH].
    rewrite Habs. apply IH.
Qed.

Lemma fill_fields_inserted data field coordinates pg pg' :
  present data field = false →
  fill_fields pg data coordinates = Ret pg' →
  page_body pg' = page_body pg
  ∧ ∃ new, page_inserted pg' = page_inserted pg ++ new
           ∧ Forall (drawn_from data field) new.
Proof.
  intros Habs. revert pg.
  induction coordinates as [|[f c] rest IH]; intros pg; simpl.
  - intros [= <-]. split; [done|]. exists []. by rewrite app_nil_r.
  - destruct (data !! f) as [v|] eqn:Hf; [|apply IH].
    destruct (notna v) eqn:Hv; [|apply IH].
    destruct (fill_field pg (str v) c) as [pg1|e] eqn:H1; [|done].
    intros H2. apply IH in H2 as (Hb2 & new2 & Hi2 & Hall2).
    apply fill_field_inserted in H1 as (Hb1 & new1 & Hi1 & Hall1).
    split; [congruence|]. exists (new1 ++ new2). split.
    + by rewrite Hi2, Hi1, <-app_assoc.
    + apply Forall_app. split; [|done].
      eapply Forall_impl; [exact Hall1|]. intros it Hit.
      exists f, v. repeat split; try done.
      intros ->. unfold present in Habs. rewrite Hf in Habs. congruence.
Qed.

(** Stamping keeps the pre-printed content of the page. *)
Lemma fill_fields_body data coordinates pg pg' :
  fill_fields pg data coordinates = Ret pg' → page_body pg' = page_body pg.
Proof.
  revert pg. induction coordinates as [|[f c] rest IH]; intros pg; simpl.
  - by intros [= <-].
  - destruct (data !! f) as [v|]; [|apply IH].
    destruct (notna v); [|apply IH].
    destruct (fill_field pg (str v) c) as [pg1|e] eqn:H1; [|done].
    intros H2. apply IH in H2. apply fill_field_inserted in H1 as [H1 _].
    congruence.
Qed.

(** C2.  When the record has no value for a field of the placement table,
    or the value is a missing-value marker (NaN, NaT, None), stamping does
    for that field what it does when the field is not in the table at all:
    the page after the loop, and the outcome and files of [fill_page], are
    those of the table without the field.  Every text that the loop puts on
    the page is the [str] of a value of another field that is not a
    missing-value marker, so the texts "nan", "NaT" and "None" of a marker
    are never drawn. *)
Theorem C2_absent_field_is_not_stamped
    (data : record) (field : string) (coordinates : placement) :
  present data field = false →
  (∀ pg, fill_fields pg data coordinates
         = fill_fields pg data (without field coordinates))
  ∧ (∀ pdf_path w, fill_page pdf_path data coordinates w
                   = fill_page pdf_path data (without field coordinates) w)
  ∧ (∀ pg pg', fill_fields pg data coordinates = Ret pg' →
       page_body pg' = page_body pg
       ∧ ∃ new, page_inserted pg' = page_inserted pg ++ new
                ∧ Forall (drawn_from data field) new).
Proof.
  intros Habs. split; [|split].
  - intros pg. by apply fill_fields_without.
  - intros pdf_path w. unfold fill_page, bind, lift.
    destruct (Fitz.open pdf_path w) as [[d|e] w1]; [|done].
    destruct (Fitz.load_page d 0) as [pg|e]; [|done].
    by rewrite (fill_fields_without data field coordinates pg Habs).
  - intros pg pg'. by apply fill_fields_inserted.
Qed.

Lemma C2_witness :
  let data := Demo.record_of Demo.bob in
  present data "mc" = false
  ∧ fill_fields (Page 1 []) data coords_p1
    = fill_fields (Page 1 []) data (without "mc" coords_p1).
Proof.
  intros data. split; [vm_compute; reflexivity|].
  refine (proj1 (C2_absent_field_is_not_stamped data "mc" coords_p1 _) (Page 1 [])).
  vm_compute; reflexivity.
Defined.

(** ** Names in the report and in the archive *)

Lemma get_missing (data : record) key default :
  data !! key = None → get data key default = default.
Proof. intros H. unfold get. by rewrite H. Qed.

(** A record that has no "lastname" key at all gets the placeholder. *)
Lemma filename_missing_lastname (data : record) :
  data !! "lastname" = None →
  filename data = "unknown_lastname_" +:+
    str (get data "firstname" (SStr "unknown_firstname")) +:+ "_CDAI.pdf".
Proof. intros H. unfold filename. by rewrite (get_missing _ _ _ H). Qed.

Lemma filename_missing_firstname (data : record) :
  data !! "firstname" = None →
  filename data = str (get data "lastname" (SStr "unknown_lastname")) +:+
    "_unknown_firstname_CDAI.pdf".
Proof. intros H. unfold filename. by rewrite (get_missing _ _ _ H). Qed.

(** C9, at a row whose LastName cell is empty.  pandas gives the cell the
    value NaN, the key "lastname" is in the record, [data.get] returns NaN
    and the f-string prints it: the document is named nan_John_CDAI.pdf and
    the report says "Patient: John nan"; the placeholder unknown_lastname
    is not used.  The row is logged as SUCCESS. *)
Theorem C9_empty_name_cell_is_printed_as_nan :
  let data := Demo.record_of Demo.john in
  let r := Demo.run "patients.csv" (Demo.csv [Demo.john]) in
  data !! "lastname" = Some SNaN
  ∧ filename data = "nan_John_CDAI.pdf"
  ∧ member_names r = Some ["nan_John_CDAI.pdf"; "processing_report.txt"]
  ∧ report_of (report_path Demo.secure_filename Demo.now) r
    = Some (Py.join Py.nl
        [header; "Data file: patients.csv";
         "Using Default Template: /srv/app/BLANK_CDAI_APP_DEC-25.pdf"; rule;
         "SUCCESS: Row 2 (Patient: John nan) -> Generated nan_John_CDAI.pdf";
         footer]).
Proof. vm_compute. repeat split; reflexivity. Qed.

(** C10.  For a record without the key "lastname", the row identifier of
    the report lines ends the patient name with "N/A" (after the first
    name, or after nothing when "firstname" is missing too), while the file
    name starts with "unknown_lastname" (and goes on with
    "unknown_firstname" when "firstname" is missing): the SUCCESS line of
    the record shows both names. *)
Theorem C10_report_and_file_name_use_different_placeholders
    (index : Z) (data : record) :
  data !! "lastname" = None →
  let first_in_report :=
    match data !! "firstname" with Some v => str v | None => "" end in
  let first_in_file :=
    match data !! "firstname" with Some v => str v | None => "unknown_firstname" end in
  row_identifier index data
    = "Row " +:+ pretty (index + 2) +:+ " (Patient: " +:+ first_in_report +:+ " N/A)"
  ∧ filename data = "unknown_lastname_" +:+ first_in_file +:+ "_CDAI.pdf"
  ∧ success_entry index data
    = "SUCCESS: Row " +:+ pretty (index + 2) +:+ " (Patient: " +:+ first_in_report +:+
      " N/A) -> Generated unknown_lastname_" +:+ first_in_file +:+ "_CDAI.pdf"
  ∧ str (get data "lastname" (SStr "N/A"))
    ≠ str (get data "lastname" (SStr "unknown_lastname")).
Proof.
  intros Hlast first_in_report first_in_file.
  assert (row_identifier index data
    = "Row " +:+ pretty (index + 2) +:+ " (Patient: " +:+ first_in_report +:+ " N/A)")
    as Hrow.
  { unfold row_identifier, patient_name, first_in_report, get. rewrite Hlast.
    destruct (data !! "firstname"); simpl; by rewrite ?PyFacts.app_assoc. }
  assert (filename data = "unknown_lastname_" +:+ first_in_file +:+ "_CDAI.pdf")
    as Hfile.
  { rewrite (filename_missing_lastname _ Hlast). unfold first_in_file, get.
    by destruct (data !! "firstname"). }
  split; [exact Hrow|]. split; [exact Hfile|]. split.
  - unfold success_entry. rewrite Hrow, Hfile.
    by rewrite ?PyFacts.app_assoc.
  - rewrite !(get_missing _ _ _ Hlast). simpl. discriminate.
Qed.

Lemma C10_witness :
  let data : record := {[ "firstname" := SStr "Ann" ]} in
  data !! "lastname" = None
  ∧ row_identifier 0 data = "Row 2 (Patient: Ann N/A)"
  ∧ filename data = "unknown_lastname_Ann_CDAI.pdf".
Proof.
  intros data.
  assert (data !! "lastname" = None) as H by (vm_compute; reflexivity).
  split; [exact H|].
  destruct (C10_report_and_file_name_use_different_placeholders 0 data H)
    as (Hrow & Hfile & _).
  split; [exact Hrow | exact Hfile].
Defined.

(** ** Merging nothing *)

(** C6, as the code has it.  [merge_pdfs] on an empty sequence opens a new
    document, adds nothing and saves it, and the library refuses to save a
    document without pages: the merge raises [ValueError] and the file
    system is as before, so no output document is written. *)
Theorem C6_merging_nothing_raises (output_pdf_path : string) (w : world) :
  merge_pdfs output_pdf_path [] w
  = (Raise (Fitz.ValueError
      (if bool_decide (output_pdf_path = "")
       then "save to original must be incremental"
       else "cannot save with zero pages")), w).
Proof.
  unfold merge_pdfs, bind, Fitz.save; simpl.
  by case_bool_decide.
Qed.

(** The claim of C6 at a concrete call: the merge of no pages into a
    writable path does not succeed and leaves no file there. *)
Lemma C6_counterexample :
  let out := OsPath.join Demo.comp "x_y_CDAI.pdf" in
  Os.parent_ok Demo.started out = true
  ∧ merge_pdfs out [] Demo.started
    = (Raise (Fitz.ValueError "cannot save with zero pages"), Demo.started)
  ∧ (merge_pdfs out [] Demo.started).1 ≠ Ret ()
  ∧ files (merge_pdfs out [] Demo.started).2 !! out = None.
Proof. vm_compute. repeat split; try reflexivity. discriminate. Qed.

(** ** The intermediate page files *)

Lemma remove_step_spec p w :
  ∃ o w', bind (Os.exists_ p) (λ present : bool,
                  if present then Os.remove p else ret ()) w = (o, w')
    ∧ dirs w' = dirs w
    ∧ (∀ q, files w !! q = None → files w' !! q = None)
    ∧ (∀ q, q ≠ p → files w' !! q = files w !! q)
    ∧ (o = Ret () → files w' !! p = None)
    ∧ (Os.is_dir w p = false → o = Ret ()).
Proof.
  unfold bind, Os.exists_, Os.remove, Os.is_file, ret.
  destruct (files w !! p) as [f|] eqn:Hp.
  - rewrite bool_decide_eq_true_2 by eauto. simpl. rewrite Hp.
    eexists _, _. split; [reflexivity|]. simpl. repeat split.
    + intros q Hq. destruct (decide (q = p)) as [->|Hqp].
      * apply lookup_delete_eq.
      * by rewrite lookup_delete_ne.
    + intros q Hqp. by rewrite lookup_delete_ne.
    + intros _. apply lookup_delete_eq.
  - rewrite bool_decide_eq_false_2 by (intros [? ?]; congruence).
    destruct (Os.is_dir w p) eqn:Hd; simpl; rewrite ?Hp, ?Hd.
    + eexists _, _. split; [reflexivity|]. repeat split; try done.
    + eexists _, _. split; [reflexivity|]. repeat split; try done.
Qed.

Lemma remove_all_spec ps w :
  ∃ o w', remove_all ps w = (o, w')
    ∧ dirs w' = dirs w
    ∧ (∀ q, files w !! q = None → files w' !! q = None)
    ∧ (∀ q, q ∉ ps → files w' !! q = files w !! q)
    ∧ (o = Ret () → ∀ p, p ∈ ps → files w' !! p = None)
    ∧ ((∀ p, p ∈ ps → Os.is_dir w p = false) → o = Ret ()).
Proof.
  unfold remove_all. revert w. induction ps as [|p ps IH]; intros w; simpl.
  - eexists _, _. split; [reflexivity|]. repeat split; try done.
    intros _ p Hp. by apply elem_of_nil in Hp.
  - destruct (remove_step_spec p w)
      as (o1 & w1 & H1 & Hd1 & Hnone1 & Hother1 & Hp1 & Hok1).
    unfold bind at 1. rewrite H1. destruct o1 as [[]|e].
    + destruct (IH w1) as (o2 & w2 & H2 & Hd2 & Hnone2 & Hother2 & Hp2 & Hok2).
      exists o2, w2. split; [exact H2|]. repeat split.
      * congruence.
      * auto.
      * intros q Hq. apply not_elem_of_cons in Hq as [Hqp Hq].
        rewrite Hother2 by done. by apply Hother1.
      * intros Ho q Hq. apply elem_of_cons in Hq as [->|Hq]; [|by apply Hp2].
        apply Hnone2. by apply Hp1.
      * intros Hdirs. apply Hok2. intros q Hq.
        unfold Os.is_dir. rewrite Hd1. apply Hdirs. by right.
    + eexists _, _. split; [reflexivity|]. repeat split; try done.
      * intros q Hq. apply not_elem_of_cons in Hq as [Hqp Hq]. by apply Hother1.
      * intros Hdirs. apply Hok1, Hdirs. by left.
Qed.

(** On the path where nothing raises, the record's split pages and stamped
    pages are gone when the body of the [try] ends. *)
Lemma success_path_removes_pages tpl up out data w w' :
  try_body tpl up out data w = (Ret (), w') →
  ∃ pages filled_pages w1 w2,
    split_pdf tpl up w = (Ret pages, w1)
    ∧ fill_pages pages data w1 = (Ret filled_pages, w2)
    ∧ ∀ p, p ∈ pages ++ filled_pages → files w' !! p = None.
Proof.
  unfold try_body. intros H.
  apply bind_Ret_inv in H as (pages & w1 & Hsplit & H).
  apply bind_Ret_inv in H as (filled & w2 & Hfill & H).
  apply bind_Ret_inv in H as ([] & w3 & Hmerge & H).
  exists pages, filled, w1, w2. split; [done|]. split; [done|].
  destruct (remove_all_spec (pages ++ filled) w3)
    as (o & w4 & Hrm & _ & _ & _ & Hgone & _).
  rewrite H in Hrm. simplify_eq. by apply Hgone.
Qed.

(** C5, at a record whose pipeline fails in the merge.  The last name
    "A/B" puts the output document into a folder that does not exist, the
    save of the merged document raises, and control goes to the [except]
    branch, which removes nothing: the three split pages and the two
    stamped pages of the record are still in the session folder after the
    record, and after the whole batch. *)
Theorem C5_failed_record_leaves_its_pages :
  let data := Demo.record_of Demo.ann_slash in
  let r := process_row Demo.tpl Demo.up Demo.comp (0, data) (Batch [] []) Demo.started in
  let batch := Demo.run "patients.csv" (Demo.csv [Demo.ann_slash]) in
  let left := ["uploads/20250101_120000_000000/page_1.pdf";
               "uploads/20250101_120000_000000/page_2.pdf";
               "uploads/20250101_120000_000000/page_3.pdf";
               "uploads/20250101_120000_000000/page_1_filled.pdf";
               "uploads/20250101_120000_000000/page_3_filled.pdf"] in
  r.1 = Ret (Batch
    ["ERROR: Row 2 (Patient: Ann A/B) - An unexpected error occurred: [Errno 2] No such file or directory: 'completed/20250101_120000_000000/A/B_Ann_CDAI.pdf'"]
    [])
  ∧ forallb (Os.is_file r.2) left = true
  ∧ member_names batch = Some ["processing_report.txt"]
  ∧ forallb (Os.is_file batch.2) left = true.
Proof. vm_compute. repeat split; reflexivity. Qed.

(** The same template and session with a record that goes through: the
    five files are gone after the record. *)
Example pages_removed_after_success :
  let data := Demo.record_of Demo.ann in
  let r := process_row Demo.tpl Demo.up Demo.comp (0, data) (Batch [] []) Demo.started in
  r.1 = Ret (Batch ["SUCCESS: Row 2 (Patient: Ann Lee) -> Generated Lee_Ann_CDAI.pdf"]
                   ["completed/20250101_120000_000000/Lee_Ann_CDAI.pdf"])
  ∧ existsb (Os.is_file r.2)
      ["uploads/20250101_120000_000000/page_1.pdf";
       "uploads/20250101_120000_000000/page_2.pdf";
       "uploads/20250101_120000_000000/page_3.pdf";
       "uploads/20250101_120000_000000/page_1_filled.pdf";
       "uploads/20250101_120000_000000/page_3_filled.pdf"] = false.
Proof. vm_compute. split; reflexivity. Qed.

(** ** The end of the batch *)

Section Finish.

Variable secure_filename : string → string.
Variables (cwd now : string).

(** With the four header entries in the log, [finish] sees at least five
    entries and its empty-batch test is false: what it returns, when it
    returns, is the archive. *)
Lemma finish_sends_archive st w r w' :
  (4 ≤ length (processing_log st))%nat →
  finish secure_filename now st w = (Ret r, w') →
  r = SendFile (zip_path secure_filename now).
Proof.
  intros Hlen H. unfold finish in H.
  apply bind_Ret_inv in H as ([] & w1 & _ & H).
  replace (length (processing_log st ++ [footer]) <=? 4)%nat with false in H.
  2:{ symmetry. apply Nat.leb_gt. rewrite length_app. simpl. lia. }
  rewrite andb_false_r in H.
  apply bind_Ret_inv in H as ([] & w2 & _ & H).
  apply bind_Ret_inv in H as ([] & w3 & _ & H).
  apply bind_Ret_inv in H as ([] & w4 & _ & H).
  unfold ret in H. by simplify_eq.
Qed.

Lemma run_rows_log_length data_filename df w st w' :
  run_rows secure_filename cwd now data_filename df w = (Ret st, w') →
  length (processing_log st) = (4 + length (rows df))%nat.
Proof.
  unfold run_rows. intros H.
  destruct (rows_return (session_template_path secure_filename now)
              (session_upload_folder secure_filename now)
              (session_completed_folder secure_filename now)
              (Pandas.iterrows df)
              (Batch (initial_log cwd data_filename) []) w)
    as (st1 & w1 & H1 & L1).
  rewrite H in H1. simplify_eq. rewrite L1. simpl.
  unfold Pandas.iterrows. by rewrite length_imap.
Qed.

(** No request gets the empty-batch answer. *)
Lemma empty_signal_unreachable data_file w w' code :
  process_files secure_filename cwd now data_file w
  ≠ (Ret (Status empty_message code), w').
Proof.
  unfold process_files, empty_message. destruct data_file as [data_file|].
  2:{ unfold ret. intros H. discriminate H. }
  intros H. apply bind_Ret_inv in H as (present & w1 & _ & H).
  destruct (negb present); [unfold ret in H; discriminate H|].
  case_bool_decide; [unfold ret in H; discriminate H|].
  apply bind_Ret_inv in H as (names & w2 & _ & H).
  apply bind_Ret_inv in H as (df & w3 & _ & H).
  apply bind_Ret_inv in H as (st & w4 & Hrows & H).
  apply run_rows_log_length in Hrows.
  apply finish_sends_archive in H; [done | lia].
Qed.

End Finish.

(** C3, at a data file with a header and no rows.  The loop adds nothing,
    the footer is appended as the fifth entry of the log before the test
    [len(processing_log) <= 4] is made, the test is false, and the request
    is answered with an archive that holds the report alone, not with the
    empty-batch message. *)
Theorem C3_zero_rows_are_answered_with_an_archive :
  let r := Demo.run "patients.csv" (Demo.csv []) in
  r.1 = Ret (SendFile
    "completed/20250101_120000_000000/CDAI_processed_20250101_120000_000000.zip")
  ∧ r.1 ≠ Ret (Status empty_message 400)
  ∧ member_names r = Some ["processing_report.txt"]
  ∧ report_of (report_path Demo.secure_filename Demo.now) r
    = Some (Py.join Py.nl
        [header; "Data file: patients.csv";
         "Using Default Template: /srv/app/BLANK_CDAI_APP_DEC-25.pdf"; rule; footer]).
Proof. vm_compute. repeat split; try reflexivity. discriminate. Qed.

(** ** The choice of the reader *)

(** C4, as the code has it.  When the lower-cased extension of the data
    file is not ".csv", the file is handed to [pd.read_excel], whatever the
    extension is: reading it is reading it as a spreadsheet, and when that
    reader raises, its exception leaves the rest of the request undone, so
    that no record is processed. *)
Theorem C4_other_extensions_go_to_the_spreadsheet_reader
    (secure_filename : string → string) (cwd now : string)
    (data_filename data_path : string) :
  Py.lower (OsPath.splitext_ext data_filename) ≠ ".csv" →
  (∀ w, read_data data_filename data_path w
        = bind (Pandas.read_excel data_path)
            (λ df, ret (Table (normalise_column <$> columns df) (rows df))) w)
  ∧ (∀ w e w1, Pandas.read_excel data_path w = (Raise e, w1) →
       bind (read_data data_filename data_path)
         (λ df, bind (run_rows secure_filename cwd now data_filename df)
                  (finish secure_filename now)) w
       = (Raise e, w1)).
Proof.
  intros Hext.
  assert (∀ w, read_data data_filename data_path w
        = bind (Pandas.read_excel data_path)
            (λ df, ret (Table (normalise_column <$> columns df) (rows df))) w) as Hread.
  { intros w. unfold read_data. by rewrite bool_decide_eq_false_2. }
  split; [exact Hread|].
  intros w e w1 He. apply bind_raise_eq. rewrite Hread. by apply bind_raise_eq.
Qed.

Lemma C4_witness :
  Py.lower (OsPath.splitext_ext "patients.txt") ≠ ".csv"
  ∧ ∀ w, read_data "patients.txt" "uploads/r/patients.txt" w
         = bind (Pandas.read_excel "uploads/r/patients.txt")
             (λ df, ret (Table (normalise_column <$> columns df) (rows df))) w.
Proof.
  assert (Py.lower (OsPath.splitext_ext "patients.txt") ≠ ".csv") as H
    by (vm_compute; discriminate).
  split; [exact H|].
  exact (proj1 (C4_other_extensions_go_to_the_spreadsheet_reader
                  Demo.secure_filename Demo.cwd Demo.now
                  "patients.txt" "uploads/r/patients.txt" H)).
Defined.

(** The claim of C4 at a concrete upload: a file named patients.txt that
    holds a workbook.  The extension is neither ".csv" nor that of a
    spreadsheet, and yet nothing fails: the file is parsed, its record is
    processed and the archive holds the generated document. *)
Lemma C4_counterexample :
  let r := Demo.run "patients.txt" (Demo.workbook [Demo.ann]) in
  Py.lower (OsPath.splitext_ext "patients.txt") = ".txt"
  ∧ r.1 = Ret (SendFile
      "completed/20250101_120000_000000/CDAI_processed_20250101_120000_000000.zip")
  ∧ (∀ e, r.1 ≠ Raise e)
  ∧ member_names r = Some ["Lee_Ann_CDAI.pdf"; "processing_report.txt"].
Proof. vm_compute. repeat split; try reflexivity. intros e; discriminate. Qed.

(** ** The paths of one record *)

Module Paths.

Import PyFacts.

Ltac str_norm := rewrite ?app_cons, ?app_nil_l.
Ltac str_norm_in H := rewrite ?app_cons, ?app_nil_l in H.

Lemma page_path_eq up i :
  page_path up i = dir_prefix up +:+ "page_" +:+ pretty (i + 1)%nat +:+ ".pdf".
Proof.
  unfold page_path, page_file.
  change ("page_" +:+ pretty (i + 1)%nat +:+ ".pdf")
    with (String "p" ("age_" +:+ pretty (i + 1)%nat +:+ ".pdf")).
  by rewrite join_relative.
Qed.

Lemma filled_path_eq up i :
  Py.all_char not_dot up = true →
  filled_path (page_path up i)
  = dir_prefix up +:+ "page_" +:+ pretty (i + 1)%nat +:+ "_filled.pdf".
Proof.
  intros Hup. unfold filled_path. rewrite page_path_eq.
  rewrite <-!(app_assoc _ _ ".pdf"), <-!(app_assoc _ _ "_filled.pdf").
  apply replace_extension.
  rewrite !all_char_app, (dir_prefix_no_dot _ Hup).
  by rewrite (digits_no_dot _ (pretty_nat_digits _)).
Qed.

Lemma page_path_inj up i j : page_path up i = page_path up j → i = j.
Proof.
  rewrite !page_path_eq. intros H.
  do 2 apply String.app_inj in H.
  apply split_at_non_digit in H as (H & _); auto using pretty_nat_digits.
  apply (inj pretty) in H. lia.
Qed.

Lemma page_ne_filled up i j :
  Py.all_char not_dot up = true → page_path up i ≠ filled_path (page_path up j).
Proof.
  intros Hup. rewrite filled_path_eq, page_path_eq by done. intros H.
  do 2 apply String.app_inj in H.
  apply split_at_non_digit in H as (_ & H & _); auto using pretty_nat_digits.
  discriminate H.
Qed.

Lemma filled_path_inj up i j :
  Py.all_char not_dot up = true →
  filled_path (page_path up i) = filled_path (page_path up j) → i = j.
Proof.
  intros Hup. rewrite !filled_path_eq by done. intros H.
  do 2 apply String.app_inj in H.
  apply split_at_non_digit in H as (H & _); auto using pretty_nat_digits.
  apply (inj pretty) in H. lia.
Qed.

Lemma join_suffix a (b t : string) : ∃ x, OsPath.join a (b +:+ t) = x +:+ t.
Proof.
  unfold OsPath.join. destruct (Py.startswith "/" (b +:+ t)); [by exists b|].
  destruct (bool_decide (a = "") || Py.endswith "/" a)%bool.
  - exists (a +:+ b). by rewrite app_assoc.
  - exists (a +:+ "/" +:+ b). by rewrite !app_assoc.
Qed.

(** The output document ends in "_CDAI.pdf". *)
Lemma out_pdf_suffix comp data : ∃ x, out_pdf_of comp data = x +:+ "_CDAI.pdf".
Proof.
  unfold out_pdf_of, filename.
  rewrite <-!(app_assoc _ _ "_CDAI.pdf"). apply join_suffix.
Qed.

Lemma out_ne_page comp data up i : out_pdf_of comp data ≠ page_path up i.
Proof.
  destruct (out_pdf_suffix comp data) as [x ->]. rewrite page_path_eq.
  intros H. apply (f_equal String.rev) in H.
  rewrite !rev_app in H.
  change (String.rev "_CDAI.pdf") with "fdp.IADC_" in H.
  change (String.rev ".pdf") with "fdp." in H.
  change (String.rev "page_") with "_egap" in H.
  rewrite !app_assoc in H. str_norm_in H.
  pose proof (pretty_nat_digits (i + 1)) as Hd.
  rewrite <-all_char_rev in Hd.
  destruct (String.rev (pretty (i + 1)%nat)) as [|c r]; str_norm_in H.
  - discriminate H.
  - by simplify_eq.
Qed.

Lemma out_ne_filled comp data up i :
  Py.all_char not_dot up = true →
  out_pdf_of comp data ≠ filled_path (page_path up i).
Proof.
  intros Hup. destruct (out_pdf_suffix comp data) as [x ->].
  rewrite filled_path_eq by done.
  intros H. apply (f_equal String.rev) in H.
  rewrite !rev_app in H.
  change (String.rev "_CDAI.pdf") with "fdp.IADC_" in H.
  change (String.rev "_filled.pdf") with "fdp.dellif_" in H.
  rewrite !app_assoc in H. str_norm_in H. discriminate H.
Qed.

Lemma page_path_ne_empty up i : page_path up i ≠ "".
Proof.
  rewrite page_path_eq. destruct (dir_prefix up); str_norm; discriminate.
Qed.

End Paths.

(** ** The pipeline of one record, step by step *)

Section Pipeline.

Lemma can_create_dirs w w' p :
  dirs w' = dirs w → can_create w' p = can_create w p.
Proof.
  intros H. unfold can_create, Os.parent_ok, Os.is_dir. by rewrite H.
Qed.

Lemma can_create_not_dir w p : can_create w p = true → Os.is_dir w p = false.
Proof.
  unfold can_create. intros H.
  apply andb_true_iff in H as [H _]. apply andb_true_iff in H as [H _].
  by apply negb_true_iff.
Qed.

Lemma can_create_nonempty w p : can_create w p = true → p ≠ "".
Proof.
  intros H ->. unfold can_create in H.
  apply andb_true_iff in H as [H _]. apply andb_true_iff in H as [_ H].
  discriminate H.
Qed.

Lemma write_ok w p f :
  can_create w p = true →
  Os.write p f w = (Ret (), World (<[p := f]> (files w)) (dirs w)).
Proof.
  unfold can_create, Os.write. intros H.
  apply andb_true_iff in H as [H Hparent].
  apply andb_true_iff in H as [Hdir Hbase].
  apply negb_true_iff in Hdir. apply negb_true_iff in Hbase.
  by rewrite Hdir, Hbase, Hparent.
Qed.

Lemma save_ok w d p :
  p ≠ Fitz.doc_name d → Fitz.doc_pages d ≠ [] → can_create w p = true →
  Fitz.save d p w
  = (Ret (), World (<[p := FPdf (Fitz.doc_pages d)]> (files w)) (dirs w)).
Proof.
  intros Hname Hpages Hcreate. unfold Fitz.save.
  rewrite !bool_decide_eq_false_2 by done. by apply write_ok.
Qed.

Lemma open_ok w p pages :
  files w !! p = Some (FPdf pages) →
  Fitz.open p w = (Ret (Fitz.Document p pages), w).
Proof. intros H. unfold Fitz.open. by rewrite H. Qed.

(** The split loop writes one single-page file per page number and
    touches nothing else. *)
Lemma split_loop_spec up doc idxs acc w :
  NoDup idxs →
  (∀ i, i ∈ idxs → is_Some (Fitz.doc_pages doc !! i)) →
  (∀ i, i ∈ idxs → can_create w (page_path up i) = true) →
  ∃ w', for_each idxs (split_page doc up) acc w
        = (Ret (acc ++ (page_path up <$> idxs)), w')
    ∧ dirs w' = dirs w
    ∧ (∀ i pg, i ∈ idxs → Fitz.doc_pages doc !! i = Some pg →
         files w' !! page_path up i = Some (FPdf [pg]))
    ∧ (∀ q, (∀ i, i ∈ idxs → q ≠ page_path up i) →
         files w' !! q = files w !! q).
Proof.
  revert acc w. induction idxs as [|i idxs IH]; intros acc w Hnd Hpages Hcreate.
  - exists w. simpl. rewrite app_nil_r. repeat split; try done.
    intros i pg Hi. by apply elem_of_nil in Hi.
  - apply NoDup_cons in Hnd as [Hi Hnd].
    destruct (Hpages i) as [pg Hpg]; [by left|].
    set (w1 := World (<[page_path up i := FPdf [pg]]> (files w)) (dirs w)).
    assert (split_page doc up i acc w = (Ret (acc ++ [page_path up i]), w1)) as Hstep.
    { unfold split_page, bind, lift, Fitz.insert_pdf_page. rewrite Hpg.
      fold (page_path up i).
      rewrite save_ok; [done| |done|].
      - simpl. apply Paths.page_path_ne_empty.
      - apply Hcreate. by left. }
    destruct (IH (acc ++ [page_path up i]) w1) as (w' & Hrest & Hd & Hin & Hout).
    + done.
    + intros j Hj. apply Hpages. by right.
    + intros j Hj. rewrite (can_create_dirs w w1) by done. apply Hcreate. by right.
    + exists w'. simpl. rewrite (bind_ret_eq _ _ _ _ _ Hstep), Hrest.
      rewrite <-app_assoc. repeat split; try done.
      * intros j pgj Hj Hpgj. apply elem_of_cons in Hj as [->|Hj].
        -- rewrite Hout.
           ++ simplify_eq. subst w1. simpl. apply lookup_insert_eq.
           ++ intros k Hk Heq. apply Paths.page_path_inj in Heq. by subst k.
        -- by apply Hin.
      * intros q Hq. rewrite Hout.
        -- subst w1. simpl. apply lookup_insert_ne. intros Heq.
           by apply (Hq i); [left|].
        -- intros j Hj. apply Hq. by right.
Qed.

Lemma split_pdf_spec tpl up pages w :
  files w !! tpl = Some (FPdf pages) →
  (∀ i, (i < length pages)%nat → can_create w (page_path up i) = true) →
  ∃ w', split_pdf tpl up w
        = (Ret (page_path up <$> seq 0 (length pages)), w')
    ∧ dirs w' = dirs w
    ∧ (∀ i pg, pages !! i = Some pg →
         files w' !! page_path up i = Some (FPdf [pg]))
    ∧ (∀ q, (∀ i, q ≠ page_path up i) → files w' !! q = files w !! q).
Proof.
  intros Htpl Hcreate. unfold split_pdf.
  rewrite (bind_ret_eq _ _ _ _ _ (open_ok _ _ _ Htpl)).
  unfold Fitz.len. simpl.
  destruct (split_loop_spec up (Fitz.Document tpl pages) (seq 0 (length pages)) [] w)
    as (w' & Hloop & Hd & Hin & Hout).
  - apply NoDup_seq.
  - intros i Hi. apply elem_of_seq in Hi. simpl. apply lookup_lt_is_Some. lia.
  - intros i Hi. apply elem_of_seq in Hi. apply Hcreate. lia.
  - exists w'. split; [exact Hloop|]. repeat split; try done.
    + intros i pg Hpg. apply Hin; [|done].
      apply elem_of_seq. apply lookup_lt_Some in Hpg. lia.
    + intros q Hq. apply Hout. intros i _. apply Hq.
Qed.

(** A placement table of single points never makes the loop raise. *)
Lemma fill_fields_points pg data coordinates :
  Forall (λ fc, ∃ x y, fc.2 = At x y) coordinates →
  ∃ pg', fill_fields pg data coordinates = Ret pg'.
Proof.
  intros Hall. revert pg.
  induction Hall as [|[f c] rest (x & y & Hc) _ IH]; intros pg; simpl.
  - by eexists.
  - simpl in Hc. subst c.
    destruct (data !! f) as [v|]; [|apply IH].
    destruct (notna v); [|apply IH]. simpl. apply IH.
Qed.

Lemma fill_page_spec p data coordinates pg tail stamped w :
  files w !! p = Some (FPdf (pg :: tail)) →
  fill_fields pg data coordinates = Ret stamped →
  filled_path p ≠ p →
  can_create w (filled_path p) = true →
  fill_page p data coordinates w
  = (Ret (filled_path p),
     World (<[filled_path p := FPdf (stamped :: tail)]> (files w)) (dirs w)).
Proof.
  intros Hp Hfill Hne Hcreate. unfold fill_page.
  rewrite (bind_ret_eq _ _ _ _ _ (open_ok _ _ _ Hp)).
  unfold bind, lift. simpl. rewrite Hfill.
  fold (filled_path p). by rewrite save_ok.
Qed.

(** The merge loop appends the page of every file of the sequence. *)
Lemma merge_loop_spec paths pgs acc w :
  Forall2 (λ p pg, files w !! p = Some (FPdf [pg])) paths pgs →
  for_each paths merge_page acc w
  = (Ret (Fitz.Document (Fitz.doc_name acc) (Fitz.doc_pages acc ++ pgs)), w).
Proof.
  intros Hall. revert acc.
  induction Hall as [|p pg paths pgs Hp _ IH]; intros acc; simpl.
  - rewrite app_nil_r. by destruct acc.
  - assert (merge_page p acc w
            = (Ret (Fitz.insert_pdf acc (Fitz.Document p [pg])), w)) as Hstep.
    { unfold merge_page, bind, Os.exists_, Os.is_file.
      rewrite bool_decide_eq_true_2 by (rewrite Hp; eauto). simpl.
      by rewrite (open_ok _ _ _ Hp). }
    rewrite (bind_ret_eq _ _ _ _ _ Hstep), IH. simpl.
    by rewrite <-app_assoc.
Qed.

End Pipeline.

Section RecordPipeline.

Variables (up : string) (data : record).
Variables (p1 p2 p3 s1 s3 : page) (more : list page).
Hypothesis up_no_dot : Py.all_char not_dot up = true.
Hypothesis stamp1 : fill_fields p1 data coords_p1 = Ret s1.
Hypothesis stamp3 : fill_fields p3 data coords_p3 = Ret s3.

Let f0 := filled_path (page_path up 0).
Let f2 := filled_path (page_path up 2).
Let rest_paths := page_path up <$> seq 3 (length more).

Lemma split_paths_eq :
  page_path up <$> seq 0 (length (p1 :: p2 :: p3 :: more))
  = page_path up 0 :: page_path up 1 :: page_path up 2 :: rest_paths.
Proof. reflexivity. Qed.

Lemma fill_pages_spec w :
  split_done up (p1 :: p2 :: p3 :: more) w →
  can_create w f0 = true → can_create w f2 = true →
  fill_pages (page_path up 0 :: page_path up 1 :: page_path up 2 :: rest_paths)
    data w
  = (Ret (f0 :: page_path up 1 :: f2 :: rest_paths),
     World (<[f2 := FPdf [s3]]> (<[f0 := FPdf [s1]]> (files w))) (dirs w)).
Proof.
  intros Hsplit Hc0 Hc2. unfold fill_pages. simpl.
  assert (fill_page (page_path up 0) data coords_p1 w
          = (Ret f0, World (<[f0 := FPdf [s1]]> (files w)) (dirs w))) as H0.
  { apply (fill_page_spec _ _ _ p1 [] s1); try done.
    - by apply (Hsplit 0%nat p1).
    - intros Heq. by apply (Paths.page_ne_filled up 0 0). }
  set (w1 := World (<[f0 := FPdf [s1]]> (files w)) (dirs w)) in *.
  assert (fill_page (page_path up 2) data coords_p3 w1
          = (Ret f2, World (<[f2 := FPdf [s3]]> (files w1)) (dirs w1))) as H2.
  { apply (fill_page_spec _ _ _ p3 [] s3); try done.
    - subst w1. simpl. rewrite lookup_insert_ne.
      + by apply (Hsplit 2%nat p3).
      + intros Heq. by apply (Paths.page_ne_filled up 2 0).
    - intros Heq. by apply (Paths.page_ne_filled up 2 2). }
  rewrite (bind_ret_eq _ _ _ _ _ (bind_ret_eq _ _ _ _ _ H0)).
  unfold ret at 1. unfold bind at 1. unfold ret at 1.
  unfold bind at 1. unfold bind at 1. rewrite H2. unfold ret.
  f_equal. f_equal. unfold rest_paths.
  rewrite length_fmap, length_seq.
  case_decide as Hlen; [done|].
  destruct more; [done | simpl in Hlen; lia].
Qed.

Lemma rest_pages_spec w (ps : list page) j :
  (∀ i pg, ps !! i = Some pg →
     files w !! page_path up (j + i) = Some (FPdf [pg])) →
  Forall2 (λ p pg, files w !! p = Some (FPdf [pg]))
          (page_path up <$> seq j (length ps)) ps.
Proof.
  revert j. induction ps as [|pg ps IH]; intros j H; simpl; constructor.
  - rewrite <-(Nat.add_0_r j) at 1. by apply H.
  - apply IH. intros i pgi Hi.
    replace (S j + i)%nat with (j + S i)%nat by lia. by apply H.
Qed.

Lemma merge_spec w out :
  split_done up (p1 :: p2 :: p3 :: more) w →
  out ≠ "" →
  let w3 := World (<[f2 := FPdf [s3]]> (<[f0 := FPdf [s1]]> (files w))) (dirs w) in
  can_create w out = true →
  merge_pdfs out (f0 :: page_path up 1 :: f2 :: rest_paths) w3
  = (Ret (), World (<[out := FPdf (s1 :: p2 :: s3 :: more)]> (files w3)) (dirs w3)).
Proof.
  intros Hsplit Hout w3 Hc. unfold merge_pdfs.
  assert (f2 ≠ f0) as H20.
  { intros Heq. by apply Paths.filled_path_inj in Heq. }
  assert (∀ i, files w3 !! page_path up i = files w !! page_path up i) as Hpage.
  { intros i. subst w3. simpl. rewrite !lookup_insert_ne; [done|..].
    - intros Heq. by apply (Paths.page_ne_filled up i 0).
    - intros Heq. by apply (Paths.page_ne_filled up i 2). }
  assert (Forall2 (λ p pg, files w3 !! p = Some (FPdf [pg]))
            (f0 :: page_path up 1 :: f2 :: rest_paths)
            (s1 :: p2 :: s3 :: more)) as Hall.
  { constructor; [|constructor; [|constructor]].
    - subst w3. simpl. rewrite lookup_insert_ne by done. apply lookup_insert_eq.
    - rewrite Hpage. by apply (Hsplit 1%nat p2).
    - subst w3. simpl. apply lookup_insert_eq.
    - apply rest_pages_spec. intros i pg Hi. rewrite Hpage.
      by apply (Hsplit (3 + i)%nat pg). }
  rewrite (bind_ret_eq _ _ _ _ _ (merge_loop_spec _ _ Fitz.new w3 Hall)).
  simpl. rewrite save_ok; [done|done|done|].
  by rewrite (can_create_dirs w w3).
Qed.

End RecordPipeline.

(** ** What the stamping loop adds *)

Lemma draw_eq pg value x y :
  draw pg value x y
  = Page (page_body pg)
      (page_inserted pg ++ if bool_decide (value = "") then [] else [item_at value (x, y)]).
Proof.
  unfold draw, Fitz.insert_text. case_bool_decide; [|done].
  rewrite app_nil_r. by destruct pg.
Qed.

Lemma draw_points_eq points pg value :
  foldl (λ pg '(x, y), draw pg value x y) pg points
  = Page (page_body pg)
      (page_inserted pg
       ++ if bool_decide (value = "") then [] else item_at value <$> points).
Proof.
  revert pg. induction points as [|[x y] points IH]; intros pg; simpl.
  - destruct (bool_decide (value = "")); rewrite app_nil_r; by destruct pg.
  - rewrite IH, draw_eq. simpl. f_equal.
    case_bool_decide; simpl; by rewrite <-app_assoc.
Qed.

Lemma fill_field_eq pg value c pg' :
  fill_field pg value c = Ret pg' →
  pg' = Page (page_body pg)
          (page_inserted pg
           ++ if bool_decide (value = "") then [] else item_at value <$> points_of c).
Proof.
  destruct c as [x y|[|pt points]]; simpl; intros H; simplify_eq.
  - apply draw_eq.
  - apply (draw_points_eq (pt :: points)).
Qed.

Lemma fill_fields_stamps (pg pg' : page) (data : record) (coordinates : placement) :
  fill_fields pg data coordinates = Ret pg' →
  pg' = Page (page_body pg) (page_inserted pg ++ stamps data coordinates).
Proof.
  revert pg. induction coordinates as [|[f c] rest IH]; intros pg; simpl.
  - intros [= <-]. rewrite app_nil_r. by destruct pg.
  - unfold stamps in *. simpl.
    destruct (data !! f) as [v|]; [|apply IH].
    destruct (notna v); simpl; [|apply IH].
    destruct (fill_field pg (str v) c) as [pg1|e] eqn:H1; [|done].
    intros H2. apply IH in H2 as ->. apply fill_field_eq in H1 as ->. simpl.
    f_equal. rewrite <-app_assoc. f_equal. f_equal.
    by destruct (bool_decide (str v = "")).
Qed.

(** C8.  A record is processed against a template of at least three
    pages, in a session whose upload folder has no dot in its name and in
    which the files of the pipeline can be created.  Then the turn of the
    loop succeeds, it is logged as SUCCESS, and the output document holds
    the pages of the template in their order: page 1 with the texts of the
    table of mc, lastname, firstname, dob, wt and ht added to it, page 2 as
    it was, page 3 with the texts of the table of wt added to it, and every
    further page as it was.  The texts added to a page are those of
    [stamps]: for every field of the table that the record holds with a
    value that is no missing-value marker and does not print as the empty
    text, the [str] of the value, 5 units below the point of the table, in
    size 12, not rotated and black; the pre-printed content of the page and
    its earlier texts are kept. *)
Theorem C8_pages_one_and_three_are_stamped
    (tpl up comp : string) (index : Z) (data : record) (st : batch) (w : world)
    (p1 p2 p3 : page) (more : list page) :
  files w !! tpl = Some (FPdf (p1 :: p2 :: p3 :: more)) →
  Py.all_char not_dot up = true →
  Forall (λ p, can_create w p = true)
         (intermediates up (3 + length more) ++ [out_pdf_of comp data]) →
  ∃ s1 s3 w',
    fill_fields p1 data coords_p1 = Ret s1
    ∧ fill_fields p3 data coords_p3 = Ret s3
    ∧ page_body s1 = page_body p1 ∧ page_body s3 = page_body p3
    ∧ process_row tpl up comp (index, data) st w
      = (Ret (Batch (processing_log st ++ [success_entry index data])
                    (generated_files st ++ [out_pdf_of comp data])), w')
    ∧ files w' !! out_pdf_of comp data = Some (FPdf (s1 :: p2 :: s3 :: more))
    ∧ s1 = Page (page_body p1) (page_inserted p1 ++ stamps data coords_p1)
    ∧ s3 = Page (page_body p3) (page_inserted p3 ++ stamps data coords_p3).
Proof.
  intros Htpl Hup Hcreate.
  set (out := out_pdf_of comp data) in *.
  set (f0 := filled_path (page_path up 0)).
  set (f2 := filled_path (page_path up 2)).
  apply Forall_app in Hcreate as [Hint Hout].
  rewrite Forall_singleton in Hout.
  unfold intermediates in Hint. apply Forall_app in Hint as [Hpages Hfilled].
  apply Forall_cons in Hfilled as [Hf0 Hf2].
  rewrite Forall_singleton in Hf2.
  rewrite Forall_fmap, Forall_seq in Hpages. simpl in Hpages.
  destruct (fill_fields_points p1 data coords_p1) as [s1 Hs1].
  { unfold coords_p1. repeat constructor; simpl; eauto. }
  destruct (fill_fields_points p3 data coords_p3) as [s3 Hs3].
  { unfold coords_p3. repeat constructor; simpl; eauto. }
  exists s1, s3.
  destruct (split_pdf_spec tpl up (p1 :: p2 :: p3 :: more) w Htpl)
    as (w1 & Hsplit & Hd1 & Hin1 & _).
  { intros i Hi. apply Hpages. simpl in Hi. lia. }
  rewrite (split_paths_eq up p1 p2 p3 more) in Hsplit.
  assert (out ≠ "") as Hout_ne by exact (can_create_nonempty w out Hout).
  pose proof (fill_pages_spec up data p1 p2 p3 s1 s3 more Hup Hs1 Hs3 w1 Hin1) as Hfill.
  rewrite !(can_create_dirs w w1) in Hfill by done.
  specialize (Hfill Hf0 Hf2).
  pose proof (merge_spec up p1 p2 p3 s1 s3 more Hup w1 out Hin1 Hout_ne) as Hmerge.
  simpl in Hmerge. rewrite (can_create_dirs w w1) in Hmerge by done.
  specialize (Hmerge Hout).
  set (pages := page_path up 0 :: page_path up 1 :: page_path up 2
                :: (page_path up <$> seq 3 (length more))) in *.
  set (filled := f0 :: page_path up 1 :: f2
                 :: (page_path up <$> seq 3 (length more))) in *.
  set (w3 := World (<[f2 := FPdf [s3]]> (<[f0 := FPdf [s1]]> (files w1))) (dirs w1)) in *.
  set (w4 := World (<[out := FPdf (s1 :: p2 :: s3 :: more)]> (files w3)) (dirs w3)) in *.
  assert (Forall (λ p, (∃ i, (i < 3 + length more)%nat ∧ p = page_path up i)
                       ∨ p = f0 ∨ p = f2) (pages ++ filled)) as Hshape.
  { assert (Forall (λ p, (∃ i, (i < 3 + length more)%nat ∧ p = page_path up i)
                         ∨ p = f0 ∨ p = f2)
                   (page_path up <$> seq 3 (length more))) as Hrest.
    { rewrite Forall_fmap, Forall_seq. intros j Hj. simpl. left. exists j.
      split; [lia | done]. }
    apply Forall_app. split.
    - repeat (apply Forall_cons; split; [left; eexists; split; [|reflexivity]; lia|]).
      exact Hrest.
    - apply Forall_cons; split; [by right; left|].
      apply Forall_cons; split; [left; exists 1%nat; split; [lia|done]|].
      apply Forall_cons; split; [by right; right|]. exact Hrest. }
  destruct (remove_all_spec (pages ++ filled) w4)
    as (o & w' & Hrm & _ & _ & Hkeep & _ & Hok).
  assert (o = Ret ()) as ->.
  { apply Hok. intros p Hp.
    rewrite Forall_forall in Hshape. specialize (Hshape p Hp).
    assert (can_create w4 p = true) as Hc.
    { rewrite (can_create_dirs w w4) by done.
      destruct Hshape as [(i & Hi & ->)|[->| ->]]; [|done..].
      apply Hpages. lia. }
    by apply can_create_not_dir. }
  exists w'.
  split; [exact Hs1|]. split; [exact Hs3|].
  split; [exact (fill_fields_body _ _ _ _ Hs1)|].
  split; [exact (fill_fields_body _ _ _ _ Hs3)|].
  split.
  - apply process_row_ok. fold out. unfold try_body.
    rewrite (bind_ret_eq _ _ _ _ _ Hsplit).
    rewrite (bind_ret_eq _ _ _ _ _ Hfill).
    rewrite (bind_ret_eq _ _ _ _ _ Hmerge).
    exact Hrm.
  - split; [|split; by apply fill_fields_stamps].
    rewrite Hkeep.
    + subst w4. simpl. apply lookup_insert_eq.
    + intros Hin. rewrite Forall_forall in Hshape.
      destruct (Hshape out Hin) as [(i & _ & Heq)|[Heq|Heq]].
      * by apply Paths.out_ne_page in Heq.
      * by apply Paths.out_ne_filled in Heq.
      * by apply Paths.out_ne_filled in Heq.
Qed.

Lemma C8_witness :
  let data := Demo.record_of Demo.ann in
  let out := out_pdf_of Demo.comp data in
  files Demo.started !! Demo.tpl = Some (FPdf [Page 1 []; Page 2 []; Page 3 []])
  ∧ Py.all_char not_dot Demo.up = true
  ∧ Forall (λ p, can_create Demo.started p = true)
           (intermediates Demo.up 3 ++ [out])
  ∧ ∃ w',
      process_row Demo.tpl Demo.up Demo.comp (0, data) (Batch [] []) Demo.started
      = (Ret (Batch ([] ++ [success_entry 0 data]) ([] ++ [out])), w')
      ∧ files w' !! out
        = Some (FPdf [Page 1 [TextItem (75, 255) "1234" 12 0 (0, 0, 0);
                              TextItem (75, 335) "Lee" 12 0 (0, 0, 0);
                              TextItem (75, 365) "Ann" 12 0 (0, 0, 0);
                              TextItem (75, 405) "1980-02-03" 12 0 (0, 0, 0);
                              TextItem (75, 435) "70" 12 0 (0, 0, 0);
                              TextItem (75, 480) "170" 12 0 (0, 0, 0)];
                      Page 2 [];
                      Page 3 [TextItem (325, 530) "70" 12 0 (0, 0, 0)]]).
Proof.
  intros data out.
  assert (files Demo.started !! Demo.tpl
          = Some (FPdf [Page 1 []; Page 2 []; Page 3 []])) as H1
    by (vm_compute; reflexivity).
  assert (Py.all_char not_dot Demo.up = true) as H2 by (vm_compute; reflexivity).
  assert (Forall (λ p, can_create Demo.started p = true)
                 (intermediates Demo.up 3 ++ [out])) as H3.
  { repeat (apply Forall_cons; split; [vm_compute; reflexivity|]).
    apply Forall_nil_2. }
  split; [exact H1|]. split; [exact H2|]. split; [exact H3|].
  destruct (C8_pages_one_and_three_are_stamped Demo.tpl Demo.up Demo.comp 0 data
              (Batch [] []) Demo.started (Page 1 []) (Page 2 []) (Page 3 []) []
              H1 H2 H3)
    as (s1 & s3 & w' & _ & _ & _ & _ & Hrow & Hfile & -> & ->).
  exists w'. split; [exact Hrow|].
  etrans; [exact Hfile|]. vm_compute. reflexivity.
Defined.

(** ** Counting the documents and the report entries *)

Lemma rows_count tpl up comp rows st w st' w' :
  for_each rows (process_row tpl up comp) st w = (Ret st', w') →
  length (generated_files st')
  = (length (generated_files st) + successes tpl up comp rows w)%nat.
Proof.
  revert st w. induction rows as [|[index data] rows IH]; intros st w H.
  - simpl in H. unfold ret in H. simplify_eq. simpl. lia.
  - cbn [for_each] in H. apply bind_Ret_inv in H as (st1 & w1 & Hrow & Hrest).
    apply IH in Hrest. rewrite Hrest. cbn [successes].
    destruct (try_body tpl up (out_pdf_of comp data) data w) as [[[]|e] w2] eqn:Hbody.
    + rewrite (process_row_ok _ _ _ _ _ _ _ _ Hbody) in Hrow. simplify_eq.
      simpl. rewrite length_app. simpl. lia.
    + rewrite (process_row_error _ _ _ _ _ _ _ _ _ Hbody) in Hrow. simplify_eq.
      simpl. lia.
Qed.

Lemma write_Ret_inv p f w w' :
  Os.write p f w = (Ret (), w') → w' = World (<[p := f]> (files w)) (dirs w).
Proof.
  unfold Os.write. intros H.
  destruct (Os.is_dir w p || bool_decide (OsPath.basename p = ""))%bool; [done|].
  destruct (Os.parent_ok w p); by simplify_eq.
Qed.

Lemma zip_write_spec zip f name w w' members :
  files w !! zip = Some (FZip members) →
  Zipfile.write zip f name w = (Ret (), w') →
  ∃ src, files w !! f = Some src
    ∧ w' = World (<[zip := FZip (members ++ [(name, Zipfile.member_of src)])]> (files w))
                 (dirs w).
Proof.
  intros Hzip H. unfold Zipfile.write in H.
  apply bind_Ret_inv in H as (src & w1 & Hsrc & H).
  apply bind_Ret_inv in H as (zf & w2 & Hzf & H).
  unfold Os.read in Hsrc, Hzf.
  destruct (files w !! f) as [src'|] eqn:Hf.
  2:{ destruct (Os.is_dir w f); done. }
  simplify_eq. rewrite Hzip in Hzf. simplify_eq.
  apply write_Ret_inv in H. eauto.
Qed.

Lemma zip_loop_spec zip gen w w' members :
  files w !! zip = Some (FZip members) →
  for_each gen (λ f _, Zipfile.write zip f (OsPath.basename f)) () w = (Ret (), w') →
  ∃ new, files w' !! zip = Some (FZip (members ++ new))
    ∧ new.*1 = OsPath.basename <$> gen
    ∧ (∀ q, q ≠ zip → files w' !! q = files w !! q).
Proof.
  revert w members. induction gen as [|f gen IH]; intros w members Hzip H.
  - simpl in H. unfold ret in H. simplify_eq.
    exists []. by rewrite app_nil_r.
  - simpl in H. apply bind_Ret_inv in H as ([] & w1 & Hstep & Hrest).
    destruct (zip_write_spec _ _ _ _ _ _ Hzip Hstep) as (src & Hsrc & ->).
    apply IH with (members := members ++ [(OsPath.basename f, Zipfile.member_of src)])
      in Hrest as (new & Hnew & Hnames & Hother).
    2:{ simpl. apply lookup_insert_eq. }
    exists ((OsPath.basename f, Zipfile.member_of src) :: new). repeat split.
    + by rewrite Hnew, <-app_assoc.
    + by rewrite !fmap_cons, Hnames.
    + intros q Hq. rewrite Hother by done. simpl. by apply lookup_insert_ne.
Qed.

Lemma report_ne_zip secure_filename now :
  report_path secure_filename now ≠ zip_path secure_filename now.
Proof.
  unfold report_path, zip_path.
  change "processing_report.txt" with (String "p" "rocessing_report.txt").
  change ("CDAI_processed_" +:+ run_id secure_filename now +:+ ".zip")
    with (String "C" ("DAI_processed_" +:+ run_id secure_filename now +:+ ".zip")).
  rewrite !PyFacts.join_relative by done.
  intros H. apply String.app_inj in H. discriminate H.
Qed.

(** What [finish] leaves when it answers with the archive. *)
Lemma finish_spec secure_filename now st w p w' :
  finish secure_filename now st w = (Ret (SendFile p), w') →
  let report := Py.join Py.nl (processing_log st ++ [footer]) in
  ∃ docs,
    files w' !! p = Some (FZip (docs ++ [("processing_report.txt", MText report)]))
    ∧ docs.*1 = OsPath.basename <$> generated_files st
    ∧ files w' !! report_path secure_filename now = Some (FText report).
Proof.
  intros H report. unfold finish in H. fold report in H.
  apply bind_Ret_inv in H as ([] & w1 & Hreport & H).
  apply write_Ret_inv in Hreport.
  destruct (bool_decide (generated_files st = []) &&
            (length (processing_log st ++ [footer]) <=? 4)%nat)%bool.
  { unfold ret in H. discriminate H. }
  apply bind_Ret_inv in H as ([] & w2 & Hcreate & H).
  apply write_Ret_inv in Hcreate.
  apply bind_Ret_inv in H as ([] & w3 & Hloop & H).
  apply bind_Ret_inv in H as ([] & w4 & Hlast & H).
  unfold ret in H. simplify_eq.
  pose proof (report_ne_zip secure_filename now) as Hne.
  set (zip := zip_path secure_filename now) in *.
  set (rep := report_path secure_filename now) in *.
  apply zip_loop_spec with (members := []) in Hloop as (docs & Hzip & Hnames & Hother).
  2:{ simpl. apply lookup_insert_eq. }
  destruct (zip_write_spec _ _ _ _ _ _ Hzip Hlast) as (src & Hsrc & ->).
  rewrite Hother in Hsrc by done. simpl in Hsrc.
  rewrite lookup_insert_ne, lookup_insert_eq in Hsrc by done. simplify_eq.
  exists docs. simpl. repeat split.
  - apply lookup_insert_eq.
  - exact Hnames.
  - rewrite lookup_insert_ne by done. rewrite Hother by done. simpl.
    rewrite lookup_insert_ne by done. apply lookup_insert_eq.
Qed.

(** The loop over the records, written out: the log gets the entry of
    every record in turn, the generated files get the output path of every
    record whose body returned, and the file system goes through the
    bodies one after the other. *)
Lemma rows_outcomes tpl up comp rows st w :
  for_each rows (process_row tpl up comp) st w
  = (Ret (Batch (processing_log st
                 ++ zip_with entry_of rows (outcomes tpl up comp rows w))
                (generated_files st
                 ++ generated_of comp rows (outcomes tpl up comp rows w))),
     world_after tpl up comp rows w).
Proof.
  revert st w. induction rows as [|[index data] rows IH]; intros st w.
  - simpl. rewrite !app_nil_r. by destruct st.
  - cbn [for_each outcomes world_after].
    destruct (try_body tpl up (out_pdf_of comp data) data w) as [[[]|e] w1] eqn:Hbody.
    + rewrite (bind_ret_eq _ _ _ _ _ (process_row_ok _ _ _ _ _ _ _ _ Hbody)).
      rewrite IH. simpl. by rewrite <-!app_assoc.
    + rewrite (bind_ret_eq _ _ _ _ _ (process_row_error _ _ _ _ _ _ _ _ _ Hbody)).
      rewrite IH. simpl. by rewrite <-!app_assoc.
Qed.

Lemma outcomes_length tpl up comp rows w :
  length (outcomes tpl up comp rows w) = length rows.
Proof.
  revert w. induction rows as [|[index data] rows IH]; intros w; [done|].
  simpl. by rewrite IH.
Qed.

(** ** The lines of the report *)

Lemma breaks_app (s t : string) : breaks (s +:+ t) = (breaks s + breaks t)%nat.
Proof.
  induction s as [|a s IH]; [done|].
  rewrite PyFacts.app_cons. simpl. rewrite IH. lia.
Qed.

Lemma sum_list_cons (x : nat) (l : list nat) :
  sum_list (x :: l) = (x + sum_list l)%nat.
Proof. reflexivity. Qed.

Lemma sum_list_app (l k : list nat) :
  sum_list (l ++ k) = (sum_list l + sum_list k)%nat.
Proof.
  induction l as [|x l IH]; [done|].
  rewrite <-app_comm_cons, !sum_list_cons, IH. lia.
Qed.

(** The lines of a text joined with line breaks are the lines of its
    parts. *)
Lemma line_count_join (parts : list string) :
  parts ≠ [] →
  line_count (Py.join Py.nl parts) = sum_list (line_count <$> parts).
Proof.
  induction parts as [|x [|y rest] IH]; [done| |]; intros _.
  - rewrite fmap_cons, sum_list_cons. simpl. unfold line_count. lia.
  - change (Py.join Py.nl (x :: y :: rest))
      with (x +:+ Py.nl +:+ Py.join Py.nl (y :: rest)).
    rewrite fmap_cons, sum_list_cons, <-IH by done.
    unfold line_count. rewrite !breaks_app. change (breaks Py.nl) with 1%nat. lia.
Qed.

Lemma sum_line_count (l : list string) :
  sum_list (line_count <$> l) = (length l + sum_list (breaks <$> l))%nat.
Proof.
  induction l as [|x l IH]; [done|].
  rewrite !fmap_cons, !sum_list_cons, IH. cbn [length]. unfold line_count. lia.
Qed.

(** The header takes three lines, the rule three and the footer three. *)
Lemma report_line_count cwd data_filename (entries : list string) :
  line_count (Py.join Py.nl (initial_log cwd data_filename ++ entries ++ [footer]))
  = (length entries + 9 + breaks data_filename + breaks (LOCAL_TEMPLATE_PATH cwd)
     + sum_list (breaks <$> entries))%nat.
Proof.
  rewrite line_count_join by done.
  rewrite !fmap_app, !sum_list_app, (sum_line_count entries). unfold initial_log.
  rewrite !fmap_cons, !sum_list_cons, !fmap_nil. change (sum_list []) with 0%nat.
  unfold line_count. rewrite !breaks_app.
  change (breaks header) with 0%nat. change (breaks rule) with 2%nat.
  change (breaks footer) with 2%nat.
  change (breaks "Data file: ") with 0%nat.
  change (breaks "Using Default Template: ") with 0%nat.
  lia.
Qed.

(** C7, as the code has it.  A request is answered with the archive.  Its
    data frame [df] is the one that [read_data] makes of the upload that
    [prepare] saved, and the loop over its records ran from the file system
    that [read_data] left.  Then the archive holds one member per entry of
    [generated_files], named by its base name, and then the report; the
    number of these per-record members is the number of records of [df]
    for which the body of the [try] statement did not raise.  The report
    is the join of the log entries with line breaks; the entries are the
    four header entries, one entry per record and the footer, five more
    than there are records.  The lines of the report are nine more than
    there are records (the rule and the footer take three lines each) plus
    one for every line break inside the name of the data file, the path of
    the template and the entries of the records: the line count is the
    number of records plus a fixed number only as long as no name and no
    error text holds a line break. *)
Theorem C7_archive_and_report_counts
    (secure_filename : string → string) (cwd now : string)
    (data_file : upload) (w w' : world) (p : string) :
  process_files secure_filename cwd now (Some data_file) w = (Ret (SendFile p), w') →
  ∃ names w_read df w_start st w_end docs report,
    prepare secure_filename cwd now data_file w = (Ret names, w_read)
    ∧ read_data names.1 names.2 w_read = (Ret df, w_start)
    ∧ run_rows secure_filename cwd now names.1 df w_start = (Ret st, w_end)
    ∧ files w' !! p
      = Some (FZip (docs ++ [("processing_report.txt", MText report)]))
    ∧ docs.*1 = OsPath.basename <$> generated_files st
    ∧ length docs
      = successes (session_template_path secure_filename now)
          (session_upload_folder secure_filename now)
          (session_completed_folder secure_filename now)
          (Pandas.iterrows df) w_start
    ∧ files w' !! report_path secure_filename now = Some (FText report)
    ∧ report = Py.join Py.nl (processing_log st ++ [footer])
    ∧ length (processing_log st ++ [footer]) = (length (rows df) + 5)%nat
    ∧ line_count report
      = (length (rows df) + 9
         + breaks names.1 + breaks (LOCAL_TEMPLATE_PATH cwd)
         + sum_list (breaks <$> drop 4 (processing_log st)))%nat.
Proof.
  intros H. unfold process_files in H.
  apply bind_Ret_inv in H as (present & w1 & Hex & H).
  assert (w1 = w) as -> by (unfold Os.exists_ in Hex; by simplify_eq).
  destruct (negb present); [unfold ret in H; discriminate H|].
  case_bool_decide; [unfold ret in H; discriminate H|].
  apply bind_Ret_inv in H as (names & w2 & Hprep & H).
  apply bind_Ret_inv in H as (df & w3 & Hread & H).
  apply bind_Ret_inv in H as (st & w4 & Hrows & H).
  destruct (finish_spec _ _ _ _ _ _ H) as (docs & Hzip & Hnames & Hreport).
  exists names, w2, df, w3, st, w4, docs,
    (Py.join Py.nl (processing_log st ++ [footer])).
  split; [exact Hprep|]. split; [exact Hread|]. split; [exact Hrows|].
  split; [exact Hzip|]. split; [exact Hnames|]. split.
  { apply (f_equal length) in Hnames. rewrite !length_fmap in Hnames.
    rewrite Hnames. unfold run_rows in Hrows.
    by rewrite (rows_count _ _ _ _ _ _ _ _ Hrows). }
  split; [exact Hreport|]. split; [reflexivity|]. split.
  { rewrite length_app, (run_rows_log_length _ _ _ _ _ _ _ _ Hrows). simpl. lia. }
  unfold run_rows in Hrows. rewrite rows_outcomes in Hrows.
  injection Hrows as <- _. cbn [processing_log].
  set (entries := zip_with entry_of _ _).
  change (line_count (Py.join Py.nl (initial_log cwd names.1 ++ entries ++ [footer]))
          = (length (rows df) + 9 + breaks names.1 + breaks (LOCAL_TEMPLATE_PATH cwd)
             + sum_list (breaks <$> entries))%nat).
  rewrite report_line_count. unfold entries.
  rewrite length_zip_with, outcomes_length.
  unfold Pandas.iterrows. rewrite length_imap. lia.
Qed.

Lemma C7_witness :
  let r := Demo.run "patients.csv" (Demo.csv [Demo.ann; Demo.ann_slash; Demo.bob]) in
  let zip := zip_path Demo.secure_filename Demo.now in
  process_files Demo.secure_filename Demo.cwd Demo.now
    (Some (Upload "patients.csv" (Demo.csv [Demo.ann; Demo.ann_slash; Demo.bob])))
    Demo.w0 = (Ret (SendFile zip), r.2)
  ∧ ∃ names w_read df w_start st w_end docs report,
      prepare Demo.secure_filename Demo.cwd Demo.now
        (Upload "patients.csv" (Demo.csv [Demo.ann; Demo.ann_slash; Demo.bob])) Demo.w0
      = (Ret names, w_read)
      ∧ read_data names.1 names.2 w_read = (Ret df, w_start)
      ∧ run_rows Demo.secure_filename Demo.cwd Demo.now names.1 df w_start
        = (Ret st, w_end)
      ∧ files r.2 !! zip
        = Some (FZip (docs ++ [("processing_report.txt", MText report)]))
      ∧ docs.*1 = OsPath.basename <$> generated_files st
      ∧ length docs = successes Demo.tpl Demo.up Demo.comp (Pandas.iterrows df) w_start
      ∧ files r.2 !! report_path Demo.secure_filename Demo.now = Some (FText report)
      ∧ report = Py.join Py.nl (processing_log st ++ [footer])
      ∧ length (processing_log st ++ [footer]) = (length (rows df) + 5)%nat
      ∧ line_count report
        = (length (rows df) + 9
           + breaks names.1 + breaks (LOCAL_TEMPLATE_PATH Demo.cwd)
           + sum_list (breaks <$> drop 4 (processing_log st)))%nat.
Proof.
  intros r zip.
  assert (process_files Demo.secure_filename Demo.cwd Demo.now
            (Some (Upload "patients.csv"
                     (Demo.csv [Demo.ann; Demo.ann_slash; Demo.bob])))
            Demo.w0 = (Ret (SendFile zip), r.2)) as H
    by (vm_compute; reflexivity).
  split; [exact H|].
  exact (C7_archive_and_report_counts Demo.secure_filename Demo.cwd Demo.now
           (Upload "patients.csv" (Demo.csv [Demo.ann; Demo.ann_slash; Demo.bob]))
           Demo.w0 r.2 zip H).
Defined.

(** The claim of C7 at two concrete uploads of one record each, both
    answered with an archive that holds the document of the record and the
    report: the report of the first has ten lines, that of the second,
    whose record has a last name of two lines, has twelve.  The line count
    is not the number of records plus a fixed number. *)
Lemma C7_counterexample :
  let zip := zip_path Demo.secure_filename Demo.now in
  let report := report_path Demo.secure_filename Demo.now in
  let one := Demo.run "patients.csv" (Demo.csv [Demo.ann]) in
  let other := Demo.run "patients.csv" (Demo.csv [Demo.ann_two_lines]) in
  one.1 = Ret (SendFile zip) ∧ other.1 = Ret (SendFile zip)
  ∧ member_names one = Some ["Lee_Ann_CDAI.pdf"; "processing_report.txt"]
  ∧ length <$> member_names other = Some 2%nat
  ∧ line_count <$> report_of report one = Some 10%nat
  ∧ line_count <$> report_of report other = Some 12%nat.
Proof. vm_compute. repeat split; reflexivity. Qed.

(** The batch of the witness: three records, the second fails, the
    archive holds two documents and the report has eight entries on twelve
    lines. *)
Example three_records_one_failure :
  let r := Demo.run "patients.csv" (Demo.csv [Demo.ann; Demo.ann_slash; Demo.bob]) in
  member_names r
  = Some ["Lee_Ann_CDAI.pdf"; "Ray_Bob_CDAI.pdf"; "processing_report.txt"]
  ∧ successes Demo.tpl Demo.up Demo.comp
      (Pandas.iterrows (Table (normalise_column <$> Demo.cols)
                              [Demo.ann; Demo.ann_slash; Demo.bob]))
      Demo.started = 2%nat
  ∧ line_count <$> report_of (report_path Demo.secure_filename Demo.now) r
    = Some 12%nat.
Proof. vm_compute. repeat split; reflexivity. Qed.


(** ** Where the body of the [try] statement raises *)

(** An exception of the split, of the stamping or of the merge is the
    exception of the body; the removal loop is not reached. *)
Lemma split_failure_is_body_failure tpl up out data w e w1 :
  split_pdf tpl up w = (Raise e, w1) →
  try_body tpl up out data w = (Raise e, w1).
Proof. intros H. unfold try_body. by apply bind_raise_eq. Qed.

Lemma stamp_failure_is_body_failure tpl up out data w pages w1 e w2 :
  split_pdf tpl up w = (Ret pages, w1) →
  fill_pages pages data w1 = (Raise e, w2) →
  try_body tpl up out data w = (Raise e, w2).
Proof.
  intros Hsplit Hfill. unfold try_body.
  rewrite (bind_ret_eq _ _ _ _ _ Hsplit). by apply bind_raise_eq.
Qed.

Lemma merge_failure_is_body_failure tpl up out data w pages w1 filled w2 e w3 :
  split_pdf tpl up w = (Ret pages, w1) →
  fill_pages pages data w1 = (Ret filled, w2) →
  merge_pdfs out filled w2 = (Raise e, w3) →
  try_body tpl up out data w = (Raise e, w3).
Proof.
  intros Hsplit Hfill Hmerge. unfold try_body.
  rewrite (bind_ret_eq _ _ _ _ _ Hsplit), (bind_ret_eq _ _ _ _ _ Hfill).
  by apply bind_raise_eq.
Qed.

(** ** Which files an operation can change *)

Lemma touches_ret {A} (S : string → Prop) (a : A) : touches_only S (ret a).
Proof. intros w o w' H. unfold ret in H. by simplify_eq. Qed.

Lemma touches_raise {A} (S : string → Prop) e : touches_only S (@raise A e).
Proof. intros w o w' H. unfold raise in H. by simplify_eq. Qed.

Lemma touches_lift {A} (S : string → Prop) (x : outcome A) : touches_only S (lift x).
Proof. intros w o w' H. unfold lift in H. by simplify_eq. Qed.

Lemma touches_weaken {A} (S S' : string → Prop) (m : M A) :
  (∀ q, S q → S' q) → touches_only S m → touches_only S' m.
Proof.
  intros Hsub Hm w o w' H. destruct (Hm w o w' H) as [Hd Hf].
  split; [done|]. intros q Hq. apply Hf. intros HS. by apply Hq, Hsub.
Qed.

Lemma touches_bind {A B} (S : string → Prop) (m : M A) (k : A → M B) :
  touches_only S m → (∀ a, touches_only S (k a)) → touches_only S (bind m k).
Proof.
  intros Hm Hk w o w' H. unfold bind in H.
  destruct (m w) as [[a|e] w1] eqn:Hmw.
  - destruct (Hm _ _ _ Hmw) as [Hd1 Hf1].
    destruct (Hk a _ _ _ H) as [Hd2 Hf2].
    split; [congruence|]. intros q Hq. rewrite Hf2, Hf1; done.
  - simplify_eq. by apply (Hm _ _ _ Hmw).
Qed.

Lemma touches_try_except {A} (S : string → Prop) (m : M A) (h : exn → M A) :
  touches_only S m → (∀ e, touches_only S (h e)) → touches_only S (try_except m h).
Proof.
  intros Hm Hh w o w' H. unfold try_except in H.
  destruct (m w) as [[a|e] w1] eqn:Hmw.
  - simplify_eq. by apply (Hm _ _ _ Hmw).
  - destruct (Hm _ _ _ Hmw) as [Hd1 Hf1].
    destruct (Hh e _ _ _ H) as [Hd2 Hf2].
    split; [congruence|]. intros q Hq. rewrite Hf2, Hf1; done.
Qed.

Lemma touches_for_each {A St} (S : string → Prop) (xs : list A)
    (body : A → St → M St) acc :
  (∀ x acc, x ∈ xs → touches_only S (body x acc)) →
  touches_only S (for_each xs body acc).
Proof.
  revert acc. induction xs as [|x xs IH]; intros acc Hbody; simpl.
  - apply touches_ret.
  - apply touches_bind.
    + apply Hbody. by left.
    + intros acc'. apply IH. intros y acc'' Hy. apply Hbody. by right.
Qed.

Lemma touches_write (S : string → Prop) p f : S p → touches_only S (Os.write p f).
Proof.
  intros HS w o w' H. unfold Os.write in H.
  destruct (Os.is_dir w p || bool_decide (OsPath.basename p = ""))%bool;
    [by simplify_eq|].
  destruct (Os.parent_ok w p); simplify_eq; [|done].
  split; [done|]. intros q Hq. simpl. apply lookup_insert_ne. by intros ->.
Qed.

Lemma touches_remove (S : string → Prop) p : S p → touches_only S (Os.remove p).
Proof.
  intros HS w o w' H. unfold Os.remove in H.
  destruct (files w !! p).
  - simplify_eq. split; [done|]. intros q Hq. simpl.
    apply lookup_delete_ne. by intros ->.
  - destruct (Os.is_dir w p); by simplify_eq.
Qed.

Lemma touches_exists (S : string → Prop) p : touches_only S (Os.exists_ p).
Proof. intros w o w' H. unfold Os.exists_ in H. by simplify_eq. Qed.

Lemma touches_read (S : string → Prop) p : touches_only S (Os.read p).
Proof.
  intros w o w' H. unfold Os.read in H.
  destruct (files w !! p); [by simplify_eq|].
  destruct (Os.is_dir w p); by simplify_eq.
Qed.

Lemma touches_open (S : string → Prop) p : touches_only S (Fitz.open p).
Proof.
  intros w o w' H. unfold Fitz.open in H.
  destruct (files w !! p) as [[]|]; by simplify_eq.
Qed.

Lemma touches_save (S : string → Prop) d p : S p → touches_only S (Fitz.save d p).
Proof.
  intros HS. unfold Fitz.save.
  case_bool_decide; [apply touches_raise|].
  case_bool_decide; [apply touches_raise|]. by apply touches_write.
Qed.

Lemma touches_split_pdf tpl up :
  touches_only (λ q, ∃ i, q = page_path up i) (split_pdf tpl up).
Proof.
  unfold split_pdf. apply touches_bind; [apply touches_open|].
  intros d. apply touches_for_each. intros i acc _. unfold split_page.
  apply touches_bind; [apply touches_lift|]. intros new_pdf.
  apply touches_bind; [|intros; apply touches_ret].
  apply touches_save. by exists i.
Qed.

Lemma touches_fill_page p data coordinates :
  touches_only (λ q, q = filled_path p) (fill_page p data coordinates).
Proof.
  unfold fill_page. apply touches_bind; [apply touches_open|]. intros d.
  apply touches_bind; [apply touches_lift|]. intros pg.
  apply touches_bind; [apply touches_lift|]. intros pg'.
  apply touches_bind; [|intros; apply touches_ret].
  by apply touches_save.
Qed.

Lemma touches_merge_pdfs out paths :
  touches_only (λ q, q = out) (merge_pdfs out paths).
Proof.
  unfold merge_pdfs. apply touches_bind.
  - apply touches_for_each. intros p acc _. unfold merge_page.
    apply touches_bind; [apply touches_exists|]. intros [|]; [|apply touches_ret].
    apply touches_bind; [apply touches_open|]. intros; apply touches_ret.
  - intros d. by apply touches_save.
Qed.

Lemma touches_remove_all ps : touches_only (λ q, q ∈ ps) (remove_all ps).
Proof.
  unfold remove_all. apply touches_for_each. intros p [] Hp.
  apply touches_bind; [apply touches_exists|]. intros [|]; [|apply touches_ret].
  by apply touches_remove.
Qed.

Lemma touches_bind_ret {A B} (S : string → Prop) (m : M A) (k : A → M B) :
  touches_only S m →
  (∀ a w w1, m w = (Ret a, w1) → touches_only S (k a)) →
  touches_only S (bind m k).
Proof.
  intros Hm Hk w o w' H. unfold bind in H.
  destruct (m w) as [[a|e] w1] eqn:Hmw.
  - destruct (Hm _ _ _ Hmw) as [Hd1 Hf1].
    destruct (Hk a _ _ Hmw _ _ _ H) as [Hd2 Hf2].
    split; [congruence|]. intros q Hq. rewrite Hf2, Hf1; done.
  - simplify_eq. by apply (Hm _ _ _ Hmw).
Qed.

Lemma split_loop_paths doc up idxs acc w ps w' :
  for_each idxs (split_page doc up) acc w = (Ret ps, w') →
  ps = acc ++ (page_path up <$> idxs).
Proof.
  revert acc w. induction idxs as [|i idxs IH]; intros acc w H.
  - simpl in H. unfold ret in H. simplify_eq. by rewrite app_nil_r.
  - cbn [for_each] in H. apply bind_Ret_inv in H as (acc1 & w1 & Hstep & Hrest).
    apply IH in Hrest. unfold split_page in Hstep.
    apply bind_Ret_inv in Hstep as (d & w2 & _ & Hstep).
    apply bind_Ret_inv in Hstep as ([] & w3 & _ & Hstep).
    unfold ret in Hstep. simplify_eq. by rewrite <-app_assoc.
Qed.

(** What [split_pdf] returns, when it returns, are the page paths
    page_1.pdf, page_2.pdf, ... of the output folder, in this order. *)
Lemma split_pdf_paths tpl up w pages w' :
  split_pdf tpl up w = (Ret pages, w') →
  ∃ n, pages = page_path up <$> seq 0 n.
Proof.
  unfold split_pdf. intros H.
  apply bind_Ret_inv in H as (d & w1 & _ & H).
  apply split_loop_paths in H. by exists (Fitz.len d).
Qed.

Lemma fill_page_returns p data coordinates w t w' :
  fill_page p data coordinates w = (Ret t, w') → t = filled_path p.
Proof.
  unfold fill_page. intros H.
  apply bind_Ret_inv in H as (d & w1 & _ & H).
  apply bind_Ret_inv in H as (pg & w2 & _ & H).
  apply bind_Ret_inv in H as (pg' & w3 & _ & H).
  apply bind_Ret_inv in H as ([] & w4 & _ & H).
  unfold ret in H. by simplify_eq.
Qed.

Lemma touches_fill_pages pages data :
  touches_only (stamped_of pages) (fill_pages pages data).
Proof.
  unfold fill_pages.
  apply touches_bind.
  { destruct (pages !! 0%nat) as [p|] eqn:Hp; [|apply touches_ret].
    apply touches_bind; [|intros; apply touches_ret].
    eapply touches_weaken; [|apply touches_fill_page].
    intros q ->. left. eauto. }
  intros f1. apply touches_bind.
  { destruct (pages !! 1%nat); apply touches_ret. }
  intros f2. apply touches_bind; [|intros; apply touches_ret].
  destruct (pages !! 2%nat) as [p|] eqn:Hp; [|apply touches_ret].
  apply touches_bind; [|intros; apply touches_ret].
  eapply touches_weaken; [|apply touches_fill_page].
  intros q ->. right. eauto.
Qed.

Lemma fill_pages_result pages data w filled w' :
  fill_pages pages data w = (Ret filled, w') →
  Forall (λ q, q ∈ pages ∨ stamped_of pages q) filled.
Proof.
  unfold fill_pages. intros H.
  apply bind_Ret_inv in H as (l1 & w1 & H1 & H).
  apply bind_Ret_inv in H as (l2 & w2 & H2 & H).
  apply bind_Ret_inv in H as (l3 & w3 & H3 & H).
  unfold ret in H. simplify_eq.
  assert (Forall (λ q, q ∈ pages ∨ stamped_of pages q) l1) as F1.
  { destruct (pages !! 0%nat) as [p|] eqn:Hp.
    - apply bind_Ret_inv in H1 as (t & w0 & Ht & H1). unfold ret in H1.
      simplify_eq. apply fill_page_returns in Ht as ->.
      apply Forall_singleton. right. left. eauto.
    - unfold ret in H1. simplify_eq. constructor. }
  assert (Forall (λ q, q ∈ pages ∨ stamped_of pages q) l2) as F2.
  { destruct (pages !! 1%nat) as [p|] eqn:Hp; unfold ret in H2; simplify_eq; [|done].
    apply Forall_app. split; [done|]. apply Forall_singleton. left.
    by eapply list_elem_of_lookup_2. }
  assert (Forall (λ q, q ∈ pages ∨ stamped_of pages q) l3) as F3.
  { destruct (pages !! 2%nat) as [p|] eqn:Hp.
    - apply bind_Ret_inv in H3 as (t & w0 & Ht & H3). unfold ret in H3.
      simplify_eq. apply fill_page_returns in Ht as ->.
      apply Forall_app. split; [done|]. apply Forall_singleton. right. right. eauto.
    - unfold ret in H3. by simplify_eq. }
  case_decide; [|done]. apply Forall_app. split; [done|].
  apply Forall_forall. intros q Hq. left.
  apply list_elem_of_lookup in Hq as [i Hi]. rewrite lookup_drop in Hi.
  by eapply list_elem_of_lookup_2.
Qed.

Lemma stamped_of_page_paths up n q :
  stamped_of (page_path up <$> seq 0 n) q →
  q = filled_path (page_path up 0) ∨ q = filled_path (page_path up 2).
Proof.
  intros [(p & Hp & ->)|(p & Hp & ->)];
    rewrite list_lookup_fmap in Hp;
    destruct (seq 0 n !! _) as [i|] eqn:Hi; simplify_eq/=;
    apply lookup_seq in Hi as [-> _]; auto.
Qed.

Lemma touches_try_body tpl up out data :
  touches_only (record_scope up out) (try_body tpl up out data).
Proof.
  unfold try_body. apply touches_bind_ret.
  { eapply touches_weaken; [|apply touches_split_pdf].
    intros q Hq. right. by left. }
  intros pages w w1 Hsplit. apply split_pdf_paths in Hsplit as [n ->].
  apply touches_bind_ret.
  { eapply touches_weaken; [|apply touches_fill_pages].
    intros q Hq. right. right. by apply (stamped_of_page_paths up n). }
  intros filled w2 w3 Hfill. apply fill_pages_result in Hfill.
  apply touches_bind.
  { eapply touches_weaken; [|apply touches_merge_pdfs]. intros q ->. by left. }
  intros []. eapply touches_weaken; [|apply touches_remove_all].
  assert (∀ q, q ∈ page_path up <$> seq 0 n → record_scope up out q) as Hpages.
  { intros q Hq. apply list_elem_of_fmap in Hq as (i & -> & _).
    right. left. by exists i. }
  intros q Hq. apply elem_of_app in Hq as [Hq|Hq]; [by apply Hpages|].
  rewrite Forall_forall in Hfill. destruct (Hfill q Hq) as [Hin|Hst].
  - by apply Hpages.
  - right. right. by apply (stamped_of_page_paths up n).
Qed.

Lemma touches_process_row tpl up comp index data st :
  touches_only (record_scope up (out_pdf_of comp data))
    (process_row tpl up comp (index, data) st).
Proof.
  unfold process_row. apply touches_try_except.
  - apply touches_bind; [apply touches_try_body|]. intros; apply touches_ret.
  - intros e. apply touches_ret.
Qed.

Lemma touches_rows tpl up comp rows st :
  touches_only
    (λ q, ∃ row, row ∈ rows ∧ record_scope up (out_pdf_of comp row.2) q)
    (for_each rows (process_row tpl up comp) st).
Proof.
  apply touches_for_each. intros [index data] acc Hrow.
  eapply touches_weaken; [|apply touches_process_row].
  intros q Hq. by exists (index, data).
Qed.

(** ** The names of the files of one record *)

Module NameFacts.
Import PyFacts.

Lemma rev_involutive (s : string) : String.rev (String.rev s) = s.
Proof.
  induction s as [|a s IH]; [done|].
  by rewrite rev_cons, rev_app, IH.
Qed.

Lemma endswith_slash (a : string) :
  Py.endswith "/" a = true → ∃ x, a = x +:+ "/".
Proof.
  unfold Py.endswith. change (String.rev "/") with "/".
  destruct (String.rev a) as [|c r] eqn:Hr; [done|]. simpl.
  destruct (decide ("/"%char = c)) as [<-|]; [|done]. intros _.
  exists (String.rev r). rewrite <-(rev_involutive a), Hr, rev_cons. done.
Qed.

Lemma rfind_no_char c (s : string) :
  Py.all_char (λ a, negb (bool_decide (a = c))) s = true → Py.rfind c s = None.
Proof.
  induction s as [|a s IH]; [done|]. simpl.
  intros [Ha Hs]%andb_true_iff. rewrite (IH Hs).
  apply negb_true_iff, bool_decide_eq_false in Ha. by destruct (decide (a = c)).
Qed.

Lemma basename_after_slash (x b : string) :
  Py.all_char not_slash b = true → OsPath.basename (x +:+ String "/" b) = b.
Proof.
  intros Hb. unfold OsPath.basename.
  change OsPath.sep with "/"%char.
  assert (Py.rfind "/" (x +:+ String "/" b) = Some (String.length x)) as ->.
  { pose proof (rfind_no_char "/" b Hb) as Hn.
    induction x as [|a x IH]; rewrite ?app_cons, ?app_nil_l; simpl.
    - by rewrite Hn.
    - by rewrite IH. }
  induction x as [|a x IH]; rewrite ?app_cons, ?app_nil_l; simpl; [done|].
  exact IH.
Qed.

Lemma basename_plain (b : string) :
  Py.all_char not_slash b = true → OsPath.basename b = b.
Proof.
  intros Hb. unfold OsPath.basename. change OsPath.sep with "/"%char.
  by rewrite (rfind_no_char "/" b Hb).
Qed.

Lemma basename_dir_prefix (a b : string) :
  Py.all_char not_slash b = true → OsPath.basename (dir_prefix a +:+ b) = b.
Proof.
  intros Hb. unfold dir_prefix.
  destruct (bool_decide (a = "")) eqn:Ha; simpl.
  - apply bool_decide_eq_true in Ha as ->. by apply basename_plain.
  - destruct (Py.endswith "/" a) eqn:He.
    + apply endswith_slash in He as [x ->]. rewrite app_assoc.
      by apply basename_after_slash.
    + rewrite app_assoc. by apply basename_after_slash.
Qed.

Lemma digits_no_slash (s : string) :
  Py.all_char is_digit s = true → Py.all_char not_slash s = true.
Proof.
  induction s as [|a s IH]; [done|]. simpl.
  intros [Ha Hs]%andb_true_iff. rewrite (IH Hs), andb_true_r.
  unfold not_slash. case_bool_decide as Hc; [|done]. by subst a.
Qed.

Lemma basename_page_path up i : OsPath.basename (page_path up i) = page_file i.
Proof.
  rewrite Paths.page_path_eq. unfold page_file. apply basename_dir_prefix.
  rewrite !all_char_app, (digits_no_slash _ (pretty_nat_digits _)). done.
Qed.

Lemma filled_page_file i :
  filled_path (page_file i) = "page_" +:+ pretty (i + 1)%nat +:+ "_filled.pdf".
Proof.
  unfold filled_path, page_file.
  rewrite <-(app_assoc _ _ ".pdf"), <-(app_assoc _ _ "_filled.pdf").
  apply replace_extension.
  rewrite all_char_app, (digits_no_dot _ (pretty_nat_digits _)). done.
Qed.

Lemma basename_filled_path up i :
  Py.all_char not_dot up = true →
  OsPath.basename (filled_path (page_path up i)) = filled_path (page_file i).
Proof.
  intros Hup. rewrite Paths.filled_path_eq, filled_page_file by done.
  apply basename_dir_prefix.
  rewrite !all_char_app, (digits_no_slash _ (pretty_nat_digits _)). done.
Qed.

Lemma scope_names up out q :
  Py.all_char not_dot up = true →
  record_scope up out q → record_names out (OsPath.basename q).
Proof.
  intros Hup [->|[[i ->]|[->| ->]]].
  - by left.
  - right; left. exists i. apply basename_page_path.
  - right; right; left. by apply basename_filled_path.
  - right; right; right. by apply basename_filled_path.
Qed.

End NameFacts.

(** X1.  In a session whose upload folder has no dot in its name, the
    turn of the loop for one record, whether it ends in SUCCESS or in
    ERROR, creates no directory, and every file that it writes or removes
    has, as the last component of its path, the file name of the record's
    output document, page_N.pdf, page_1_filled.pdf or page_3_filled.pdf: a
    file of any other name, in whatever folder, is left as it is. *)
Theorem X1_record_changes_only_its_own_files
    (tpl up comp : string) (index : Z) (data : record) (st : batch) (w : world)
    (q : string) :
  Py.all_char not_dot up = true →
  ¬ record_names (out_pdf_of comp data) (OsPath.basename q) →
  let r := process_row tpl up comp (index, data) st w in
  dirs r.2 ⊆ dirs w ∧ files r.2 !! q = files w !! q.
Proof.
  intros Hup Hq r.
  destruct (touches_process_row tpl up comp index data st w r.1 r.2) as [Hd Hf].
  { apply surjective_pairing. }
  split; [by rewrite Hd|]. apply Hf. intros Hscope. apply Hq.
  by apply (NameFacts.scope_names up).
Qed.

Lemma X1_witness :
  let data := Demo.record_of Demo.ann in
  let q := "uploads/20250101_120000_000000/patients.csv" in
  let r := process_row Demo.tpl Demo.up Demo.comp (0, data) (Batch [] []) Demo.started in
  Py.all_char not_dot Demo.up = true
  ∧ ¬ record_names (out_pdf_of Demo.comp data) (OsPath.basename q)
  ∧ dirs r.2 ⊆ dirs Demo.started ∧ files r.2 !! q = files Demo.started !! q.
Proof.
  intros data q r.
  assert (Py.all_char not_dot Demo.up = true) as Hup by (vm_compute; reflexivity).
  assert (¬ record_names (out_pdf_of Demo.comp data) (OsPath.basename q)) as H.
  { intros [H|[[i H]|[H|H]]].
    - vm_compute in H. discriminate H.
    - unfold page_file in H. vm_compute in H. discriminate H.
    - vm_compute in H. discriminate H.
    - vm_compute in H. discriminate H. }
  split; [exact Hup|]. split; [exact H|].
  exact (X1_record_changes_only_its_own_files Demo.tpl Demo.up Demo.comp 0 data
           (Batch [] []) Demo.started q Hup H).
Defined.

Module SessionPaths.

Import PyFacts.

Lemma template_path_eq up :
  OsPath.join up "template.pdf" = dir_prefix up +:+ "template.pdf".
Proof.
  change "template.pdf" with (String "t" "emplate.pdf").
  by rewrite join_relative.
Qed.

Lemma template_ne_page up i : OsPath.join up "template.pdf" ≠ page_path up i.
Proof.
  rewrite template_path_eq, Paths.page_path_eq. intros H.
  apply String.app_inj in H. rewrite ?app_cons in H. discriminate H.
Qed.

Lemma template_ne_filled up i :
  Py.all_char not_dot up = true →
  OsPath.join up "template.pdf" ≠ filled_path (page_path up i).
Proof.
  intros Hup. rewrite template_path_eq, Paths.filled_path_eq by done. intros H.
  apply String.app_inj in H. rewrite ?app_cons in H. discriminate H.
Qed.

Lemma template_ne_out up comp data :
  OsPath.join up "template.pdf" ≠ out_pdf_of comp data.
Proof.
  destruct (Paths.out_pdf_suffix comp data) as [x ->].
  rewrite template_path_eq. intros H. apply (f_equal String.rev) in H.
  rewrite !rev_app in H.
  change (String.rev "_CDAI.pdf") with "fdp.IADC_" in H.
  change (String.rev "template.pdf") with "fdp.etalpmet" in H.
  rewrite ?app_cons, ?app_nil_l in H. discriminate H.
Qed.

Lemma template_not_in_scope up comp data :
  Py.all_char not_dot up = true →
  ¬ record_scope up (out_pdf_of comp data) (OsPath.join up "template.pdf").
Proof.
  intros Hup [H|[[i H]|[H|H]]].
  - by apply template_ne_out in H.
  - by apply template_ne_page in H.
  - by apply template_ne_filled in H.
  - by apply template_ne_filled in H.
Qed.

Lemma document_not_in_scope up comp data data0 :
  Py.all_char not_dot up = true →
  out_pdf_of comp data ≠ out_pdf_of comp data0 →
  ¬ record_scope up (out_pdf_of comp data) (out_pdf_of comp data0).
Proof.
  intros Hup Hne [H|[[i H]|[H|H]]].
  - by apply Hne.
  - by apply Paths.out_ne_page in H.
  - by apply Paths.out_ne_filled in H.
  - by apply Paths.out_ne_filled in H.
Qed.

End SessionPaths.

(** X2.  In a session whose upload folder has no dot in its name, the loop
    over the records never changes the session's copy of the template,
    whatever the records are and however each one ends: every record is
    split from the same template. *)
Theorem X2_rows_keep_the_template
    (up comp : string) (rows : list (Z * record)) (st : batch) (w : world) :
  Py.all_char not_dot up = true →
  let tpl := OsPath.join up "template.pdf" in
  let r := for_each rows (process_row tpl up comp) st w in
  files r.2 !! tpl = files w !! tpl.
Proof.
  intros Hup tpl r.
  destruct (touches_rows tpl up comp rows st w r.1 r.2) as [_ Hf].
  { apply surjective_pairing. }
  apply Hf. intros ([index data] & _ & Hscope).
  by apply (SessionPaths.template_not_in_scope up comp data).
Qed.

Lemma X2_witness :
  let rows := [(0, Demo.record_of Demo.ann); (1, Demo.record_of Demo.ann_slash)] in
  let r := for_each rows (process_row Demo.tpl Demo.up Demo.comp) (Batch [] [])
             Demo.started in
  Py.all_char not_dot Demo.up = true
  ∧ files r.2 !! Demo.tpl = files Demo.started !! Demo.tpl.
Proof.
  intros rows r.
  assert (Py.all_char not_dot Demo.up = true) as H by (vm_compute; reflexivity).
  split; [exact H|].
  exact (X2_rows_keep_the_template Demo.up Demo.comp rows (Batch [] []) Demo.started H).
Defined.

Lemma rows_keep_other_names tpl up comp rows st w data0 :
  Py.all_char not_dot up = true →
  Forall (λ row, OsPath.basename (out_pdf_of comp row.2)
                 ≠ OsPath.basename (out_pdf_of comp data0)) rows →
  files (for_each rows (process_row tpl up comp) st w).2 !! out_pdf_of comp data0
  = files w !! out_pdf_of comp data0.
Proof.
  intros Hup Hne.
  set (r := for_each rows (process_row tpl up comp) st w).
  destruct (touches_rows tpl up comp rows st w r.1 r.2) as [_ Hf].
  { apply surjective_pairing. }
  apply Hf. intros ([index data] & Hin & Hscope).
  rewrite Forall_forall in Hne. specialize (Hne _ Hin). simpl in *.
  destruct Hscope as [H|[[i H]|[H|H]]].
  - apply Hne. by rewrite H.
  - by apply Paths.out_ne_page in H.
  - by apply Paths.out_ne_filled in H.
  - by apply Paths.out_ne_filled in H.
Qed.

(** X3.  In such a session, the records that come later change the output
    document of a record only when the output path of one of them has the
    same file name, that is the same last component: when none has, the
    document stays as it was written. *)
Theorem X3_rows_keep_documents_of_other_names
    (tpl up comp : string) (rows : list (Z * record)) (st : batch) (w : world)
    (data0 : record) :
  Py.all_char not_dot up = true →
  Forall (λ row, OsPath.basename (out_pdf_of comp row.2)
                 ≠ OsPath.basename (out_pdf_of comp data0)) rows →
  let r := for_each rows (process_row tpl up comp) st w in
  files r.2 !! out_pdf_of comp data0 = files w !! out_pdf_of comp data0.
Proof. intros Hup Hne r. by apply rows_keep_other_names. Qed.

Lemma X3_witness :
  let first := process_row Demo.tpl Demo.up Demo.comp (0, Demo.record_of Demo.ann)
                 (Batch [] []) Demo.started in
  let rows := [(1, Demo.record_of Demo.bob); (2, Demo.record_of Demo.john)] in
  let r := for_each rows (process_row Demo.tpl Demo.up Demo.comp) (Batch [] [])
             first.2 in
  Py.all_char not_dot Demo.up = true
  ∧ Forall (λ row, OsPath.basename (out_pdf_of Demo.comp row.2)
                   ≠ OsPath.basename (out_pdf_of Demo.comp (Demo.record_of Demo.ann)))
      rows
  ∧ files r.2 !! out_pdf_of Demo.comp (Demo.record_of Demo.ann)
    = files first.2 !! out_pdf_of Demo.comp (Demo.record_of Demo.ann).
Proof.
  intros first rows r.
  assert (Py.all_char not_dot Demo.up = true) as H by (vm_compute; reflexivity).
  assert (Forall (λ row, OsPath.basename (out_pdf_of Demo.comp row.2)
                   ≠ OsPath.basename (out_pdf_of Demo.comp (Demo.record_of Demo.ann)))
            rows) as H2.
  { repeat (apply Forall_cons; split; [vm_compute; discriminate|]).
    apply Forall_nil_2. }
  split; [exact H|]. split; [exact H2|].
  exact (X3_rows_keep_documents_of_other_names Demo.tpl Demo.up Demo.comp rows
           (Batch [] []) first.2 (Demo.record_of Demo.ann) H H2).
Defined.

(** ** The report and the generated files, record by record *)

(** X4.  The loop over the records always comes to its end.  The log gets
    one entry per record, in the order in which [iterrows] gives them: the
    SUCCESS entry of the record when the body of its [try] statement
    returned, the ERROR entry with the text of the exception when it
    raised, each naming the record by its index label plus 2.  The
    generated files get, in the same order, the output paths of the
    records whose body returned. *)
Theorem X4_report_follows_the_order_of_the_rows
    (tpl up comp : string) (rows : list (Z * record)) (st : batch) (w : world) :
  let os := outcomes tpl up comp rows w in
  for_each rows (process_row tpl up comp) st w
  = (Ret (Batch (processing_log st ++ zip_with entry_of rows os)
                (generated_files st ++ generated_of comp rows os)),
     world_after tpl up comp rows w)
  ∧ length os = length rows.
Proof. split; [apply rows_outcomes | apply outcomes_length]. Qed.

(** Three records, the second of which fails. *)
Example three_entries_in_order :
  let rows := [(0, Demo.record_of Demo.ann); (1, Demo.record_of Demo.ann_slash);
               (2, Demo.record_of Demo.bob)] in
  (∃ e, outcomes Demo.tpl Demo.up Demo.comp rows Demo.started = [None; Some e; None])
  ∧ generated_of Demo.comp rows
      (outcomes Demo.tpl Demo.up Demo.comp rows Demo.started)
    = ["completed/20250101_120000_000000/Lee_Ann_CDAI.pdf";
       "completed/20250101_120000_000000/Ray_Bob_CDAI.pdf"].
Proof. vm_compute. split; [by eexists | reflexivity]. Qed.

(** ** Templates that cannot be used *)

Lemma rows_all_fail tpl up comp rows st w (e : exn) :
  (∀ data, try_body tpl up (out_pdf_of comp data) data w = (Raise e, w)) →
  for_each rows (process_row tpl up comp) st w
  = (Ret (Batch (processing_log st ++ ((λ row, error_entry row.1 row.2 e) <$> rows))
                (generated_files st)), w).
Proof.
  intros Hfail. revert st. induction rows as [|[index data] rows IH]; intros st.
  - simpl. rewrite app_nil_r. by destruct st.
  - cbn [for_each].
    rewrite (bind_ret_eq _ _ _ _ _ (process_row_error _ _ _ _ _ _ _ _ _ (Hfail data))).
    rewrite IH. simpl. by rewrite <-app_assoc.
Qed.

Lemma out_pdf_ne_empty comp data : out_pdf_of comp data ≠ "".
Proof.
  destruct (Paths.out_pdf_suffix comp data) as [x ->].
  destruct x; rewrite ?PyFacts.app_cons, ?PyFacts.app_nil_l; discriminate.
Qed.

(** X5.  When the session's template is missing or is no document, the
    batch is not stopped: every record is tried, the split raises for each
    of them, the log gets one ERROR entry per record with the text of the
    open error, no file is generated and the file system stays as it
    was. *)
Theorem X5_unreadable_template_fails_every_record
    (tpl up comp : string) (rows : list (Z * record)) (st : batch) (w : world) :
  (∀ pages, files w !! tpl ≠ Some (FPdf pages)) →
  for_each rows (process_row tpl up comp) st w
  = (Ret (Batch (processing_log st
                 ++ ((λ row, error_entry row.1 row.2 (open_error w tpl)) <$> rows))
                (generated_files st)), w).
Proof.
  intros Htpl. apply rows_all_fail. intros data.
  apply split_failure_is_body_failure. unfold split_pdf. apply bind_raise_eq.
  unfold Fitz.open, open_error.
  destruct (files w !! tpl) as [[pages| | |]|] eqn:H; try done.
  by destruct (Htpl pages).
Qed.

Lemma X5_witness :
  let w : world := World ∅ {[ "uploads"; "completed" ]} in
  let rows := [(0, Demo.record_of Demo.ann); (1, Demo.record_of Demo.bob)] in
  (∀ pages, files w !! "uploads/template.pdf" ≠ Some (FPdf pages))
  ∧ for_each rows (process_row "uploads/template.pdf" "uploads" "completed")
      (Batch [] []) w
    = (Ret (Batch
         ["ERROR: Row 2 (Patient: Ann Lee) - An unexpected error occurred: no such file: 'uploads/template.pdf'";
          "ERROR: Row 3 (Patient: Bob Ray) - An unexpected error occurred: no such file: 'uploads/template.pdf'"]
         []), w).
Proof.
  intros w rows.
  assert (∀ pages, files w !! "uploads/template.pdf" ≠ Some (FPdf pages)) as H
    by (intros pages; vm_compute; discriminate).
  split; [exact H|].
  exact (X5_unreadable_template_fails_every_record
           "uploads/template.pdf" "uploads" "completed" rows (Batch [] []) w H).
Defined.

(** X6.  When the template is a document without pages, the split writes
    nothing, nothing is stamped, and the merge of the empty page sequence
    raises: every record gets the ERROR entry "cannot save with zero
    pages", no file is generated and the file system stays as it was. *)
Theorem X6_template_without_pages_fails_every_record
    (tpl up comp : string) (rows : list (Z * record)) (st : batch) (w : world) :
  files w !! tpl = Some (FPdf []) →
  for_each rows (process_row tpl up comp) st w
  = (Ret (Batch (processing_log st
                 ++ ((λ row, error_entry row.1 row.2
                               (Fitz.ValueError "cannot save with zero pages"))
                     <$> rows))
                (generated_files st)), w).
Proof.
  intros Htpl. apply rows_all_fail. intros data.
  assert (split_pdf tpl up w = (Ret [], w)) as Hsplit.
  { unfold split_pdf. by rewrite (bind_ret_eq _ _ _ _ _ (open_ok _ _ _ Htpl)). }
  apply (merge_failure_is_body_failure _ _ _ _ _ [] w [] w); [done|done|].
  unfold merge_pdfs, bind, Fitz.save; simpl.
  rewrite bool_decide_eq_false_2 by apply out_pdf_ne_empty. done.
Qed.

Lemma X6_witness :
  let w : world := World {[ "uploads/template.pdf" := FPdf [] ]}
                         {[ "uploads"; "completed" ]} in
  let rows := [(0, Demo.record_of Demo.ann)] in
  files w !! "uploads/template.pdf" = Some (FPdf [])
  ∧ for_each rows (process_row "uploads/template.pdf" "uploads" "completed")
      (Batch [] []) w
    = (Ret (Batch
         ["ERROR: Row 2 (Patient: Ann Lee) - An unexpected error occurred: cannot save with zero pages"]
         []), w).
Proof.
  intros w rows.
  assert (files w !! "uploads/template.pdf" = Some (FPdf [])) as H
    by (vm_compute; reflexivity).
  split; [exact H|].
  exact (X6_template_without_pages_fails_every_record
           "uploads/template.pdf" "uploads" "completed" rows (Batch [] []) w H).
Defined.

(** ** Templates of one or two pages *)

Lemma fill_pages_short up data w p1 s1 (tail : list string) :
  (length tail ≤ 1)%nat →
  Py.all_char not_dot up = true →
  files w !! page_path up 0 = Some (FPdf [p1]) →
  fill_fields p1 data coords_p1 = Ret s1 →
  can_create w (filled_path (page_path up 0)) = true →
  fill_pages (page_path up 0 :: tail) data w
  = (Ret (filled_path (page_path up 0) :: tail),
     World (<[filled_path (page_path up 0) := FPdf [s1]]> (files w)) (dirs w)).
Proof.
  intros Hlen Hup Hfile Hs1 Hc.
  assert (fill_page (page_path up 0) data coords_p1 w
          = (Ret (filled_path (page_path up 0)),
             World (<[filled_path (page_path up 0) := FPdf [s1]]> (files w)) (dirs w)))
    as H0.
  { apply (fill_page_spec _ _ _ p1 [] s1); try done.
    intros Heq. by apply (Paths.page_ne_filled up 0 0). }
  unfold fill_pages. cbn [lookup list_lookup].
  rewrite (bind_ret_eq _ _ _ _ _ (bind_ret_eq _ _ _ _ _ H0)).
  destruct tail as [|t [|t' tail]]; [| |simpl in Hlen; lia]; simpl;
    unfold bind, ret; simpl; done.
Qed.

(** X7.  A template of one or two pages is processed without an error:
    page 1 is stamped with the table of page 1 (the texts of [stamps] are
    added to it), a second page is passed on as it is, and the table of
    page 3, which has no page to go on, is dropped without a trace in the
    report; the record is logged as SUCCESS. *)
Theorem X7_short_template_drops_the_third_page_table
    (tpl up comp : string) (index : Z) (data : record) (st : batch) (w : world)
    (p1 : page) (rest : list page) :
  files w !! tpl = Some (FPdf (p1 :: rest)) →
  (length rest ≤ 1)%nat →
  Py.all_char not_dot up = true →
  Forall (λ p, can_create w p = true)
         ((page_path up <$> seq 0 (1 + length rest))
          ++ [filled_path (page_path up 0); out_pdf_of comp data]) →
  ∃ s1 w',
    fill_fields p1 data coords_p1 = Ret s1
    ∧ process_row tpl up comp (index, data) st w
      = (Ret (Batch (processing_log st ++ [success_entry index data])
                    (generated_files st ++ [out_pdf_of comp data])), w')
    ∧ files w' !! out_pdf_of comp data = Some (FPdf (s1 :: rest))
    ∧ s1 = Page (page_body p1) (page_inserted p1 ++ stamps data coords_p1).
Proof.
  intros Htpl Hlen Hup Hcreate.
  set (out := out_pdf_of comp data) in *.
  set (f0 := filled_path (page_path up 0)) in *.
  apply Forall_app in Hcreate as [Hpages Hrest].
  apply Forall_cons in Hrest as [Hf0 Hout]. rewrite Forall_singleton in Hout.
  rewrite Forall_fmap, Forall_seq in Hpages. simpl in Hpages.
  destruct (fill_fields_points p1 data coords_p1) as [s1 Hs1].
  { unfold coords_p1. repeat constructor; simpl; eauto. }
  exists s1.
  destruct (split_pdf_spec tpl up (p1 :: rest) w Htpl)
    as (w1 & Hsplit & Hd1 & Hin1 & _).
  { intros i Hi. apply Hpages. simpl in Hi. lia. }
  change (page_path up <$> seq 0 (length (p1 :: rest)))
    with (page_path up 0 :: (page_path up <$> seq 1 (length rest))) in Hsplit.
  set (tail := page_path up <$> seq 1 (length rest)) in *.
  assert (length tail = length rest) as Htail
    by (unfold tail; by rewrite length_fmap, length_seq).
  pose proof (fill_pages_short up data w1 p1 s1 tail) as Hfill.
  rewrite (can_create_dirs w w1) in Hfill by done.
  specialize (Hfill ltac:(lia) Hup (Hin1 0%nat p1 eq_refl) Hs1 Hf0).
  set (w2 := World (<[f0 := FPdf [s1]]> (files w1)) (dirs w1)) in *.
  assert (Forall2 (λ p pg, files w2 !! p = Some (FPdf [pg])) (f0 :: tail) (s1 :: rest))
    as Hall.
  { constructor.
    - subst w2. simpl. apply lookup_insert_eq.
    - unfold tail. apply (rest_pages_spec up w2 rest 1). intros i pg Hi.
      subst w2. simpl. rewrite lookup_insert_ne.
      + by apply (Hin1 (1 + i)%nat pg).
      + intros Heq. by apply (Paths.page_ne_filled up (1 + i) 0). }
  assert (merge_pdfs out (f0 :: tail) w2
          = (Ret (), World (<[out := FPdf (s1 :: rest)]> (files w2)) (dirs w2)))
    as Hmerge.
  { unfold merge_pdfs.
    rewrite (bind_ret_eq _ _ _ _ _ (merge_loop_spec _ _ Fitz.new w2 Hall)).
    simpl. rewrite save_ok; [done| |done|].
    - exact (can_create_nonempty w out Hout).
    - by rewrite (can_create_dirs w w2). }
  set (w3 := World (<[out := FPdf (s1 :: rest)]> (files w2)) (dirs w2)) in *.
  set (pages := page_path up 0 :: tail) in *.
  assert (Forall (λ p, (∃ i, (i < 1 + length rest)%nat ∧ p = page_path up i) ∨ p = f0)
                 (pages ++ f0 :: tail)) as Hshape.
  { assert (Forall (λ p, (∃ i, (i < 1 + length rest)%nat ∧ p = page_path up i)
                         ∨ p = f0) tail) as Ht.
    { unfold tail. rewrite Forall_fmap, Forall_seq. intros j Hj. simpl. left.
      exists j. split; [lia | done]. }
    apply Forall_app. split.
    - apply Forall_cons. split; [left; exists 0%nat; split; [lia|done]|done].
    - apply Forall_cons. split; [by right|done]. }
  destruct (remove_all_spec (pages ++ f0 :: tail) w3)
    as (o & w' & Hrm & _ & _ & Hkeep & _ & Hok).
  assert (o = Ret ()) as ->.
  { apply Hok. intros p Hp.
    rewrite Forall_forall in Hshape. specialize (Hshape p Hp).
    apply can_create_not_dir. rewrite (can_create_dirs w w3) by done.
    destruct Hshape as [(i & Hi & ->)| ->]; [|done]. apply Hpages. lia. }
  exists w'. split; [exact Hs1|]. split.
  - apply process_row_ok. fold out. unfold try_body.
    rewrite (bind_ret_eq _ _ _ _ _ Hsplit).
    rewrite (bind_ret_eq _ _ _ _ _ Hfill).
    rewrite (bind_ret_eq _ _ _ _ _ Hmerge).
    exact Hrm.
  - split; [|by apply fill_fields_stamps].
    rewrite Hkeep.
    + subst w3. simpl. apply lookup_insert_eq.
    + intros Hin. rewrite Forall_forall in Hshape.
      destruct (Hshape out Hin) as [(i & _ & Heq)|Heq].
      * by apply Paths.out_ne_page in Heq.
      * by apply Paths.out_ne_filled in Heq.
Qed.

Lemma X7_witness :
  let w : world :=
    World {[ "uploads/s/template.pdf" := FPdf [Page 1 []; Page 2 []] ]}
          {[ "uploads"; "uploads/s"; "completed"; "completed/s" ]} in
  let data := Demo.record_of Demo.ann in
  let out := out_pdf_of "completed/s" data in
  files w !! "uploads/s/template.pdf" = Some (FPdf [Page 1 []; Page 2 []])
  ∧ ∃ s1 w',
      fill_fields (Page 1 []) data coords_p1 = Ret s1
      ∧ process_row "uploads/s/template.pdf" "uploads/s" "completed/s" (0, data)
          (Batch [] []) w
        = (Ret (Batch ([] ++ [success_entry 0 data]) ([] ++ [out])), w')
      ∧ files w' !! out = Some (FPdf [s1; Page 2 []])
      ∧ s1 = Page 1 (stamps data coords_p1).
Proof.
  intros w data out.
  assert (files w !! "uploads/s/template.pdf" = Some (FPdf [Page 1 []; Page 2 []]))
    as H1 by (vm_compute; reflexivity).
  split; [exact H1|].
  refine (X7_short_template_drops_the_third_page_table
            "uploads/s/template.pdf" "uploads/s" "completed/s" 0 data (Batch [] []) w
            (Page 1 []) [Page 2 []] H1 _ _ _).
  - simpl. lia.
  - vm_compute; reflexivity.
  - repeat (apply Forall_cons; split; [vm_compute; reflexivity|]).
    apply Forall_nil_2.
Defined.

(** ** The splitter *)

(** X8.  For a template of N pages in a folder where the page files can be
    created, [split_pdf] returns the N paths page_1.pdf ... page_N.pdf of
    the output folder in page order, the file at the i-th path holds page
    i of the template and nothing else, no directory is created and every
    file that is not one of these paths stays as it was. *)
Theorem X8_split_gives_one_file_per_page
    (tpl up : string) (pages : list page) (w : world) :
  files w !! tpl = Some (FPdf pages) →
  (∀ i, (i < length pages)%nat → can_create w (page_path up i) = true) →
  ∃ w', split_pdf tpl up w = (Ret (page_path up <$> seq 0 (length pages)), w')
    ∧ dirs w' = dirs w
    ∧ (∀ i pg, pages !! i = Some pg →
         files w' !! page_path up i = Some (FPdf [pg]))
    ∧ (∀ q, (∀ i, q ≠ page_path up i) → files w' !! q = files w !! q).
Proof. apply split_pdf_spec. Qed.

Lemma X8_witness :
  (∀ i, (i < 3)%nat → can_create Demo.started (page_path Demo.up i) = true)
  ∧ ∃ w', split_pdf Demo.tpl Demo.up Demo.started
          = (Ret ["uploads/20250101_120000_000000/page_1.pdf";
                  "uploads/20250101_120000_000000/page_2.pdf";
                  "uploads/20250101_120000_000000/page_3.pdf"], w')
      ∧ files w' !! "uploads/20250101_120000_000000/page_2.pdf"
        = Some (FPdf [Page 2 []]).
Proof.
  assert (∀ i, (i < 3)%nat → can_create Demo.started (page_path Demo.up i) = true)
    as H.
  { intros i Hi. destruct i as [|[|[|i]]]; [vm_compute; reflexivity..|lia]. }
  split; [exact H|].
  destruct (X8_split_gives_one_file_per_page Demo.tpl Demo.up
              [Page 1 []; Page 2 []; Page 3 []] Demo.started
              ltac:(vm_compute; reflexivity) H)
    as (w' & Hsplit & _ & Hin & _).
  exists w'. split; [exact Hsplit|]. exact (Hin 1%nat (Page 2 []) eq_refl).
Defined.

(** ** The stamper *)

(** X9.  Stamping is additive and uniform: when the loop over the
    placement table returns, the page has its pre-printed content and its
    earlier texts, followed by one new text per point of every field whose
    value is in the record, is no missing-value marker and does not print
    as the empty text, in the order of the table; each new text is the
    [str] of the value, 5 units below its point, in size 12, not rotated
    and black. *)
Theorem X9_stamping_appends_the_texts_of_the_present_fields
    (pg pg' : page) (data : record) (coordinates : placement) :
  fill_fields pg data coordinates = Ret pg' →
  pg' = Page (page_body pg) (page_inserted pg ++ stamps data coordinates).
Proof. apply fill_fields_stamps. Qed.

Lemma X9_witness :
  let data := Demo.record_of Demo.bob in
  let pg := Page 3 [TextItem (10, 10) "old" 12 0 (0, 0, 0)] in
  let pg' := Page 3 [TextItem (10, 10) "old" 12 0 (0, 0, 0);
                     TextItem (325, 530) "81.5" 12 0 (0, 0, 0)] in
  fill_fields pg data coords_p3 = Ret pg'
  ∧ pg' = Page (page_body pg) (page_inserted pg ++ stamps data coords_p3).
Proof.
  intros data pg pg'.
  assert (fill_fields pg data coords_p3 = Ret pg') as H by (vm_compute; reflexivity).
  split; [exact H|].
  exact (X9_stamping_appends_the_texts_of_the_present_fields pg pg' data coords_p3 H).
Defined.

(** X10.  The loop over the placement table returns unless a field that is
    present in the record (there and no missing-value marker) has an empty
    tuple of points; then, and only then, it raises, with [IndexError]. *)
Theorem X10_stamping_raises_only_on_an_empty_tuple
    (pg : page) (data : record) (coordinates : placement) :
  ((∃ pg', fill_fields pg data coordinates = Ret pg')
   ↔ Forall (λ fc, present data fc.1 = true → fc.2 ≠ Each []) coordinates)
  ∧ ∀ e, fill_fields pg data coordinates = Raise e → e = IndexError.
Proof.
  split.
  - revert pg. induction coordinates as [|[f c] rest IH]; intros pg; simpl.
    { split; [constructor | by eexists]. }
    rewrite Forall_cons. unfold present at 1. simpl.
    destruct (data !! f) as [v|].
    2:{ rewrite IH. split; [by split | by intros [_ ?]]. }
    destruct (notna v).
    2:{ rewrite IH. split; [by split | by intros [_ ?]]. }
    destruct c as [x y|[|pt points]]; simpl.
    + rewrite IH. split; [by split | by intros [_ ?]].
    + split; [by intros [? ?] | intros [H _]; by destruct H].
    + rewrite IH. split; [by split | by intros [_ ?]].
  - revert pg. induction coordinates as [|[f c] rest IH]; intros pg e; simpl; [done|].
    destruct (data !! f) as [v|]; [|apply IH].
    destruct (notna v); [|apply IH].
    destruct c as [x y|[|pt points]]; simpl; [apply IH| |apply IH].
    by intros [= <-].
Qed.

Lemma write_Raise_inv p f w e w' : Os.write p f w = (Raise e, w') → w' = w.
Proof.
  unfold Os.write. intros H.
  destruct (Os.is_dir w p || bool_decide (OsPath.basename p = ""))%bool;
    [by simplify_eq|].
  destruct (Os.parent_ok w p); by simplify_eq.
Qed.

Lemma save_Raise_inv d p w e w' : Fitz.save d p w = (Raise e, w') → w' = w.
Proof.
  unfold Fitz.save. case_bool_decide; [unfold raise; by intros [= _ <-]|].
  case_bool_decide; [unfold raise; by intros [= _ <-]|]. apply write_Raise_inv.
Qed.

Lemma save_Ret_inv d p w w' :
  Fitz.save d p w = (Ret (), w') →
  p ≠ Fitz.doc_name d ∧ Fitz.doc_pages d ≠ []
  ∧ w' = World (<[p := FPdf (Fitz.doc_pages d)]> (files w)) (dirs w).
Proof.
  unfold Fitz.save. case_bool_decide as Hname; [done|].
  case_bool_decide as Hpages; [done|].
  intros Hw. by apply write_Ret_inv in Hw.
Qed.

Lemma open_inv p w o w' :
  Fitz.open p w = (o, w') →
  w' = w ∧ ∀ d, o = Ret d → files w !! p = Some (FPdf (Fitz.doc_pages d))
                             ∧ Fitz.doc_name d = p.
Proof.
  unfold Fitz.open. intros H.
  destruct (files w !! p) as [[pages| | |]|]; simplify_eq; split; try done.
  by intros d [= <-].
Qed.

(** X11.  When [fill_page] returns, the path it returns is the input path
    with ".pdf" replaced by "_filled.pdf" and differs from the input path;
    the input file is a document with a first page; the only change of the
    file system is the file at the returned path, which holds the first
    page with the stamps of the record added and the other pages of the
    input as they were.  The input file itself is not changed. *)
Theorem X11_fill_page_writes_a_new_file
    (pdf_path : string) (data : record) (coordinates : placement)
    (w w' : world) (t : string) :
  fill_page pdf_path data coordinates w = (Ret t, w') →
  t = filled_path pdf_path ∧ t ≠ pdf_path
  ∧ ∃ pg tail,
      files w !! pdf_path = Some (FPdf (pg :: tail))
      ∧ w' = World (<[t := FPdf (Page (page_body pg)
                                    (page_inserted pg ++ stamps data coordinates)
                                  :: tail)]> (files w)) (dirs w)
      ∧ files w' !! pdf_path = files w !! pdf_path.
Proof.
  intros H. pose proof (fill_page_returns _ _ _ _ _ _ H) as ->.
  unfold fill_page in H.
  apply bind_Ret_inv in H as (d & w1 & Hopen & H).
  apply open_inv in Hopen as [-> Hd]. destruct (Hd d eq_refl) as [Hfile Hname].
  apply bind_Ret_inv in H as (pg & w2 & Hload & H).
  apply bind_Ret_inv in H as (pg' & w3 & Hfill & H).
  apply bind_Ret_inv in H as ([] & w4 & Hsave & H).
  unfold lift in Hload, Hfill. unfold ret in H.
  injection Hload as Hload <-. injection Hfill as Hfill <-.
  assert (w4 = w') as <- by congruence.
  unfold Fitz.load_page in Hload.
  destruct (Fitz.doc_pages d) as [|pg0 tail] eqn:Hpages; [done|].
  simpl in Hload. injection Hload as ->.
  apply fill_fields_stamps in Hfill.
  apply save_Ret_inv in Hsave as (Hne & _ & ->).
  simpl in Hne. rewrite Hname in Hne. fold (filled_path pdf_path) in *.
  split; [done|]. split; [done|].
  exists pg, tail. split; [done|]. split.
  - simpl. rewrite Hpages. simpl. by rewrite Hfill.
  - simpl. by rewrite lookup_insert_ne.
Qed.

Lemma X11_witness :
  let w : world := World {[ "u/page_1.pdf" := FPdf [Page 1 []; Page 9 []] ]} {[ "u" ]} in
  let data := Demo.record_of Demo.bob in
  let r := fill_page "u/page_1.pdf" data coords_p3 w in
  r.1 = Ret "u/page_1_filled.pdf"
  ∧ files r.2 !! "u/page_1_filled.pdf"
    = Some (FPdf [Page 1 [TextItem (325, 530) "81.5" 12 0 (0, 0, 0)]; Page 9 []])
  ∧ files r.2 !! "u/page_1.pdf" = files w !! "u/page_1.pdf".
Proof.
  intros w data r.
  assert (r = (Ret "u/page_1_filled.pdf", r.2)) as H by (vm_compute; reflexivity).
  destruct (X11_fill_page_writes_a_new_file _ _ _ _ _ _ H)
    as (_ & _ & pg & tail & _ & _ & Hkept).
  split; [vm_compute; reflexivity|]. split; [vm_compute; reflexivity|]. exact Hkept.
Defined.

(** ** The merger *)

Lemma merge_page_world p acc w o w' : merge_page p acc w = (o, w') → w' = w.
Proof.
  unfold merge_page, bind, Os.exists_. simpl.
  destruct (Os.is_file w p || Os.is_dir w p)%bool; [|unfold ret; congruence].
  destruct (Fitz.open p w) as [[d|e] w1] eqn:Hopen;
    apply open_inv in Hopen as [-> _]; unfold ret; congruence.
Qed.

Lemma merge_loop_world paths acc w o w' :
  for_each paths merge_page acc w = (o, w') → w' = w.
Proof.
  revert acc. induction paths as [|p paths IH]; intros acc; simpl.
  - unfold ret. congruence.
  - unfold bind. destruct (merge_page p acc w) as [[acc'|e] w1] eqn:Hstep;
      apply merge_page_world in Hstep as ->; [apply IH | congruence].
Qed.

Lemma merge_page_missing p acc w :
  exists_in w p = false → merge_page p acc w = (Ret acc, w).
Proof.
  intros H. unfold merge_page, bind, Os.exists_. simpl.
  unfold exists_in in H. by rewrite H.
Qed.

(** X12.  [merge_pdfs] passes over the paths at which nothing exists:
    merging a sequence is merging the paths of the sequence that exist,
    with the same result and the same effect on the file system. *)
Theorem X12_merge_skips_missing_paths
    (output_pdf_path : string) (pdf_paths : list string) (w : world) :
  merge_pdfs output_pdf_path pdf_paths w
  = merge_pdfs output_pdf_path (filter (λ p, exists_in w p = true) pdf_paths) w.
Proof.
  unfold merge_pdfs.
  assert (∀ acc, for_each pdf_paths merge_page acc w
                 = for_each (filter (λ p, exists_in w p = true) pdf_paths)
                     merge_page acc w) as Hloop.
  { induction pdf_paths as [|p paths IH]; intros acc; [done|].
    rewrite filter_cons. destruct (decide (exists_in w p = true)) as [Hp|Hp].
    - simpl. unfold bind.
      destruct (merge_page p acc w) as [[acc'|e] w1] eqn:Hstep;
        apply merge_page_world in Hstep as ->; [apply IH | done].
    - apply not_true_is_false in Hp. simpl.
      rewrite (bind_ret_eq _ _ _ _ _ (merge_page_missing p acc w Hp)). apply IH. }
  unfold bind. by rewrite Hloop.
Qed.

Lemma merge_loop_concat paths (pss : list (list page)) acc w :
  Forall2 (λ p pgs, files w !! p = Some (FPdf pgs)) paths pss →
  for_each paths merge_page acc w
  = (Ret (Fitz.Document (Fitz.doc_name acc) (Fitz.doc_pages acc ++ concat pss)), w).
Proof.
  intros Hall. revert acc.
  induction Hall as [|p pgs paths pss Hp _ IH]; intros acc; simpl.
  - rewrite app_nil_r. by destruct acc.
  - assert (merge_page p acc w
            = (Ret (Fitz.insert_pdf acc (Fitz.Document p pgs)), w)) as Hstep.
    { unfold merge_page, bind, Os.exists_, Os.is_file.
      rewrite bool_decide_eq_true_2 by (rewrite Hp; eauto). simpl.
      by rewrite (open_ok _ _ _ Hp). }
    rewrite (bind_ret_eq _ _ _ _ _ Hstep), IH. simpl.
    by rewrite <-app_assoc.
Qed.

(** X13.  When every path of the sequence holds a document, at least one
    page comes together and the output path can be written, [merge_pdfs]
    writes at the output path the pages of the documents, put one after
    the other in the order of the sequence, and changes nothing else. *)
Theorem X13_merge_concatenates_in_order
    (output_pdf_path : string) (pdf_paths : list string)
    (pss : list (list page)) (w : world) :
  Forall2 (λ p pgs, files w !! p = Some (FPdf pgs)) pdf_paths pss →
  concat pss ≠ [] →
  can_create w output_pdf_path = true →
  merge_pdfs output_pdf_path pdf_paths w
  = (Ret (), World (<[output_pdf_path := FPdf (concat pss)]> (files w)) (dirs w)).
Proof.
  intros Hall Hpages Hc. unfold merge_pdfs.
  rewrite (bind_ret_eq _ _ _ _ _ (merge_loop_concat _ _ Fitz.new w Hall)).
  simpl. rewrite save_ok; [done| |done|done].
  exact (can_create_nonempty w _ Hc).
Qed.

Lemma X13_witness :
  let w : world :=
    World {[ "u/a.pdf" := FPdf [Page 1 []; Page 2 []]; "u/b.pdf" := FPdf [Page 7 []] ]}
          {[ "u" ]} in
  Forall2 (λ p pgs, files w !! p = Some (FPdf pgs)) ["u/b.pdf"; "u/a.pdf"]
          [[Page 7 []]; [Page 1 []; Page 2 []]]
  ∧ merge_pdfs "u/out.pdf" ["u/b.pdf"; "u/a.pdf"] w
    = (Ret (), World (<["u/out.pdf" := FPdf [Page 7 []; Page 1 []; Page 2 []]]> (files w))
                     (dirs w)).
Proof.
  intros w.
  assert (Forall2 (λ p pgs, files w !! p = Some (FPdf pgs)) ["u/b.pdf"; "u/a.pdf"]
            [[Page 7 []]; [Page 1 []; Page 2 []]]) as H.
  { repeat (constructor; [vm_compute; reflexivity|]). constructor. }
  split; [exact H|].
  refine (X13_merge_concatenates_in_order "u/out.pdf" _ _ w H _ _).
  - discriminate.
  - vm_compute; reflexivity.
Defined.

(** X14.  [fill_page] and [merge_pdfs] are all-or-nothing: when one of
    them raises, the file system is as it was before the call. *)
Theorem X14_stamp_and_merge_leave_nothing_behind_on_failure
    (pdf_path output_pdf_path : string) (data : record) (coordinates : placement)
    (pdf_paths : list string) (w : world) :
  (∀ e w', fill_page pdf_path data coordinates w = (Raise e, w') → w' = w)
  ∧ (∀ e w', merge_pdfs output_pdf_path pdf_paths w = (Raise e, w') → w' = w).
Proof.
  split.
  - intros e w' H. unfold fill_page, bind, lift in H.
    destruct (Fitz.open pdf_path w) as [[d|e1] w1] eqn:Hopen;
      apply open_inv in Hopen as [-> _]; [|congruence].
    destruct (Fitz.load_page d 0); [|congruence].
    destruct (fill_fields _ data coordinates); [|congruence].
    destruct (Fitz.save _ _ w) as [[[]|e1] w1] eqn:Hsave; [done|].
    apply save_Raise_inv in Hsave. congruence.
  - intros e w' H. unfold merge_pdfs, bind in H.
    destruct (for_each pdf_paths merge_page Fitz.new w) as [[d|e1] w1] eqn:Hloop;
      apply merge_loop_world in Hloop as ->; [|congruence].
    by apply save_Raise_inv in H.
Qed.

(** ** The archive *)

Lemma rfind_None c s : Py.rfind c s = None → Py.all_char (λ a, negb (bool_decide (a = c))) s = true.
Proof.
  induction s as [|a s IH]; [done|]. simpl.
  destruct (Py.rfind c s); [done|]. destruct (decide (a = c)); [done|].
  intros _. rewrite IH by done. by rewrite bool_decide_eq_false_2.
Qed.

Lemma rfind_Some c s i :
  Py.rfind c s = Some i →
  Py.all_char (λ a, negb (bool_decide (a = c))) (Py.drop (S i) s) = true.
Proof.
  revert i. induction s as [|a s IH]; intros i; [done|]. simpl.
  destruct (Py.rfind c s) as [j|] eqn:Hs.
  - intros [= <-]. by apply IH.
  - destruct (decide (a = c)); [|done]. intros [= <-]. simpl.
    destruct s; [done|]. by apply rfind_None.
Qed.

(** The base name of a path holds no slash. *)
Lemma basename_no_slash p : Py.all_char not_slash (OsPath.basename p) = true.
Proof.
  unfold OsPath.basename.
  destruct (Py.rfind OsPath.sep p) as [i|] eqn:H.
  - by apply rfind_Some in H.
  - by apply rfind_None in H.
Qed.

Module ArchivePaths.

Import PyFacts.

Lemma zip_path_eq secure_filename now :
  zip_path secure_filename now
  = dir_prefix (session_completed_folder secure_filename now)
    +:+ "CDAI_processed_" +:+ run_id secure_filename now +:+ ".zip".
Proof.
  unfold zip_path.
  change ("CDAI_processed_" +:+ run_id secure_filename now +:+ ".zip")
    with (String "C" ("DAI_processed_" +:+ run_id secure_filename now +:+ ".zip")).
  by rewrite join_relative.
Qed.

Lemma out_ne_zip secure_filename now comp data :
  out_pdf_of comp data ≠ zip_path secure_filename now.
Proof.
  destruct (Paths.out_pdf_suffix comp data) as [x ->]. rewrite zip_path_eq.
  intros H. apply (f_equal String.rev) in H. rewrite !rev_app in H.
  change (String.rev "_CDAI.pdf") with "fdp.IADC_" in H.
  change (String.rev ".zip") with "piz." in H.
  rewrite !app_assoc in H. rewrite ?app_cons, ?app_nil_l in H. discriminate H.
Qed.

End ArchivePaths.

Lemma generated_of_outs comp rows os :
  Forall (λ f, ∃ data, f = out_pdf_of comp data) (generated_of comp rows os).
Proof.
  revert os. induction rows as [|row rows IH]; intros [|[e|] os]; simpl;
    try constructor; eauto.
Qed.

Lemma Forall2_impl_left {A B} (P Q : A → B → Prop) (R : A → Prop) l k :
  Forall2 P l k → Forall R l → (∀ x y, R x → P x y → Q x y) → Forall2 Q l k.
Proof.
  intros HP. induction HP as [|x y l k Hxy _ IH]; intros HR Himp; [constructor|].
  apply Forall_cons in HR as [Hx HR]. constructor; auto.
Qed.

Lemma zip_loop_contents zip gen w w' members :
  files w !! zip = Some (FZip members) →
  zip ∉ gen →
  for_each gen (λ f _, Zipfile.write zip f (OsPath.basename f)) () w = (Ret (), w') →
  ∃ new, files w' !! zip = Some (FZip (members ++ new))
    ∧ Forall2 (λ f d, ∃ src, files w !! f = Some src
                        ∧ d = (OsPath.basename f, Zipfile.member_of src)) gen new
    ∧ (∀ q, q ≠ zip → files w' !! q = files w !! q).
Proof.
  revert w members. induction gen as [|f gen IH]; intros w members Hzip Hnot H.
  - simpl in H. unfold ret in H. simplify_eq.
    exists []. rewrite app_nil_r. repeat split; [done|constructor].
  - apply not_elem_of_cons in Hnot as [Hf Hnot].
    cbn [for_each] in H. apply bind_Ret_inv in H as ([] & w1 & Hstep & Hrest).
    destruct (zip_write_spec _ _ _ _ _ _ Hzip Hstep) as (src & Hsrc & ->).
    apply IH with (members := members ++ [(OsPath.basename f, Zipfile.member_of src)])
      in Hrest as (new & Hnew & Hall & Hother); [|simpl; apply lookup_insert_eq|done].
    exists ((OsPath.basename f, Zipfile.member_of src) :: new). repeat split.
    + by rewrite Hnew, <-app_assoc.
    + constructor; [eauto|].
      eapply (Forall2_impl_left _ _ (λ g, g ≠ zip)); [exact Hall| |].
      * apply Forall_forall. intros g Hg Heq. apply Hnot. by subst g.
      * simpl. intros g d Hg (src' & Hsrc' & ->). exists src'. split; [|done].
        by rewrite lookup_insert_ne in Hsrc'.
    + intros q Hq. rewrite Hother by done. simpl. by apply lookup_insert_ne.
Qed.

Lemma finish_contents secure_filename now st w p w' :
  finish secure_filename now st w = (Ret (SendFile p), w') →
  zip_path secure_filename now ∉ generated_files st →
  ∃ docs report,
    files w' !! p = Some (FZip (docs ++ [("processing_report.txt", report)]))
    ∧ Forall2 (λ f d, ∃ src, files w' !! f = Some src
                        ∧ d = (OsPath.basename f, Zipfile.member_of src))
              (generated_files st) docs.
Proof.
  intros H Hnot. unfold finish in H.
  apply bind_Ret_inv in H as ([] & w1 & Hreport & H).
  destruct (bool_decide (generated_files st = []) &&
            (length (processing_log st ++ [footer]) <=? 4)%nat)%bool.
  { unfold ret in H. discriminate H. }
  apply bind_Ret_inv in H as ([] & w2 & Hcreate & H).
  apply write_Ret_inv in Hcreate.
  apply bind_Ret_inv in H as ([] & w3 & Hloop & H).
  apply bind_Ret_inv in H as ([] & w4 & Hlast & H).
  unfold ret in H. simplify_eq.
  set (zip := zip_path secure_filename now) in *.
  apply zip_loop_contents with (members := []) in Hloop
    as (docs & Hzip & Hall & Hother); [|simpl; apply lookup_insert_eq|done].
  destruct (zip_write_spec _ _ _ _ _ _ Hzip Hlast) as (src & Hsrc & ->).
  exists docs, (Zipfile.member_of src). split; [simpl; apply lookup_insert_eq|].
  eapply (Forall2_impl_left _ _ (λ g, g ≠ zip)); [exact Hall| |].
  - apply Forall_forall. intros g Hg Heq. apply Hnot. by subst g.
  - intros g d Hg (src' & Hsrc' & ->). exists src'. split; [|done].
    simpl. rewrite lookup_insert_ne by done. by rewrite Hother.
Qed.

(** X15.  The archive is flat: no member of the archive that a request is
    answered with has a slash in its name, whatever the names in the
    records are. *)
Theorem X15_archive_member_names_have_no_slash
    (secure_filename : string → string) (cwd now : string)
    (data_file : upload) (w w' : world) (p : string) :
  process_files secure_filename cwd now (Some data_file) w = (Ret (SendFile p), w') →
  ∃ members, files w' !! p = Some (FZip members)
    ∧ Forall (λ m, Py.all_char not_slash m.1 = true) members.
Proof.
  intros H. unfold process_files in H.
  apply bind_Ret_inv in H as (present & w1 & _ & H).
  destruct (negb present); [unfold ret in H; discriminate H|].
  case_bool_decide; [unfold ret in H; discriminate H|].
  apply bind_Ret_inv in H as (names & w2 & _ & H).
  apply bind_Ret_inv in H as (df & w3 & _ & H).
  apply bind_Ret_inv in H as (st & w4 & _ & H).
  destruct (finish_spec _ _ _ _ _ _ H) as (docs & Hzip & Hnames & _).
  eexists. split; [exact Hzip|].
  apply Forall_app. split; [|by apply Forall_singleton].
  apply Forall_forall. intros m Hm.
  assert (m.1 ∈ docs.*1) as Hm1 by (by apply list_elem_of_fmap_2).
  rewrite Hnames in Hm1. apply list_elem_of_fmap in Hm1 as (f & -> & _).
  apply basename_no_slash.
Qed.

Lemma X15_witness :
  let up := Upload "patients.csv" (Demo.csv [Demo.ann; Demo.bob]) in
  let r := Demo.run "patients.csv" (Demo.csv [Demo.ann; Demo.bob]) in
  let zip := zip_path Demo.secure_filename Demo.now in
  process_files Demo.secure_filename Demo.cwd Demo.now (Some up) Demo.w0
  = (Ret (SendFile zip), r.2)
  ∧ ∃ members, files r.2 !! zip = Some (FZip members)
      ∧ Forall (λ m, Py.all_char not_slash m.1 = true) members.
Proof.
  intros up r zip.
  assert (process_files Demo.secure_filename Demo.cwd Demo.now (Some up) Demo.w0
          = (Ret (SendFile zip), r.2)) as H by (vm_compute; reflexivity).
  split; [exact H|].
  exact (X15_archive_member_names_have_no_slash Demo.secure_filename Demo.cwd
           Demo.now up Demo.w0 r.2 zip H).
Defined.

Lemma world_after_app tpl up comp rows rows' w :
  world_after tpl up comp (rows ++ rows') w
  = world_after tpl up comp rows' (world_after tpl up comp rows w).
Proof.
  revert w. induction rows as [|[index data] rows IH]; intros w; [done|].
  simpl. apply IH.
Qed.

Lemma touches_zip_write (S : string → Prop) zip f name :
  S zip → touches_only S (Zipfile.write zip f name).
Proof.
  intros HS. unfold Zipfile.write.
  apply touches_bind; [apply touches_read|]. intros src.
  apply touches_bind; [apply touches_read|]. intros [| |?|members];
    try apply touches_raise.
  by apply touches_write.
Qed.

Lemma touches_finish secure_filename now st :
  touches_only
    (λ q, q = report_path secure_filename now ∨ q = zip_path secure_filename now)
    (finish secure_filename now st).
Proof.
  unfold finish. apply touches_bind; [apply touches_write; by left|]. intros [].
  destruct (_ && _)%bool; [apply touches_ret|].
  apply touches_bind; [apply touches_write; by right|]. intros [].
  apply touches_bind.
  { apply touches_for_each. intros f [] _. apply touches_zip_write. by right. }
  intros []. apply touches_bind; [apply touches_zip_write; by right|].
  intros []. apply touches_ret.
Qed.

Lemma out_ne_report secure_filename now comp data :
  out_pdf_of comp data ≠ report_path secure_filename now.
Proof.
  destruct (Paths.out_pdf_suffix comp data) as [x ->]. unfold report_path.
  change "processing_report.txt" with (String "p" "rocessing_report.txt").
  rewrite PyFacts.join_relative by done.
  intros H. apply (f_equal String.rev) in H. rewrite !PyFacts.rev_app in H.
  change (String.rev "_CDAI.pdf") with "fdp.IADC_" in H.
  change (String.rev (String "p" "rocessing_report.txt"))
    with "txt.troper_gnissecorp" in H.
  rewrite ?PyFacts.app_cons, ?PyFacts.app_nil_l in H. discriminate H.
Qed.

(** X16.  The archive is built from the files as they are when the loop
    has ended.  For the request's own data frame and run of the loop: the
    member of each generated file is named by the base name of its path
    and is a copy of what is at this path at the end of the request, so
    that two generated files of the same path give two members of the
    same name and the same content.  And what is at the output path of a
    record at the end of the request is what was there right after the
    turn of this record, when no later record has an output path of the
    same file name: the members of a path hold the document of the last
    record that wrote it.  (The upload folder of the session has no dot in
    its name.) *)
Theorem X16_archive_members_are_the_files_at_the_end
    (secure_filename : string → string) (cwd now : string)
    (data_file : upload) (w w' : world) (p : string) :
  Py.all_char not_dot (session_upload_folder secure_filename now) = true →
  process_files secure_filename cwd now (Some data_file) w = (Ret (SendFile p), w') →
  let tpl := session_template_path secure_filename now in
  let up := session_upload_folder secure_filename now in
  let comp := session_completed_folder secure_filename now in
  ∃ names w_read df w_start st w_end docs report,
    prepare secure_filename cwd now data_file w = (Ret names, w_read)
    ∧ read_data names.1 names.2 w_read = (Ret df, w_start)
    ∧ run_rows secure_filename cwd now names.1 df w_start = (Ret st, w_end)
    ∧ files w' !! p = Some (FZip (docs ++ [("processing_report.txt", report)]))
    ∧ Forall2 (λ f d, ∃ src, files w' !! f = Some src
                        ∧ d = (OsPath.basename f, Zipfile.member_of src))
              (generated_files st) docs
    ∧ (∀ i j f, generated_files st !! i = Some f → generated_files st !! j = Some f →
         docs !! i = docs !! j)
    ∧ (∀ earlier row later,
         Pandas.iterrows df = earlier ++ row :: later →
         Forall (λ r, OsPath.basename (out_pdf_of comp r.2)
                      ≠ OsPath.basename (out_pdf_of comp row.2)) later →
         files w' !! out_pdf_of comp row.2
         = files (world_after tpl up comp (earlier ++ [row]) w_start)
             !! out_pdf_of comp row.2).
Proof.
  intros Hup H tpl up comp. unfold process_files in H.
  apply bind_Ret_inv in H as (present & w1 & Hex & H).
  assert (w1 = w) as -> by (unfold Os.exists_ in Hex; by simplify_eq).
  destruct (negb present); [unfold ret in H; discriminate H|].
  case_bool_decide; [unfold ret in H; discriminate H|].
  apply bind_Ret_inv in H as (names & w2 & Hprep & H).
  apply bind_Ret_inv in H as (df & w3 & Hread & H).
  apply bind_Ret_inv in H as (st & w4 & Hrows & H).
  pose proof Hrows as Htrace. unfold run_rows in Htrace.
  rewrite rows_outcomes in Htrace. injection Htrace as Hst Hw4.
  fold tpl up comp in Hst, Hw4.
  assert (zip_path secure_filename now ∉ generated_files st) as Hnot.
  { rewrite <-Hst. cbn [generated_files app]. intros Hin.
    pose proof (generated_of_outs comp (Pandas.iterrows df)
                  (outcomes tpl up comp (Pandas.iterrows df) w3)) as Houts.
    rewrite Forall_forall in Houts. destruct (Houts _ Hin) as [data Heq].
    symmetry in Heq. by apply ArchivePaths.out_ne_zip in Heq. }
  destruct (finish_contents _ _ _ _ _ _ H Hnot) as (docs & report & Hzip & Hall).
  exists names, w2, df, w3, st, w4, docs, report.
  split; [exact Hprep|]. split; [exact Hread|]. split; [exact Hrows|].
  split; [exact Hzip|]. split; [exact Hall|]. split.
  - intros i j f Hi Hj.
    destruct (Forall2_lookup_l _ _ _ _ _ Hall Hi) as (di & Hdi & src1 & Hs1 & ->).
    destruct (Forall2_lookup_l _ _ _ _ _ Hall Hj) as (dj & Hdj & src2 & Hs2 & ->).
    rewrite Hdi, Hdj. congruence.
  - intros earlier row later Hsplit Hlater.
    destruct (touches_finish secure_filename now st w4 _ _ H) as [_ Hf].
    rewrite Hf.
    2:{ intros [Heq|Heq].
        - by apply out_ne_report in Heq.
        - by apply ArchivePaths.out_ne_zip in Heq. }
    rewrite <-Hw4, Hsplit.
    replace (earlier ++ row :: later) with ((earlier ++ [row]) ++ later)
      by (by rewrite <-app_assoc).
    rewrite world_after_app.
    set (w5 := world_after tpl up comp (earlier ++ [row]) w3).
    rewrite <-(rows_keep_other_names tpl up comp later (Batch [] []) w5 row.2 Hup Hlater).
    by rewrite rows_outcomes.
Qed.

Lemma X16_witness :
  let ann_again : list scalar :=
    [SStr "Ann"; SStr "Lee"; SStr "1980-02-03"; SInt 99; SInt 170; SStr "1234"] in
  let up := Upload "patients.csv" (Demo.csv [Demo.ann; ann_again]) in
  let r := Demo.run "patients.csv" (Demo.csv [Demo.ann; ann_again]) in
  let zip := zip_path Demo.secure_filename Demo.now in
  Py.all_char not_dot (session_upload_folder Demo.secure_filename Demo.now) = true
  ∧ process_files Demo.secure_filename Demo.cwd Demo.now (Some up) Demo.w0
    = (Ret (SendFile zip), r.2)
  ∧ member_names r
    = Some ["Lee_Ann_CDAI.pdf"; "Lee_Ann_CDAI.pdf"; "processing_report.txt"]
  ∧ ∃ names w_read df w_start st w_end docs report,
      prepare Demo.secure_filename Demo.cwd Demo.now up Demo.w0 = (Ret names, w_read)
      ∧ read_data names.1 names.2 w_read = (Ret df, w_start)
      ∧ run_rows Demo.secure_filename Demo.cwd Demo.now names.1 df w_start
        = (Ret st, w_end)
      ∧ files r.2 !! zip = Some (FZip (docs ++ [("processing_report.txt", report)]))
      ∧ Forall2 (λ f d, ∃ src, files r.2 !! f = Some src
                          ∧ d = (OsPath.basename f, Zipfile.member_of src))
                (generated_files st) docs
      ∧ (∀ i j f, generated_files st !! i = Some f → generated_files st !! j = Some f →
           docs !! i = docs !! j)
      ∧ (∀ earlier row later,
           Pandas.iterrows df = earlier ++ row :: later →
           Forall (λ r, OsPath.basename (out_pdf_of Demo.comp r.2)
                        ≠ OsPath.basename (out_pdf_of Demo.comp row.2)) later →
           files r.2 !! out_pdf_of Demo.comp row.2
           = files (world_after Demo.tpl Demo.up Demo.comp (earlier ++ [row]) w_start)
               !! out_pdf_of Demo.comp row.2).
Proof.
  intros ann_again up r zip.
  assert (Py.all_char not_dot (session_upload_folder Demo.secure_filename Demo.now)
          = true) as Hup by (vm_compute; reflexivity).
  assert (process_files Demo.secure_filename Demo.cwd Demo.now (Some up) Demo.w0
          = (Ret (SendFile zip), r.2)) as H by (vm_compute; reflexivity).
  split; [exact Hup|]. split; [exact H|]. split; [vm_compute; reflexivity|].
  exact (X16_archive_members_are_the_files_at_the_end Demo.secure_filename Demo.cwd
           Demo.now up Demo.w0 r.2 zip Hup H).
Defined.

(** The archive of that request: both members hold the weight of the later
    record. *)
Example same_name_twice :
  let ann_again : list scalar :=
    [SStr "Ann"; SStr "Lee"; SStr "1980-02-03"; SInt 99; SInt 170; SStr "1234"] in
  let r := Demo.run "patients.csv" (Demo.csv [Demo.ann; ann_again]) in
  ∃ p1 p2 report,
    let doc := MPdf [p1; p2; Page 3 [TextItem (325, 530) "99" 12 0 (0, 0, 0)]] in
    Demo.archive r
    = Some (FZip [("Lee_Ann_CDAI.pdf", doc); ("Lee_Ann_CDAI.pdf", doc);
                  ("processing_report.txt", report)]).
Proof. vm_compute. eexists _, _, _. reflexivity. Qed.

(** ** The records of the data frame *)

Lemma foldl_insert_other (l : list (string * scalar)) (m : record) k :
  Forall (λ kv, kv.1 ≠ k) l →
  foldl (λ (d : record) kv, <[kv.1 := kv.2]> d) m l !! k = m !! k.
Proof.
  intros Hl. revert m. induction Hl as [|[k' v'] l Hk _ IH]; intros m; [done|].
  simpl in *. rewrite IH. by apply lookup_insert_ne.
Qed.

Lemma foldl_insert_last (l : list (string * scalar)) (m : record) i k v :
  l !! i = Some (k, v) →
  (∀ j kv, (i < j)%nat → l !! j = Some kv → kv.1 ≠ k) →
  foldl (λ (d : record) kv, <[kv.1 := kv.2]> d) m l !! k = Some v.
Proof.
  revert m i. induction l as [|x l IH]; intros m i Hi Hlater; [done|].
  destruct i as [|i]; simpl in *.
  - simplify_eq. rewrite foldl_insert_other; [apply lookup_insert_eq|].
    apply Forall_forall. intros kv Hkv.
    apply list_elem_of_lookup in Hkv as [j Hj].
    apply (Hlater (S j) kv); [lia | done].
  - apply (IH _ i); [done|]. intros j kv Hij Hj.
    apply (Hlater (S j) kv); [lia | done].
Qed.

(** X17.  [row.to_dict()] keeps, for every column name, the cell of the
    last column of this name: when no later column of the row has the name
    of column i, the record holds under this name the cell at position i.
    (Two headers that normalise to the same name give one field, with the
    cell of the one further right.) *)
Theorem X17_record_holds_the_cell_of_the_last_column_of_a_name
    (cols : list string) (cells : list scalar) (i : nat) (c : string) (v : scalar) :
  cols !! i = Some c → cells !! i = Some v →
  (∀ j, (i < j)%nat → (j < length cells)%nat → cols !! j ≠ Some c) →
  Pandas.to_dict cols cells !! c = Some v.
Proof.
  intros Hc Hv Hlater. unfold Pandas.to_dict.
  apply (foldl_insert_last _ _ i).
  - by rewrite lookup_zip_with, Hc, Hv.
  - intros j [k' v'] Hij Hj Heq. simpl in Heq. subst k'.
    apply lookup_zip_with_Some in Hj as (k & v'' & ? & Hk & Hv'').
    simplify_eq. apply (Hlater j); [done| |done].
    by eapply lookup_lt_Some.
Qed.

Lemma X17_witness :
  let cols := normalise_column <$> ["Weight"; "Height"; " WT "] in
  let cells := [SInt 70; SInt 170; SInt 72] in
  cols !! 2%nat = Some "wt" ∧ cols !! 0%nat = Some "wt"
  ∧ Pandas.to_dict cols cells !! "wt" = Some (SInt 72).
Proof.
  intros cols cells.
  assert (cols !! 2%nat = Some "wt") as H by (vm_compute; reflexivity).
  split; [exact H|]. split; [vm_compute; reflexivity|].
  refine (X17_record_holds_the_cell_of_the_last_column_of_a_name
            cols cells 2 "wt" (SInt 72) H eq_refl _).
  intros j Hj Hlen. simpl in Hlen. lia.
Defined.

Lemma replace_space_keeps P s :
  Py.all_char P s = true → Py.all_char P (Py.replace " " "" s) = true.
Proof.
  unfold Py.replace. induction s as [|a s IH]; [done|]. simpl.
  intros [Ha Hs]%andb_true_iff.
  destruct (decide (" "%char = a)); simpl; [by apply IH|].
  by rewrite Ha, IH.
Qed.

Lemma replace_space_no_space s :
  Py.all_char not_space (Py.replace " " "" s) = true.
Proof.
  unfold Py.replace. induction s as [|a s IH]; [done|]. simpl.
  destruct (decide (" "%char = a)) as [|Hne]; simpl; [exact IH|].
  rewrite IH, andb_true_r. unfold not_space.
  rewrite bool_decide_eq_false_2; [done|]. by intros ->.
Qed.

Lemma lower_no_upper s : Py.all_char (λ a, negb (is_upper a)) (Py.lower s) = true.
Proof.
  induction s as [|a s IH]; [done|]. simpl. rewrite IH, andb_true_r.
  by destruct a as [[] [] [] [] [] [] [] []].
Qed.

Lemma rename_column_cases s :
  rename_column s = s ∨ rename_column s ∈ ["dob"; "mc"; "location"; "ht"; "wt"].
Proof.
  unfold rename_column, synonyms. simpl.
  repeat (case_decide; [right; set_solver|]). by left.
Qed.

(** X18.  Whatever the header of a column is, its normalised name has no
    space and no upper-case ASCII letter. *)
Theorem X18_normalised_names_have_no_space_and_no_capital (c : string) :
  Py.all_char not_space (normalise_column c) = true
  ∧ Py.all_char (λ a, negb (is_upper a)) (normalise_column c) = true.
Proof.
  unfold normalise_column.
  destruct (rename_column_cases (Py.replace " " "" (Py.lower (Py.strip c))))
    as [-> | Hin].
  - split; [apply replace_space_no_space|].
    apply replace_space_keeps, lower_no_upper.
  - repeat (apply elem_of_cons in Hin as [-> | Hin]; [by split|]).
    by apply elem_of_nil in Hin.
Qed.

(** ** An upload that takes the name of the template copy *)

Lemma local_template_ne_session secure_filename cwd now :
  LOCAL_TEMPLATE_PATH cwd ≠ session_template_path secure_filename now.
Proof.
  unfold LOCAL_TEMPLATE_PATH, session_template_path.
  rewrite SessionPaths.template_path_eq.
  change "BLANK_CDAI_APP_DEC-25.pdf" with (String "B" "LANK_CDAI_APP_DEC-25.pdf").
  rewrite PyFacts.join_relative by done.
  intros H. apply (f_equal String.rev) in H. rewrite !PyFacts.rev_app in H.
  change (String.rev (String "B" "LANK_CDAI_APP_DEC-25.pdf"))
    with "fdp.52-CED_PPA_IADC_KNALB" in H.
  change (String.rev "template.pdf") with "fdp.etalpmet" in H.
  rewrite ?PyFacts.app_cons, ?PyFacts.app_nil_l in H. discriminate H.
Qed.

Lemma makedirs_Ret_inv p w w' : Os.makedirs p w = (Ret (), w') → files w' = files w.
Proof.
  unfold Os.makedirs. intros H.
  destruct (list_find _ _) as [[? ?]|]; by simplify_eq.
Qed.

Lemma read_Ret_inv p w f w' : Os.read p w = (Ret f, w') → w' = w ∧ files w !! p = Some f.
Proof.
  unfold Os.read. intros H. destruct (files w !! p); [by simplify_eq|].
  destruct (Os.is_dir w p); done.
Qed.

(** X19.  The uploaded file and the copy of the template go into the same
    folder, the upload first.  When the secured name of the upload is
    "template.pdf", the copy of the template overwrites it, the reader is
    given the template instead of the uploaded bytes and raises: such a
    request is never answered, whatever was uploaded. *)
Theorem X19_upload_named_like_the_template_is_overwritten
    (secure_filename : string → string) (cwd now : string)
    (data_file : upload) (pages : list page) (w : world) :
  secure_filename (upload_filename data_file) = "template.pdf" →
  upload_filename data_file ≠ "" →
  files w !! LOCAL_TEMPLATE_PATH cwd = Some (FPdf pages) →
  ∃ e, (process_files secure_filename cwd now (Some data_file) w).1 = Raise e.
Proof.
  intros Hname Hnonempty Htpl. unfold process_files.
  assert (Os.exists_ (LOCAL_TEMPLATE_PATH cwd) w = (Ret true, w)) as Hex.
  { unfold Os.exists_, Os.is_file. rewrite Htpl.
    by rewrite bool_decide_eq_true_2 by eauto. }
  rewrite (bind_ret_eq _ _ _ _ _ Hex). simpl.
  rewrite bool_decide_eq_false_2 by done.
  destruct (prepare secure_filename cwd now data_file w) as [[names|e] w1] eqn:Hprep.
  2:{ rewrite (bind_raise_eq _ _ _ _ _ Hprep). by exists e. }
  rewrite (bind_ret_eq _ _ _ _ _ Hprep).
  unfold prepare in Hprep. rewrite Hname in Hprep.
  apply bind_Ret_inv in Hprep as ([] & wa & Hmk1 & Hprep).
  apply bind_Ret_inv in Hprep as ([] & wb & Hmk2 & Hprep).
  apply bind_Ret_inv in Hprep as ([] & wc & Hwrite & Hprep).
  apply bind_Ret_inv in Hprep as ([] & wd & Hcopy & Hprep).
  unfold ret in Hprep. injection Hprep as <- <-.
  apply makedirs_Ret_inv in Hmk1. apply makedirs_Ret_inv in Hmk2.
  apply write_Ret_inv in Hwrite.
  unfold Os.copy in Hcopy.
  apply bind_Ret_inv in Hcopy as (f & we & Hread & Hcopy).
  apply read_Ret_inv in Hread as [-> Hf]. apply write_Ret_inv in Hcopy.
  fold (session_template_path secure_filename now) in *.
  assert (f = FPdf pages) as ->.
  { rewrite Hwrite in Hf. simpl in Hf.
    rewrite lookup_insert_ne in Hf
      by (intros Heq; symmetry in Heq;
          by apply local_template_ne_session in Heq).
    rewrite Hmk2, Hmk1, Htpl in Hf. by simplify_eq. }
  simpl. exists Pandas.ExcelFormatError.
  apply (f_equal fst (x := _) (y := (Raise Pandas.ExcelFormatError, wd))).
  apply bind_raise_eq. unfold read_data.
  change (Py.lower (OsPath.splitext_ext "template.pdf")) with ".pdf".
  rewrite bool_decide_eq_false_2 by discriminate.
  apply bind_raise_eq. unfold Pandas.read_excel, bind, Os.read.
  rewrite Hcopy. simpl. by rewrite lookup_insert_eq.
Qed.

Lemma X19_witness :
  let up := Upload "template.pdf" (Demo.workbook [Demo.ann]) in
  Demo.secure_filename "template.pdf" = "template.pdf"
  ∧ ∃ e, (process_files Demo.secure_filename Demo.cwd Demo.now (Some up) Demo.w0).1
         = Raise e.
Proof.
  intros up. split; [reflexivity|].
  refine (X19_upload_named_like_the_template_is_overwritten
            Demo.secure_filename Demo.cwd Demo.now up Demo.template Demo.w0 _ _ _).
  - reflexivity.
  - discriminate.
  - vm_compute; reflexivity.
Defined.

(** ** The default template *)

Module LocalTemplate.

Import PyFacts.

Lemma local_path_eq cwd :
  LOCAL_TEMPLATE_PATH cwd = dir_prefix cwd +:+ "BLANK_CDAI_APP_DEC-25.pdf".
Proof.
  unfold LOCAL_TEMPLATE_PATH.
  change "BLANK_CDAI_APP_DEC-25.pdf" with (String "B" "LANK_CDAI_APP_DEC-25.pdf").
  by rewrite join_relative.
Qed.

Lemma rev_local cwd :
  String.rev (LOCAL_TEMPLATE_PATH cwd)
  = "fdp.52-CED_PPA_IADC_KNALB" +:+ String.rev (dir_prefix cwd).
Proof. by rewrite local_path_eq, rev_app. Qed.

Lemma local_ne_out cwd comp data : LOCAL_TEMPLATE_PATH cwd ≠ out_pdf_of comp data.
Proof.
  destruct (Paths.out_pdf_suffix comp data) as [x ->].
  intros H. apply (f_equal String.rev) in H. rewrite rev_local, rev_app in H.
  change (String.rev "_CDAI.pdf") with "fdp.IADC_" in H.
  rewrite ?app_cons, ?app_nil_l in H. discriminate H.
Qed.

Lemma local_ne_page cwd up i : LOCAL_TEMPLATE_PATH cwd ≠ page_path up i.
Proof.
  rewrite Paths.page_path_eq.
  intros H. apply (f_equal String.rev) in H. rewrite rev_local, !rev_app in H.
  change (String.rev ".pdf") with "fdp." in H.
  change (String.rev "page_") with "_egap" in H.
  rewrite !app_assoc in H. rewrite ?app_cons, ?app_nil_l in H.
  injection H as H.
  assert (Py.all_char is_digit (String.rev (pretty (i + 1)%nat)) = true) as Hd
    by (rewrite all_char_rev; apply pretty_nat_digits).
  destruct (split_at_non_digit (String.rev (pretty (i + 1)%nat)) "52" "_" "-"
              _ _ Hd eq_refl eq_refl eq_refl (eq_sym H)) as (_ & Hc & _).
  discriminate Hc.
Qed.

Lemma local_ne_filled cwd up i :
  Py.all_char not_dot up = true →
  LOCAL_TEMPLATE_PATH cwd ≠ filled_path (page_path up i).
Proof.
  intros Hup. rewrite Paths.filled_path_eq by done.
  intros H. apply (f_equal String.rev) in H. rewrite rev_local, !rev_app in H.
  change (String.rev "_filled.pdf") with "fdp.dellif_" in H.
  rewrite !app_assoc in H. rewrite ?app_cons, ?app_nil_l in H. discriminate H.
Qed.

Lemma local_not_in_scope cwd up comp data :
  Py.all_char not_dot up = true →
  ¬ record_scope up (out_pdf_of comp data) (LOCAL_TEMPLATE_PATH cwd).
Proof.
  intros Hup [H|[[i H]|[H|H]]].
  - by apply local_ne_out in H.
  - by apply local_ne_page in H.
  - by apply local_ne_filled in H.
  - by apply local_ne_filled in H.
Qed.

End LocalTemplate.

(** X20.  In a session whose upload folder has no dot in its name, the
    loop over the records never changes the default template of the
    server, whatever names the records hold and whatever the folders
    are. *)
Theorem X20_rows_keep_the_default_template
    (cwd tpl up comp : string) (rows : list (Z * record)) (st : batch) (w : world) :
  Py.all_char not_dot up = true →
  let r := for_each rows (process_row tpl up comp) st w in
  files r.2 !! LOCAL_TEMPLATE_PATH cwd = files w !! LOCAL_TEMPLATE_PATH cwd.
Proof.
  intros Hup r.
  destruct (touches_rows tpl up comp rows st w r.1 r.2) as [_ Hf].
  { apply surjective_pairing. }
  apply Hf. intros ([index data] & _ & Hscope).
  by apply (LocalTemplate.local_not_in_scope cwd up comp data).
Qed.

Lemma X20_witness :
  let rows := [(0, Demo.record_of Demo.ann); (1, Demo.record_of Demo.ann_slash)] in
  let r := for_each rows (process_row Demo.tpl Demo.up Demo.comp) (Batch [] [])
             Demo.started in
  Py.all_char not_dot Demo.up = true
  ∧ files r.2 !! LOCAL_TEMPLATE_PATH Demo.cwd
    = files Demo.started !! LOCAL_TEMPLATE_PATH Demo.cwd.
Proof.
  intros rows r.
  assert (Py.all_char not_dot Demo.up = true) as H by (vm_compute; reflexivity).
  split; [exact H|].
  exact (X20_rows_keep_the_default_template Demo.cwd Demo.tpl Demo.up Demo.comp rows
           (Batch [] []) Demo.started H).
Defined.

(** ** After a record that went through *)

(** X21.  When the body of the [try] statement returns, the paths that the
    split returned and the paths that were handed to the merge name no
    file any more: the split pages and the stamped pages of the record are
    removed. *)
Theorem X21_success_removes_the_pages_of_the_record
    (tpl up out : string) (data : record) (w w' : world) :
  try_body tpl up out data w = (Ret (), w') →
  ∃ pages filled_pages w1 w2,
    split_pdf tpl up w = (Ret pages, w1)
    ∧ fill_pages pages data w1 = (Ret filled_pages, w2)
    ∧ ∀ p, p ∈ pages ++ filled_pages → files w' !! p = None.
Proof. apply success_path_removes_pages. Qed.

Lemma X21_witness :
  let data := Demo.record_of Demo.ann in
  let out := out_pdf_of Demo.comp data in
  let r := try_body Demo.tpl Demo.up out data Demo.started in
  try_body Demo.tpl Demo.up out data Demo.started = (Ret (), r.2)
  ∧ ∃ pages filled_pages w1 w2,
      split_pdf Demo.tpl Demo.up Demo.started = (Ret pages, w1)
      ∧ fill_pages pages data w1 = (Ret filled_pages, w2)
      ∧ ∀ p, p ∈ pages ++ filled_pages → files r.2 !! p = None.
Proof.
  intros data out r.
  assert (try_body Demo.tpl Demo.up out data Demo.started = (Ret (), r.2)) as H
    by (vm_compute; reflexivity).
  split; [exact H|].
  exact (X21_success_removes_the_pages_of_the_record Demo.tpl Demo.up out data
           Demo.started r.2 H).
Defined.

(** ** Row identifiers *)

Module SignFacts.
Import PyFacts.

Lemma split_at_stop (P : ascii → bool) (a b : string) c1 c2 (s t : string) :
  Py.all_char P a = true → Py.all_char P b = true →
  P c1 = false → P c2 = false →
  a +:+ String c1 s = b +:+ String c2 t → a = b ∧ c1 = c2 ∧ s = t.
Proof.
  revert b. induction a as [|x a IH]; intros [|y b] Ha Hb H1 H2 Heq;
    rewrite ?app_cons, ?app_nil_l in Heq; simplify_eq/=.
  - done.
  - apply andb_true_iff in Hb as [Hb _]. congruence.
  - apply andb_true_iff in Ha as [Ha _]. congruence.
  - apply andb_true_iff in Ha as [_ Ha]. apply andb_true_iff in Hb as [_ Hb].
    destruct (IH b Ha Hb H1 H2) as (-> & -> & ->); done.
Qed.

Lemma digits_sign (s : string) :
  Py.all_char is_digit s = true → Py.all_char is_sign_or_digit s = true.
Proof.
  induction s as [|a s IH]; [done|]. simpl.
  intros [Ha Hs]%andb_true_iff. unfold is_sign_or_digit at 1.
  by rewrite Ha, (IH Hs).
Qed.

Lemma pretty_Z_sign_digits (z : Z) : Py.all_char is_sign_or_digit (pretty z) = true.
Proof.
  destruct z as [|p|p]; [done| |].
  - apply digits_sign.
    unfold pretty, pretty_Z, pretty, pretty_positive, pretty, pretty_N.
    case_decide; [done|]. by apply pretty_N_go_digits.
  - unfold pretty, pretty_Z. rewrite app_cons, app_nil_l. simpl.
    apply digits_sign.
    unfold pretty, pretty_positive, pretty, pretty_N.
    case_decide; [done|]. by apply pretty_N_go_digits.
Qed.

End SignFacts.

(** X22.  The row identifier of a report entry tells the index label of
    the record: two records with different integer labels, negative ones
    included, never get the same row identifier, whatever their names
    are. *)
Theorem X22_row_identifiers_are_unique
    (i j : Z) (data data' : record) :
  i ≠ j → row_identifier i data ≠ row_identifier j data'.
Proof.
  intros Hij. unfold row_identifier. intros H.
  apply String.app_inj in H.
  change (" (Patient: " +:+ patient_name data +:+ ")")
    with (String " " ("(Patient: " +:+ patient_name data +:+ ")")) in H.
  change (" (Patient: " +:+ patient_name data' +:+ ")")
    with (String " " ("(Patient: " +:+ patient_name data' +:+ ")")) in H.
  apply (SignFacts.split_at_stop is_sign_or_digit) in H as (H & _);
    [|apply SignFacts.pretty_Z_sign_digits..|done|done].
  apply (inj pretty) in H. lia.
Qed.

Lemma X22_witness :
  (-5) ≠ 9
  ∧ row_identifier (-5) (Demo.record_of Demo.ann)
    ≠ row_identifier 9 (Demo.record_of Demo.ann).
Proof.
  assert ((-5) ≠ 9) as H by lia.
  split; [exact H|].
  exact (X22_row_identifiers_are_unique (-5) 9 (Demo.record_of Demo.ann)
           (Demo.record_of Demo.ann) H).
Defined.

(** ** The answers of the handler *)

(** X23.  When [process_files] returns an answer, it is one of four: the
    three refusals "Missing data file" (400), "Server Error: Default PDF
    template not found." (500) and "No selected file" (400), or the archive
    of the session.  The empty-batch message is not among them: no request
    is ever answered with it. *)
Theorem X23_the_answers_of_process_files
    (secure_filename : string → string) (cwd now : string)
    (data_file : option upload) (w w' : world) (r : response) :
  process_files secure_filename cwd now data_file w = (Ret r, w') →
  r ∈ [Status "Missing data file" 400;
       Status "Server Error: Default PDF template not found." 500;
       Status "No selected file" 400;
       SendFile (zip_path secure_filename now)].
Proof.
  unfold process_files. destruct data_file as [data_file|].
  2:{ unfold ret. intros [= <- _]. set_solver. }
  intros H. apply bind_Ret_inv in H as (present & w1 & _ & H).
  destruct (negb present); [unfold ret in H; injection H as <- _; set_solver|].
  case_bool_decide; [unfold ret in H; injection H as <- _; set_solver|].
  apply bind_Ret_inv in H as (names & w2 & _ & H).
  apply bind_Ret_inv in H as (df & w3 & _ & H).
  apply bind_Ret_inv in H as (st & w4 & Hrows & H).
  apply run_rows_log_length in Hrows.
  apply finish_sends_archive in H as ->; [set_solver | lia].
Qed.

Lemma X23_witness :
  let r := Demo.run "patients.csv" (Demo.csv []) in
  process_files Demo.secure_filename Demo.cwd Demo.now
    (Some (Upload "patients.csv" (Demo.csv []))) Demo.w0
  = (Ret (SendFile (zip_path Demo.secure_filename Demo.now)), r.2)
  ∧ SendFile (zip_path Demo.secure_filename Demo.now)
    ∈ [Status "Missing data file" 400;
       Status "Server Error: Default PDF template not found." 500;
       Status "No selected file" 400;
       SendFile (zip_path Demo.secure_filename Demo.now)].
Proof.
  intros r.
  assert (process_files Demo.secure_filename Demo.cwd Demo.now
            (Some (Upload "patients.csv" (Demo.csv []))) Demo.w0
          = (Ret (SendFile (zip_path Demo.secure_filename Demo.now)), r.2)) as H
    by (vm_compute; reflexivity).
  split; [exact H|].
  exact (X23_the_answers_of_process_files Demo.secure_filename Demo.cwd Demo.now
           _ Demo.w0 r.2 _ H).
Defined.
